(** * TRIAGE2 clinical decision support: client, schema and decision contract

  A shallow embedding of the repository's TypeScript client
  ([lib/api.ts], the page components and [types/index.ts]) and of its
  PostgreSQL schema, together with the properties the specification
  states about them.

  Conventions.  A JavaScript [string | null] is an [option string];
  JavaScript truthiness is written out ([truthy]).  Module-level
  variables and [localStorage] live in an explicit [Browser] store that
  every API function threads.  An [async] function that may throw returns
  a [Completion].  The network is an oracle from requests to replies. *)

From Stdlib Require Import ZArith QArith Qround Lqa Bool List.
From stdpp Require Import base option strings list gmap pretty.

Open Scope string_scope.

(** ** JavaScript values *)

Module Js.

(** [if (s)] on a [string | null | undefined]: the empty string, [null]
    and [undefined] are falsy. *)
Definition truthy (v : option string) : bool :=
  match v with
  | Some (String _ _) => true
  | Some EmptyString => false
  | None => false
  end.

(** [a ?? b]: only [null] and [undefined] fall through. *)
Definition nullish {A} (a : option A) (b : A) : A :=
  match a with Some x => x | None => b end.

(** [a || b] on strings whose result is kept as [string | undefined]. *)
Definition or_undefined (s : string) : option string :=
  if truthy (Some s) then Some s else None.

(** The outcome of awaiting a promise: it resolves with a value or it
    rejects with an [Error] whose [message] is kept. *)
Inductive Completion (A : Type) : Type :=
| Resolved (v : A)
| Rejected (message : string).
Arguments Resolved {A} v.
Arguments Rejected {A} message.

(** A JavaScript number as the client produces it with [parseInt] and
    [parseFloat]: [NaN] or a finite decimal. *)
Inductive num : Type :=
| NaN
| Fin (q : Q).

End Js.
Export Js.

(** ** [types/index.ts]: the client's data model

    Each interface is a record in a module of its own, so that fields keep
    the names they have in the source.  Optional members ([x?: T]) are
    options. *)

Module Types.

Inductive RiskLevel : Type := low | moderate | high | critical.
Inductive SexEnum : Type := male | female | other.

(** [AdviceType]; the member the source spells "admit" is [admit_]. *)
Inductive AdviceType : Type :=
| urgent_referral | observe_2h | manage_locally | start_iv_fluids | admit_ | custom.

Inductive Role : Type := phw | specialist.

#[global] Instance RiskLevel_eq_dec : EqDecision RiskLevel.
Proof. solve_decision. Defined.

(** Symptom severity, "mild" | "moderate" | "severe". *)
Inductive Severity : Type := mild | moderate_severity | severe.

(** Medication-warning severity adds "contraindicated". *)
Inductive MedSeverity : Type := med_mild | med_moderate | med_severe | contraindicated.

Inductive WarningType : Type := ddi | drug_condition | drug_symptom.

(** A value of type [unknown] as the client's data has it. *)
Inductive Unknown : Type := UNum (q : Q) | UBool (b : bool) | UStr (s : string).

Module LoginRequest.
Record t : Type := mk { username : string; password : string }.
End LoginRequest.

Module TokenResponse.
Record t : Type := mk {
  access_token : string;
  token_type : string;
  role : Role;
  full_name : string;
}.
End TokenResponse.

Module User.
Record t : Type := mk {
  id : string;
  email : string;
  full_name : string;
  role : Role;
  facility : option string;
}.
End User.

Module VitalsInput.
Record t : Type := mk {
  systolic_bp : num;
  diastolic_bp : num;
  heart_rate : num;
  respiratory_rate : num;
  spo2 : num;
  temperature : num;
  blood_glucose_mgdl : option num;
  weight_kg : option num;
  gcs_score : option num;
}.
End VitalsInput.

Module VulnerabilityFlags.
Record t : Type := mk {
  pregnant : bool;
  diabetic : bool;
  elderly : bool;
  heart_disease : bool;
  immunocompromised : bool;
}.
End VulnerabilityFlags.

Module MedicationInput.
Record t : Type := mk {
  rxnorm_code : option string;
  drug_name : string;
  dose : option string;
  frequency : option string;
  route : option string;
}.
End MedicationInput.

Module SymptomInput.
Record t : Type := mk {
  symptom_name : string;
  is_red_flag : bool;
  severity : option Severity;
  duration_hours : option num;
}.
End SymptomInput.

Module PatientIntakeRequest.
Record t : Type := mk {
  patient_name : string;
  age : num;
  sex : option SexEnum;
  village : option string;
  district : option string;
  vulnerability_flags : VulnerabilityFlags.t;
  vitals : VitalsInput.t;
  medications : list MedicationInput.t;
  symptoms : list SymptomInput.t;
  chief_complaint : string;
}.
End PatientIntakeRequest.

Module SHAPFeature.
Record t : Type := mk {
  feature : string;
  value : Unknown;
  shap_value : Q;
  label : string;
}.
End SHAPFeature.

Module MedWarning.
Record t : Type := mk {
  drug1 : string;
  drug2 : option string;
  warning_type : WarningType;
  severity : MedSeverity;
  message : string;
  action_required : bool;
  override_triggered : bool;
}.
End MedWarning.

Module RuleEngineResult.
Record t : Type := mk {
  triggered : bool;
  risk_level : option RiskLevel;
  reasons : list string;
  override_ml : bool;
}.
End RuleEngineResult.

Module MLResult.
Record t : Type := mk {
  risk_probability : Q;
  risk_level : RiskLevel;
  shap_features : list SHAPFeature.t;
  shap_text : string;
}.
End MLResult.

Module RiskAssessmentResponse.
Record t : Type := mk {
  assessment_id : string;
  case_id : string;
  final_risk_level : RiskLevel;
  final_risk_score : Q;
  rule_engine : RuleEngineResult.t;
  ml_result : option MLResult.t;
  med_warnings : list MedWarning.t;
  recommendation : string;
  escalation_suggested : bool;
  assessed_at : string;
}.
End RiskAssessmentResponse.

Module Sbar.
Record t : Type := mk {
  situation : string;
  background : string;
  assessment : string;
  recommendation : string;
}.
End Sbar.

Module EscalationResponse.
Record t : Type := mk {
  case_id : string;
  specialist_magic_link : string;
  sbar : Sbar.t;
  escalated_at : string;
}.
End EscalationResponse.

(** [Case["status"]]: "active" | "escalated" | "advised" | "closed". *)
Inductive CaseStatus : Type := active | escalated | advised | closed.

Module Case.
Record t : Type := mk {
  id : string;
  patient_name : string;
  age : Z;
  sex : SexEnum;
  chief_complaint : string;
  risk_level : RiskLevel;
  risk_score : Q;
  status : CaseStatus;
  created_at : string;
  escalated_at : option string;
  phw_name : option string;
}.
End Case.

Module SpecialistAdviceRequest.
Record t : Type := mk {
  case_id : string;
  advice_type : AdviceType;
  custom_notes : option string;
  medications_advised : list string;
  investigations : list string;
  follow_up_hours : option num;
}.
End SpecialistAdviceRequest.

Module SpecialistPortalData.
Record PatientSummary : Type := mkSummary {
  age : Z;
  sex : SexEnum;
  vulnerability_flags : VulnerabilityFlags.t;
}.
Record t : Type := mk {
  case_id : string;
  patient_summary : PatientSummary;
  vitals : VitalsInput.t;
  symptoms : list SymptomInput.t;
  medications : list MedicationInput.t;
  risk_assessment : RiskAssessmentResponse.t;
  sbar : Sbar.t;
  phw_name : string;
  facility : string;
  escalated_at : string;
}.
End SpecialistPortalData.

(** The text a status or level has on the wire and in the database. *)
Definition RiskLevel_text (l : RiskLevel) : string :=
  match l with
  | low => "low" | moderate => "moderate" | high => "high" | critical => "critical"
  end.

Definition CaseStatus_text (s : CaseStatus) : string :=
  match s with
  | active => "active" | escalated => "escalated" | advised => "advised" | closed => "closed"
  end.

End Types.

(** ** [lib/api.ts]: token storage *)

Module Api.

(** The mutable world the API client touches: the module variable
    [_token], whether [window] is defined (browser as opposed to server
    rendering), and the browser's [localStorage]. *)
Record Browser : Type := mkBrowser {
  _token : option string;
  has_window : bool;
  localStorage : gmap string string;
}.

Definition setToken (token : option string) (b : Browser) : Browser :=
  if has_window b then
    if truthy token then
      mkBrowser token true (<["cdss_token" := default "" token]> (localStorage b))
    else
      mkBrowser token true (delete "cdss_token" (localStorage b))
  else
    mkBrowser token false (localStorage b).

Definition getToken (b : Browser) : option string * Browser :=
  if truthy (_token b) then (_token b, b)
  else if has_window b then
    let t := localStorage b !! "cdss_token" in
    (t, mkBrowser t true (localStorage b))
  else (_token b, b).

Definition clearToken (b : Browser) : Browser := setToken None b.

(** A page reload: module state is re-initialised ([let _token = null]),
    [localStorage] survives. *)
Definition reload (b : Browser) : Browser :=
  mkBrowser None (has_window b) (localStorage b).

(** ** [lib/api.ts]: HTTP helpers *)

Import Types.

(** [process.env] as the client reads it. *)
Record Env : Type := mkEnv {
  NEXT_PUBLIC_API_URL : option string;
  NEXT_PUBLIC_WS_URL : option string;
}.

Definition BASE_URL (env : Env) : string :=
  nullish (NEXT_PUBLIC_API_URL env) "http://localhost:8000/api/v1".

(** What [JSON.stringify(body)] is applied to, by endpoint. *)
Inductive Payload : Type :=
| IntakePayload (p : PatientIntakeRequest.t)
| EscalatePayload (case_id escalation_reason : string) (specialist_id : option string)
| AdvicePayload (a : SpecialistAdviceRequest.t).

(** A request body: the JSON text of a payload, or the url-encoded form
    of [URLSearchParams]. *)
Inductive Body : Type :=
| JsonBody (p : Payload)
| FormBody (fields : list (string * string)).

(** [RequestInit] as far as the client sets it. *)
Record RequestInit : Type := mkInit {
  method : option string;
  body : option Body;
  headers : option (gmap string string);
}.

(** What [fetch(url, init)] sends. *)
Record HttpRequest : Type := mkRequest {
  url : string;
  req_method : option string;
  req_headers : gmap string string;
  req_body : option Body;
}.

(** The JSON object of an error reply, read through the two members the
    client looks at. *)
Record ErrorJson : Type := mkErrorJson {
  detail : option string;
  error : option string;
}.

(** A reply.  [response.ok] is false ([Failure]) or true ([Success]); the
    body is absent when [response.json()] rejects.  A successful reply's
    body is read at the type the caller casts it to. *)
Inductive Response (T : Type) : Type :=
| Failure (status : nat) (json : option ErrorJson)
| Success (status : nat) (json : option T).
Arguments Failure {T} status json.
Arguments Success {T} status json.

(** [fetch] rejects (no connection) or resolves with a reply. *)
Inductive FetchResult (T : Type) : Type :=
| NetworkError (message : string)
| Reply (r : Response T).
Arguments NetworkError {T} message.
Arguments Reply {T} r.

Definition Fetch (T : Type) : Type := HttpRequest -> FetchResult T.

Section Client.

Variable env : Env.

(** [request<T>(path, options = {}, auth = true)], first half: the
    headers are built (the spread lets [options.headers] override the
    content type), the bearer token is attached when [auth] is set and a
    token is there, and the request is handed to [fetch]. *)
Definition prepare (path : string) (options : RequestInit) (auth : bool) (b : Browser)
    : HttpRequest * Browser :=
  let headers0 : gmap string string :=
    default ∅ (headers options) ∪ {["Content-Type" := "application/json"]} in
  let '(hdrs, b1) :=
    if auth then
      let '(token, b1) := getToken b in
      ((if truthy token
        then <["Authorization" := "Bearer " ++ default "" token]> headers0
        else headers0), b1)
    else (headers0, b) in
  (mkRequest (BASE_URL env ++ path) (method options) hdrs (body options), b1).

(** Second half: what [request] makes of the reply.  The result is [None]
    for [undefined] (a 204 reply). *)
Definition settle {T} (r : FetchResult T) : Completion (option T) :=
  match r with
  | NetworkError m => Rejected m
  | Reply (Failure status json) =>
      let errorMsg := "HTTP " ++ pretty status in
      let errorMsg :=
        match json with
        | Some err => nullish (detail err) (nullish (error err) errorMsg)
        | None => errorMsg (* ignore parse errors *)
        end in
      Rejected errorMsg
  | Reply (Success status json) =>
      if Nat.eqb status 204 then Resolved None
      else match json with
           | Some v => Resolved (Some v)
           | None => Rejected "Unexpected end of JSON input"
           end
  end.

Definition request {T} (fetch : Fetch T) (path : string) (options : RequestInit)
    (auth : bool) (b : Browser) : Completion (option T) * Browser :=
  let '(r, b1) := prepare path options auth b in
  (settle (fetch r), b1).

Definition get {T} (fetch : Fetch T) (path : string) (auth : bool) :=
  request fetch path (mkInit (Some "GET") None None) auth.

Definition post {T} (fetch : Fetch T) (path : string) (body : Payload) (auth : bool) :=
  request fetch path (mkInit (Some "POST") (Some (JsonBody body)) None) auth.

(** [login(creds)]: a form post outside [request]; on success the access
    token is stored. *)
Definition login (fetch : Fetch TokenResponse.t) (creds : LoginRequest.t)
    (b : Browser) : Completion TokenResponse.t * Browser :=
  let form := [("username", LoginRequest.username creds);
               ("password", LoginRequest.password creds)] in
  match fetch (mkRequest (BASE_URL env ++ "/auth/login") (Some "POST")
                 {["Content-Type" := "application/x-www-form-urlencoded"]}
                 (Some (FormBody form))) with
  | NetworkError m => (Rejected m, b)
  | Reply (Failure _ json) =>
      let err := default (mkErrorJson None None) json in
      (Rejected (nullish (detail err) "Login failed"), b)
  | Reply (Success _ None) => (Rejected "Unexpected end of JSON input", b)
  | Reply (Success _ (Some data)) =>
      (Resolved data, setToken (Some (TokenResponse.access_token data)) b)
  end.

Definition logout (b : Browser) : Browser := clearToken b.

Definition getCases (fetch : Fetch (list Case.t)) :=
  get fetch "/cases" true.

Definition getCase (fetch : Fetch Case.t) (caseId : string) :=
  get fetch ("/cases/" ++ caseId) true.

Definition analyzeRisk (fetch : Fetch RiskAssessmentResponse.t)
    (payload : PatientIntakeRequest.t) :=
  post fetch "/analyze/risk" (IntakePayload payload) true.

Definition escalateCase (fetch : Fetch EscalationResponse.t)
    (caseId reason : string) (specialistId : option string) :=
  post fetch "/escalate" (EscalatePayload caseId reason specialistId) true.

Definition getSpecialistPortal (fetch : Fetch SpecialistPortalData.t) (token : string) :=
  get fetch ("/specialist/portal/" ++ token) false.

(** The reply to an advice submission, [{ status, case_id }]. *)
Record AdviceAck : Type := mkAck { ack_status : string; ack_case_id : string }.

Definition submitAdvice (fetch : Fetch AdviceAck) (advice : SpecialistAdviceRequest.t) :=
  post fetch "/specialist/advice" (AdvicePayload advice) false.

(** ** [lib/api.ts]: the per-case live-event socket

    [JSON.parse] is the platform's; [Json] is whatever it yields (the
    cast to [WSMessage] is unchecked).  The subscriber's callback runs on a
    state of its own and may throw.  The handler's world records each
    callback invocation and each console line, so that they can be
    counted. *)

Section WebSocket.

Variable Json : Type.
Variable JSON_parse : string -> option Json.
Variable Sub : Type.

Inductive ConsoleLine : Type :=
| Warn (label data : string).

Record Handler : Type := mkHandler {
  subscriber : Sub;
  invocations : list Json;
  console : list ConsoleLine;
}.

(** [ws.onmessage = (event) => { try { ... } catch { console.warn(...) } }] *)
Definition onmessage (onMessage : Json -> Sub -> Completion unit * Sub)
    (data : string) (w : Handler) : Completion unit * Handler :=
  match JSON_parse data with
  | None =>
      (Resolved tt,
       mkHandler (subscriber w) (invocations w)
                 (console w ++ [Warn "WS parse error" data]))
  | Some msg =>
      match onMessage msg (subscriber w) with
      | (Resolved _, s) =>
          (Resolved tt, mkHandler s (invocations w ++ [msg]) (console w))
      | (Rejected _, s) =>
          (Resolved tt,
           mkHandler s (invocations w ++ [msg])
                     (console w ++ [Warn "WS parse error" data]))
      end
  end.

(** The socket [createCaseWebSocket] opens: its url and its message
    handler. *)
Definition createCaseWebSocket (caseId : string)
    (onMessage : Json -> Sub -> Completion unit * Sub) (b : Browser)
    : (string * (string -> Handler -> Completion unit * Handler)) * Browser :=
  let WS_BASE := nullish (NEXT_PUBLIC_WS_URL env) "ws://localhost:8000" in
  let '(token, b1) := getToken b in
  let url := WS_BASE ++ "/ws/case/" ++ caseId
             ++ (if truthy token then "?token=" ++ default "" token else "") in
  ((url, onmessage onMessage), b1).

End WebSocket.

End Client.

Arguments mkHandler {Json Sub} subscriber invocations console.
Arguments subscriber {Json Sub} h.
Arguments invocations {Json Sub} h.
Arguments console {Json Sub} h.
Arguments onmessage {Json} JSON_parse {Sub} onMessage data w.

End Api.

(** ** [components/pages/LoginPage.tsx] *)

Module LoginPage.

Import Types Api.

Record DemoAccount : Type := mkDemo {
  email : string;
  password : string;
  role : string;
  name : string;
  id : string;
}.

Definition DEMO_ACCOUNTS : list DemoAccount :=
  [ mkDemo "phw@phc.in" "demo123" "PHW" "Priya Sharma" "phw-001";
    mkDemo "doctor@hospital.in" "demo123" "Specialist" "Dr. Arjun Mehta" "spec-001" ].

(** The component's [useState] cells. *)
Record State : Type := mkState {
  st_email : string;
  st_password : string;
  loading : bool;
  error : option string;
  showPass : bool;
}.

(** What one run of a handler leaves behind: the component state, the
    user [onSuccess] was called with (if it was called), and the browser
    store. *)
Record Run : Type := mkRun {
  state : State;
  onSuccess : option User.t;
  browser : Browser;
}.

Definition with_result (st : State) (err : option string) : State :=
  mkState (st_email st) (st_password st) false err (showPass st).

(** [fillDemo(acc)]: the demo account's credentials are put in the form
    and the error is cleared. *)
Definition fillDemo (acc : DemoAccount) (st : State) : State :=
  mkState (email acc) (password acc) (loading st) None (showPass st).

(** [DEMO_ACCOUNTS.find((a) => a.email === email && a.password === password)] *)
Definition demo_account (st : State) : option DemoAccount :=
  find (fun a => String.eqb (email a) (st_email st)
                 && String.eqb (password a) (st_password st))
       DEMO_ACCOUNTS.

Section Handlers.

Variable env : Env.
(** [Date.now()] at the time of the call. *)
Variable now : Z.

(** [handleSubmit]: [setError(null)], [setLoading(true)], then the
    [try]/[catch]/[finally]. *)
Definition handleSubmit (fetch : Fetch TokenResponse.t) (st : State) (b : Browser) : Run :=
  match login env fetch (LoginRequest.mk (st_email st) (st_password st)) b with
  | (Resolved data, b1) =>
      mkRun (with_result st None)
            (Some (User.mk ("user-" ++ pretty now) (st_email st)
                           (TokenResponse.full_name data)
                           (TokenResponse.role data) None))
            b1
  | (Rejected message, b1) =>
      (* Demo mode fallback: match credentials locally *)
      match demo_account st with
      | Some demo =>
          mkRun (with_result st None)
                (Some (User.mk (id demo) (email demo) (name demo)
                               (if String.eqb (role demo) "PHW" then phw else specialist)
                               None))
                (setToken (Some ("demo-token-" ++ role demo)) b1)
      | None => mkRun (with_result st (Some message)) None b1
      end
  end.

End Handlers.

(** [{error && (<div className="alert alert-critical"> ... <span>{error}</span></div>)}]:
    the text of the alert the page renders, if it renders one. *)
Definition alert (st : State) : option string :=
  if truthy (error st) then error st else None.

End LoginPage.

(** ** [components/pages/SpecialistPortalPage.tsx] *)

Module SpecialistPortalPage.

Import Types Api.

(** The component's [useState] cells ([wsMessages], which only the live
    banner reads, is left out). *)
Record State : Type := mkState {
  data : option SpecialistPortalData.t;
  loading : bool;
  error : option string;
  submitted : bool;
  adviceType : option AdviceType;
  customNotes : string;
  selectedMeds : list string;
  selectedInvest : list string;
  followUpHours : string;
  submitting : bool;
}.

(** The state a freshly mounted page starts from. *)
Definition initial : State :=
  mkState None true None false None "" [] [] "" false.

(** The updater of [toggleMed] and [toggleInvest]:
    [prev.includes(m) ? prev.filter((x) => x !== m) : [...prev, m]]. *)
Definition toggle (m : string) (prev : list string) : list string :=
  if existsb (String.eqb m) prev
  then List.filter (fun x => negb (String.eqb x m)) prev
  else prev ++ [m].

Definition toggleMed (m : string) (st : State) : State :=
  mkState (data st) (loading st) (error st) (submitted st) (adviceType st) (customNotes st)
          (toggle m (selectedMeds st)) (selectedInvest st) (followUpHours st) (submitting st).

Definition toggleInvest (inv : string) (st : State) : State :=
  mkState (data st) (loading st) (error st) (submitted st) (adviceType st) (customNotes st)
          (selectedMeds st) (toggle inv (selectedInvest st)) (followUpHours st) (submitting st).

(** The live banner's updater, [(prev) => [msg, ...prev].slice(0, 5)]. *)
Definition onLiveMessage {Msg : Type} (msg : Msg) (prev : list Msg) : list Msg :=
  take 5 (msg :: prev).

Section Page.

Variable env : Env.
(** [new Date().toISOString()] at the time of the call. *)
Variable now_iso : string.
Variable parseInt : string -> num.

(** The hard-coded bundle of the [catch] branch of [loadPortal]. *)
Definition demo : SpecialistPortalData.t :=
  SpecialistPortalData.mk
    "demo-case-001"
    (SpecialistPortalData.mkSummary 32 female
       (VulnerabilityFlags.mk true false false false false))
    (VitalsInput.mk (Fin 155) (Fin 100) (Fin 98) (Fin 20) (Fin 97) (Fin (372 # 10))
                    None None None)
    [ SymptomInput.mk "Severe headache" true (Some severe) (Some (Fin 6));
      SymptomInput.mk "Blurred vision" true (Some severe) (Some (Fin 4)) ]
    [ MedicationInput.mk None "Iron supplement" (Some "100mg") None None;
      MedicationInput.mk None "Folic acid" (Some "5mg") None None ]
    (RiskAssessmentResponse.mk
       "assess-demo" "demo-case-001" critical (91 # 100)
       (RuleEngineResult.mk true (Some critical)
          ["Pregnancy hypertension (possible preeclampsia): BP 155/100 mmHg"] true)
       (Some (MLResult.mk (84 # 100) high
          [ SHAPFeature.mk "systolic_bp" (UNum 155) (38 # 100)
              "Elevated BP (155 mmHg) is top risk driver";
            SHAPFeature.mk "pregnant" (UBool true) (29 # 100)
              "Pregnancy flag significantly elevates risk";
            SHAPFeature.mk "headache" (UBool true) (18 # 100)
              "Severe headache is a red-flag symptom" ]
          "Pregnancy + elevated BP + severe headache suggest preeclampsia — high risk."))
       []
       "⚠️ IMMEDIATE ESCALATION REQUIRED. Signs consistent with preeclampsia. Maternal emergency protocol — ensure IV access, monitor fetal heart rate."
       true now_iso)
    (Sbar.mk
       "32-year-old pregnant female (34 weeks) presenting with BP 155/100 mmHg, severe headache, and blurred vision."
       "No prior hypertension. On iron + folic acid. Escalated by PHW Priya Sharma, PHC Wardha Rural."
       "AI classified CRITICAL (score 0.91). Rule engine triggered: pregnancy hypertension (possible preeclampsia). ML risk: 84%."
       "Urgent specialist assessment required. Consider magnesium sulfate for seizure prophylaxis. Antihypertensive therapy indicated.")
    "Priya Sharma" "PHC Wardha Rural" now_iso.

Definition set_data (st : State) (d : option SpecialistPortalData.t) : State :=
  mkState d false (error st) (submitted st) (adviceType st) (customNotes st)
          (selectedMeds st) (selectedInvest st) (followUpHours st) (submitting st).

(** [loadPortal], the effect run for the page's [token]. *)
Definition loadPortal (fetch : Fetch SpecialistPortalData.t) (token : string)
    (st : State) (b : Browser) : State * Browser :=
  match getSpecialistPortal env fetch token b with
  | (Resolved portalData, b1) => (set_data st portalData, b1)
  | (Rejected _, b1) => (* Demo fallback *) (set_data st (Some demo), b1)
  end.

Definition set_submitted (st : State) : State :=
  mkState (data st) (loading st) (error st) true (adviceType st) (customNotes st)
          (selectedMeds st) (selectedInvest st) (followUpHours st) false.

(** The advice [handleSubmitAdvice] sends for the case on display. *)
Definition advice_of (st : State) (d : SpecialistPortalData.t) (a : AdviceType)
    : SpecialistAdviceRequest.t :=
  SpecialistAdviceRequest.mk
    (SpecialistPortalData.case_id d) a
    (or_undefined (customNotes st))
    (selectedMeds st) (selectedInvest st)
    (if truthy (Some (followUpHours st)) then Some (parseInt (followUpHours st)) else None).

(** [handleSubmitAdvice]; the second component is the request outcome
    ([None] when the guard returns before any request). *)
Definition handleSubmitAdvice (fetch : Fetch AdviceAck) (st : State) (b : Browser)
    : State * option (Completion (option AdviceAck)) * Browser :=
  match adviceType st, data st with
  | Some a, Some d =>
      match submitAdvice env fetch (advice_of st d a) b with
      | (Resolved ack, b1) => (set_submitted st, Some (Resolved ack), b1)
      | (Rejected m, b1) => (* Demo: just show success *)
                            (set_submitted st, Some (Rejected m), b1)
      end
  | _, _ => (st, None, b)
  end.

(** What the component renders. *)
Inductive View : Type :=
| LoadingView
| PortalNotFound
| CaseReview (d : SpecialistPortalData.t)
| AdviceSubmitted (d : SpecialistPortalData.t).

Definition render (st : State) : View :=
  if loading st then LoadingView
  else match (if truthy (error st) then None else data st) with
       | None => PortalNotFound
       | Some d => if submitted st then AdviceSubmitted d else CaseReview d
       end.

End Page.

End SpecialistPortalPage.

(** ** [components/pages/IntakePage.tsx] *)

Module IntakePage.

Import Types Api.

Record FormState : Type := mkForm {
  (* Step 1: Demographics *)
  patient_name : string;
  age : string;
  sex : option SexEnum;
  village : string;
  district : string;
  pregnant : bool;
  diabetic : bool;
  elderly : bool;
  heart_disease : bool;
  immunocompromised : bool;
  (* Step 2: Vitals *)
  systolic_bp : string;
  diastolic_bp : string;
  heart_rate : string;
  respiratory_rate : string;
  spo2 : string;
  temperature : string;
  blood_glucose_mgdl : string;
  weight_kg : string;
  gcs_score : string;
  (* Step 3: Medications & Symptoms *)
  medications : list MedicationInput.t;
  symptoms : list SymptomInput.t;
  (* Step 4: Chief Complaint *)
  chief_complaint : string;
}.

Definition INITIAL : FormState :=
  mkForm "" "" None "" "" false false false false false
         "" "" "" "" "" "" "" "" "" [] [] "".

Record State : Type := mkState {
  step : nat;
  form : FormState;
  loading : bool;
  error : option string;
}.

(** The bounds each [VitalInput] of step 1 is rendered with. *)
Record Bounds : Type := mkBounds { min : Q; max : Q }.

Definition systolic_bp_bounds : Bounds := mkBounds 40 350.
Definition diastolic_bp_bounds : Bounds := mkBounds 20 250.
Definition heart_rate_bounds : Bounds := mkBounds 20 350.
Definition respiratory_rate_bounds : Bounds := mkBounds 4 80.
Definition spo2_bounds : Bounds := mkBounds 50 100.
Definition temperature_bounds : Bounds := mkBounds 30 45.
Definition blood_glucose_bounds : Bounds := mkBounds 20 1000.
Definition weight_kg_bounds : Bounds := mkBounds 1 300.
Definition gcs_score_bounds : Bounds := mkBounds 3 15.

(** [num >= min && num <= max]; every comparison with [NaN] is false. *)
Definition between (n : num) (bd : Bounds) : bool :=
  match n with
  | NaN => false
  | Fin q => Qle_bool (min bd) q && Qle_bool q (max bd)
  end.

Section Page.

Variable env : Env.
Variable parseInt : string -> num.
Variable parseFloat : string -> num.

(** [VitalInput]: [inRange = !value || (num >= min && num <= max)].  It
    only colours the field and shows the hint below it. *)
Definition inRange (value : string) (bd : Bounds) : bool :=
  negb (truthy (Some value)) || between (parseFloat value) bd.

(** [canProceed], the guard of the Continue and Submit buttons. *)
Definition canProceed (st : State) : bool :=
  let f := form st in
  match step st with
  | 0 => truthy (Some (patient_name f)) && truthy (Some (age f)) && bool_decide (is_Some (sex f))
  | 1 => truthy (Some (systolic_bp f)) && truthy (Some (diastolic_bp f))
         && truthy (Some (heart_rate f)) && truthy (Some (respiratory_rate f))
         && truthy (Some (spo2 f)) && truthy (Some (temperature f))
  | 2 => true (* medications/symptoms optional *)
  | 3 => bool_decide (5 <= String.length (chief_complaint f))%nat
  | _ => false
  end.

Definition optional (value : string) (parse : string -> num) : option num :=
  if truthy (Some value) then Some (parse value) else None.

(** The payload [handleSubmit] passes to [analyzeRisk]. *)
Definition payload_of (f : FormState) : PatientIntakeRequest.t :=
  PatientIntakeRequest.mk
    (patient_name f) (parseInt (age f)) (sex f)
    (or_undefined (village f)) (or_undefined (district f))
    (VulnerabilityFlags.mk (pregnant f) (diabetic f) (elderly f)
                           (heart_disease f) (immunocompromised f))
    (VitalsInput.mk
       (parseInt (systolic_bp f)) (parseInt (diastolic_bp f))
       (parseInt (heart_rate f)) (parseInt (respiratory_rate f))
       (parseFloat (spo2 f)) (parseFloat (temperature f))
       (optional (blood_glucose_mgdl f) parseInt)
       (optional (weight_kg f) parseFloat)
       (optional (gcs_score f) parseInt))
    (medications f) (symptoms f) (chief_complaint f).

(** One run of [handleSubmit]: the state it leaves and the result
    [onComplete] was called with, if it was. *)
Definition handleSubmit (fetch : Fetch RiskAssessmentResponse.t) (st : State) (b : Browser)
    : State * option (option RiskAssessmentResponse.t) * Browser :=
  match analyzeRisk env fetch (payload_of (form st)) b with
  | (Resolved result, b1) => (mkState (step st) (form st) false None, Some result, b1)
  | (Rejected message, b1) =>
      (mkState (step st) (form st) false
         (Some (if truthy (Some message) then message
                else "An unexpected error occurred during AI analysis. Please check your inputs.")),
       None, b1)
  end.

End Page.

(** The cells of the add-a-row controls of step 2. *)
Record Inputs : Type := mkInputs {
  newMed : string;
  medDose : string;
  newSym : string;
  symSeverity : Severity;
  symRedFlag : bool;
  symDuration : string;
}.

(** [update("medications", l)] and [update("symptoms", l)]:
    [setForm((f) => ({ ...f, [key]: value }))]. *)
Definition update_medications (l : list MedicationInput.t) (f : FormState) : FormState :=
  mkForm (patient_name f) (age f) (sex f) (village f) (district f)
         (pregnant f) (diabetic f) (elderly f) (heart_disease f) (immunocompromised f)
         (systolic_bp f) (diastolic_bp f) (heart_rate f) (respiratory_rate f)
         (spo2 f) (temperature f) (blood_glucose_mgdl f) (weight_kg f) (gcs_score f)
         l (symptoms f) (chief_complaint f).

Definition update_symptoms (l : list SymptomInput.t) (f : FormState) : FormState :=
  mkForm (patient_name f) (age f) (sex f) (village f) (district f)
         (pregnant f) (diabetic f) (elderly f) (heart_disease f) (immunocompromised f)
         (systolic_bp f) (diastolic_bp f) (heart_rate f) (respiratory_rate f)
         (spo2 f) (temperature f) (blood_glucose_mgdl f) (weight_kg f) (gcs_score f)
         (medications f) l (chief_complaint f).

(** [l.filter((_, idx) => idx !== i)] *)
Definition without_index {A : Type} (i : nat) (l : list A) : list A :=
  map snd (List.filter (fun p => negb (Nat.eqb (fst p) i)) (combine (seq 0 (length l)) l)).

Definition removeMed (i : nat) (f : FormState) : FormState :=
  update_medications (without_index i (medications f)) f.

Definition removeSym (i : nat) (f : FormState) : FormState :=
  update_symptoms (without_index i (symptoms f)) f.

Section Rows.

(** [String.prototype.trim] and [parseInt]. *)
Variable trim : string -> string.
Variable parseInt : string -> num.

(** [addMed(name?)]: the quick-add buttons pass a name, the Add button and
    the Enter key pass none. *)
Definition addMed (name : option string) (f : FormState) (c : Inputs) : FormState * Inputs :=
  let drugName := nullish name (trim (newMed c)) in
  if truthy (Some drugName) then
    (update_medications
       (medications f
        ++ [MedicationInput.mk None drugName (or_undefined (medDose c)) None None]) f,
     mkInputs "" "" (newSym c) (symSeverity c) (symRedFlag c) (symDuration c))
  else (f, c).

(** [addSym(name?)] *)
Definition addSym (name : option string) (f : FormState) (c : Inputs) : FormState * Inputs :=
  let symName := nullish name (trim (newSym c)) in
  if truthy (Some symName) then
    (update_symptoms
       (symptoms f
        ++ [SymptomInput.mk symName (symRedFlag c) (Some (symSeverity c))
              (if truthy (Some (symDuration c)) then Some (parseInt (symDuration c))
               else None)]) f,
     mkInputs (newMed c) (medDose c) "" mild false "")
  else (f, c).

End Rows.

End IntakePage.

(** ** [components/pages/DashboardPage.tsx] *)

Module DashboardPage.

Import Types.

Section Page.

(** [Date.now()] when the module is loaded, and [Date.prototype.toISOString]. *)
Variable now : Z.
Variable toISOString : Z -> string.

Definition MOCK_CASES : list Case.t :=
  [ Case.mk "case-001" "Meena Devi" 32 female
      "Severe headache and visual disturbance at 34 weeks pregnancy"
      critical (91 # 100) escalated (toISOString (now - 15 * 60000)%Z) None
      (Some "Priya Sharma");
    Case.mk "case-002" "Raju Patel" 58 male
      "Chest pain radiating to jaw, sweating"
      high (78 # 100) active (toISOString (now - 45 * 60000)%Z) None
      (Some "Suresh Kumar");
    Case.mk "case-003" "Lata Verma" 44 female
      "Persistent cough, low-grade fever for 3 weeks"
      moderate (52 # 100) advised (toISOString (now - 2 * 3600000)%Z) None
      (Some "Anita Singh");
    Case.mk "case-004" "Dhruv Shah" 28 male
      "Mild fever, body ache for 2 days"
      low (18 # 100) closed (toISOString (now - 5 * 3600000)%Z) None
      (Some "Priya Sharma") ].

(** [StatusBadge]: the label shown for a case's status. *)
Definition StatusBadge (status : CaseStatus) : string :=
  match status with
  | active => "Active"
  | escalated => "Escalated"
  | advised => "Advised"
  | closed => "Closed"
  end.

(** The dashboard lists the mock cases ([useState<Case[]>(MOCK_CASES)]),
    narrowed by the risk filter. *)
Definition filtered (filter : option RiskLevel) : list Case.t :=
  match filter with
  | None => MOCK_CASES
  | Some l => List.filter (fun c => bool_decide (Case.risk_level c = l)) MOCK_CASES
  end.

End Page.

Section Time.

(** [Date.now()] when the row is rendered, and [new Date(iso).getTime()]
    ([None] for [NaN], the time of an invalid date). *)
Variable now : Z.
Variable getTime : string -> option Z.

(** [timeAgo(iso)].  [Math.floor] of a quotient of integers is [Z.div]. *)
Definition timeAgo (iso : string) : string :=
  match getTime iso with
  | None => "NaNd ago"
  | Some t =>
      let diff := (now - t)%Z in
      let mins := (diff / 60000)%Z in
      if (mins <? 60)%Z then pretty mins ++ "m ago"
      else
        let hours := (mins / 60)%Z in
        if (hours <? 24)%Z then pretty hours ++ "h ago"
        else pretty (hours / 24)%Z ++ "d ago"
  end.

End Time.

End DashboardPage.

(** ** The PostgreSQL schema

    Column values are modelled as PostgreSQL holds them: any column may be
    [NULL] ([None]) unless declared [NOT NULL]; a value of an enum type is
    the text of one of its labels; a [CHECK] constraint passes on [NULL].
    A statement either succeeds or is rejected, leaving the table as it
    was.  Foreign keys and [UNIQUE] constraints, which only reject further
    statements, and the columns no constraint mentions (timestamps, JSONB
    payloads, SBAR text) are left out. *)

Module Schema.

(** *** Enum types *)

Definition user_role : list string := ["phw"; "specialist"; "admin"].

Definition case_status : list string :=
  ["intake"; "analyzed"; "escalated";
   "specialist_reviewing"; "advised"; "closed"; "cancelled"].

Definition risk_level : list string := ["low"; "moderate"; "high"; "critical"].

Definition advice_type : list string :=
  ["urgent_referral"; "observe_2h"; "manage_locally";
   "start_iv_fluids"; "admit"; "custom"].

(** *** Columns and what a statement gives for them *)

(** For one column, an [INSERT] or an [UPDATE ... SET] names no value,
    [NULL], or a value. *)
Inductive Given (A : Type) : Type :=
| Omitted
| Null
| Val (a : A).
Arguments Omitted {A}.
Arguments Null {A}.
Arguments Val {A} a.

(** A column declaration: [NOT NULL], [DEFAULT], and what its type and
    [CHECK] admit. *)
Record Column (A : Type) : Type := mkColumn {
  not_null : bool;
  dflt : option A;
  valid : A -> bool;
}.
Arguments mkColumn {A} not_null dflt valid.
Arguments not_null {A} c.
Arguments dflt {A} c.
Arguments valid {A} c a.

Definition accepts {A} (c : Column A) (v : option A) : bool :=
  match v with
  | None => negb (not_null c)
  | Some a => valid c a
  end.

(** The stored value an [INSERT] yields for a column, or rejection. *)
Definition inserted {A} (c : Column A) (g : Given A) : option (option A) :=
  let v := match g with
           | Omitted => dflt c
           | Null => None
           | Val a => Some a
           end in
  if accepts c v then Some v else None.

(** The stored value an [UPDATE] yields for a column, or rejection. *)
Definition updated {A} (c : Column A) (old : option A) (g : Given A) : option (option A) :=
  match g with
  | Omitted => Some old
  | Null => if accepts c None then Some None else None
  | Val a => if accepts c (Some a) then Some (Some a) else None
  end.

Definition enum (labels : list string) (s : string) : bool := bool_decide (s ∈ labels).
Definition any {A} (_ : A) : bool := true.
Definition smallint (z : Z) : bool := (Z.leb (-32768) z && Z.leb z 32767)%bool.
Definition between (lo hi : Q) (q : Q) : bool := Qle_bool lo q && Qle_bool q hi.
Definition smallint_between (lo hi : Z) (z : Z) : bool :=
  smallint z && Z.leb lo z && Z.leb z hi.

(** *** [cases] *)

Module cases.

Record Row : Type := mkRow {
  id : string;
  patient_id : option string;
  phw_id : option string;
  specialist_id : option string;
  status : option string;
  chief_complaint : option string;
  escalation_reason : option string;
  specialist_magic_token : option string;
}.

(** The values a statement names, column by column. *)
Record Write : Type := mkWrite {
  w_patient_id : Given string;
  w_phw_id : Given string;
  w_specialist_id : Given string;
  w_status : Given string;
  w_chief_complaint : Given string;
  w_escalation_reason : Given string;
  w_specialist_magic_token : Given string;
}.

Definition c_patient_id : Column string := mkColumn true None any.
Definition c_phw_id : Column string := mkColumn true None any.
Definition c_specialist_id : Column string := mkColumn false None any.
Definition c_status : Column string := mkColumn true (Some "intake") (enum case_status).
Definition c_chief_complaint : Column string := mkColumn false None any.
Definition c_escalation_reason : Column string := mkColumn false None any.
Definition c_specialist_magic_token : Column string := mkColumn false None any.

Definition insert_row (i : string) (w : Write) : option Row :=
  a ← inserted c_patient_id (w_patient_id w);
  b ← inserted c_phw_id (w_phw_id w);
  c ← inserted c_specialist_id (w_specialist_id w);
  d ← inserted c_status (w_status w);
  e ← inserted c_chief_complaint (w_chief_complaint w);
  f ← inserted c_escalation_reason (w_escalation_reason w);
  g ← inserted c_specialist_magic_token (w_specialist_magic_token w);
  Some (mkRow i a b c d e f g).

Definition update_row (w : Write) (r : Row) : option Row :=
  a ← updated c_patient_id (patient_id r) (w_patient_id w);
  b ← updated c_phw_id (phw_id r) (w_phw_id w);
  c ← updated c_specialist_id (specialist_id r) (w_specialist_id w);
  d ← updated c_status (status r) (w_status w);
  e ← updated c_chief_complaint (chief_complaint r) (w_chief_complaint w);
  f ← updated c_escalation_reason (escalation_reason r) (w_escalation_reason w);
  g ← updated c_specialist_magic_token (specialist_magic_token r) (w_specialist_magic_token w);
  Some (mkRow (id r) a b c d e f g).

(** [held] of a [DELETE] says what lies outside the table: a row of
    [vitals], [case_medications], [case_symptoms], [risk_assessments] or
    [specialist_advice] references the case (their [REFERENCES cases(id)]
    has no [ON DELETE] action, so the statement is refused), or the
    policy [phw_own_cases] hides the case from the session (so the
    statement finds no row). *)
Inductive Stmt : Type :=
| Insert (i : string) (w : Write)
| Update (i : string) (w : Write)     (* UPDATE cases SET ... WHERE id = i *)
| Delete (i : string) (held : bool).  (* DELETE FROM cases WHERE id = i *)

(** [UPDATE ... WHERE id = i]: every matching row is rewritten; one
    rejected row rejects the statement. *)
Fixpoint update_where (i : string) (w : Write) (t : list Row) : option (list Row) :=
  match t with
  | [] => Some []
  | r :: t' =>
      r' ← (if String.eqb (id r) i then update_row w r else Some r);
      t'' ← update_where i w t';
      Some (r' :: t'')
  end.

(** One statement; a rejected one leaves the table unchanged. *)
Definition exec (s : Stmt) (t : list Row) : list Row :=
  match s with
  | Insert i w =>
      if existsb (fun r => String.eqb (id r) i) t then t
      else match insert_row i w with
           | Some r => t ++ [r]
           | None => t
           end
  | Update i w => default t (update_where i w t)
  | Delete i held =>
      if held then t else List.filter (fun r => negb (String.eqb (id r) i)) t
  end.

Definition run (ss : list Stmt) (t : list Row) : list Row :=
  fold_left (fun t s => exec s t) ss t.

End cases.

(** *** [vitals]: assignment to its columns, and the range checks *)

Module vitals.

(** A number a statement names: an integer or decimal literal or
    parameter, or one of the special values of [numeric]. *)
Inductive numeric : Type :=
| NaN
| Inf (negative : bool)
| Num (q : Q).

(** Rounding to the nearest integer, ties away from zero, as the
    conversions of [numeric] do. *)
Definition round (q : Q) : Z :=
  if Qle_bool 0 q then Qfloor (q + (1 # 2)) else (- Qfloor (- q + (1 # 2)))%Z.

(** Assignment to a [SMALLINT] column: the value is rounded; NaN, an
    infinity and a value out of the type's range are errors. *)
Definition to_smallint (v : numeric) : option Z :=
  match v with
  | Num q => if smallint (round q) then Some (round q) else None
  | NaN | Inf _ => None
  end.

(** Assignment to a [NUMERIC(p,1)] column: the value is rounded to one
    decimal; it is an error when the result needs more than [p] digits,
    and for an infinity.  NaN is taken as it is. *)
Definition to_numeric_1 (p : Z) (v : numeric) : option numeric :=
  match v with
  | Num q =>
      let tenths := round (q * 10) in
      if (Z.abs tenths <? 10 ^ p)%Z then Some (Num (tenths # 10)) else None
  | NaN => Some NaN
  | Inf _ => None
  end.

(** [v BETWEEN lo AND hi] on a stored [numeric]: NaN sorts above every
    number. *)
Definition numeric_between (lo hi : Q) (v : numeric) : bool :=
  match v with
  | Num q => between lo hi q
  | NaN | Inf _ => false
  end.

Definition cast_given {A} (cast : numeric -> option A) (g : Given numeric)
    : option (Given A) :=
  match g with
  | Omitted => Some Omitted
  | Null => Some Null
  | Val v => Val <$> cast v
  end.

Record Row : Type := mkRow {
  id : string;
  case_id : option string;
  recorded_by : option string;
  systolic_bp : option Z;
  diastolic_bp : option Z;
  heart_rate : option Z;
  respiratory_rate : option Z;
  spo2 : option numeric;
  temperature : option numeric;
  blood_glucose_mgdl : option Z;
  weight_kg : option numeric;
  gcs_score : option Z;
}.

Record Write : Type := mkWrite {
  w_case_id : Given string;
  w_recorded_by : Given string;
  w_systolic_bp : Given numeric;
  w_diastolic_bp : Given numeric;
  w_heart_rate : Given numeric;
  w_respiratory_rate : Given numeric;
  w_spo2 : Given numeric;
  w_temperature : Given numeric;
  w_blood_glucose_mgdl : Given numeric;
  w_weight_kg : Given numeric;
  w_gcs_score : Given numeric;
}.

Definition c_case_id : Column string := mkColumn true None any.
Definition c_recorded_by : Column string := mkColumn true None any.
Definition c_systolic_bp : Column Z := mkColumn false None (smallint_between 40 350).
Definition c_diastolic_bp : Column Z := mkColumn false None (smallint_between 20 250).
Definition c_heart_rate : Column Z := mkColumn false None (smallint_between 20 350).
Definition c_respiratory_rate : Column Z := mkColumn false None (smallint_between 4 80).
Definition c_spo2 : Column numeric := mkColumn false None (numeric_between 50 100).
Definition c_temperature : Column numeric := mkColumn false None (numeric_between 30 45).
Definition c_blood_glucose_mgdl : Column Z := mkColumn false None (smallint_between 20 1000).
Definition c_weight_kg : Column numeric := mkColumn false None any.
Definition c_gcs_score : Column Z := mkColumn false None (smallint_between 3 15).

(** The stored value an [INSERT] yields for a numeric column: the value
    is converted to the column's type, then the column's constraints are
    tested on the converted value. *)
Definition insert_as {A} (cast : numeric -> option A) (c : Column A) (g : Given numeric)
    : option (option A) :=
  cast_given cast g ≫= inserted c.

Definition update_as {A} (cast : numeric -> option A) (c : Column A) (old : option A)
    (g : Given numeric) : option (option A) :=
  cast_given cast g ≫= updated c old.

Definition insert_row (i : string) (w : Write) : option Row :=
  cid ← inserted c_case_id (w_case_id w);
  rb ← inserted c_recorded_by (w_recorded_by w);
  a ← insert_as to_smallint c_systolic_bp (w_systolic_bp w);
  b ← insert_as to_smallint c_diastolic_bp (w_diastolic_bp w);
  c ← insert_as to_smallint c_heart_rate (w_heart_rate w);
  d ← insert_as to_smallint c_respiratory_rate (w_respiratory_rate w);
  e ← insert_as (to_numeric_1 4) c_spo2 (w_spo2 w);
  f ← insert_as (to_numeric_1 4) c_temperature (w_temperature w);
  g ← insert_as to_smallint c_blood_glucose_mgdl (w_blood_glucose_mgdl w);
  h ← insert_as (to_numeric_1 5) c_weight_kg (w_weight_kg w);
  k ← insert_as to_smallint c_gcs_score (w_gcs_score w);
  Some (mkRow i cid rb a b c d e f g h k).

Definition update_row (w : Write) (r : Row) : option Row :=
  cid ← updated c_case_id (case_id r) (w_case_id w);
  rb ← updated c_recorded_by (recorded_by r) (w_recorded_by w);
  a ← update_as to_smallint c_systolic_bp (systolic_bp r) (w_systolic_bp w);
  b ← update_as to_smallint c_diastolic_bp (diastolic_bp r) (w_diastolic_bp w);
  c ← update_as to_smallint c_heart_rate (heart_rate r) (w_heart_rate w);
  d ← update_as to_smallint c_respiratory_rate (respiratory_rate r) (w_respiratory_rate w);
  e ← update_as (to_numeric_1 4) c_spo2 (spo2 r) (w_spo2 w);
  f ← update_as (to_numeric_1 4) c_temperature (temperature r) (w_temperature w);
  g ← update_as to_smallint c_blood_glucose_mgdl (blood_glucose_mgdl r)
        (w_blood_glucose_mgdl w);
  h ← update_as (to_numeric_1 5) c_weight_kg (weight_kg r) (w_weight_kg w);
  k ← update_as to_smallint c_gcs_score (gcs_score r) (w_gcs_score w);
  Some (mkRow (id r) cid rb a b c d e f g h k).

Inductive Stmt : Type :=
| Insert (i : string) (w : Write)
| Update (i : string) (w : Write)     (* UPDATE vitals SET ... WHERE id = i *)
| Delete (i : string).                (* DELETE FROM vitals WHERE id = i *)

Fixpoint update_where (i : string) (w : Write) (t : list Row) : option (list Row) :=
  match t with
  | [] => Some []
  | r :: t' =>
      r' ← (if String.eqb (id r) i then update_row w r else Some r);
      t'' ← update_where i w t';
      Some (r' :: t'')
  end.

(** One statement.  [blocked] says what lies outside the table: a
    foreign key ([case_id] is not a case or [recorded_by] not a user; for
    a [DELETE], a risk assessment references the row), or row-level
    security, which is enabled on [vitals] with no policy, so that only
    the table's owner and the roles that bypass it get through.  A
    blocked or rejected statement leaves the table unchanged. *)
Definition exec (blocked : bool) (s : Stmt) (t : list Row) : list Row :=
  if blocked then t else
  match s with
  | Insert i w =>
      if existsb (fun r => String.eqb (id r) i) t then t
      else match insert_row i w with
           | Some r => t ++ [r]
           | None => t
           end
  | Update i w => default t (update_where i w t)
  | Delete i => List.filter (fun r => negb (String.eqb (id r) i)) t
  end.

Definition run (ss : list (bool * Stmt)) (t : list Row) : list Row :=
  fold_left (fun t s => exec s.1 s.2 t) ss t.

End vitals.

(** *** [risk_assessments] *)

Module risk_assessments.

Record Row : Type := mkRow {
  id : string;
  case_id : option string;
  rule_triggered : option bool;
  rule_level : option string;
  ml_risk_probability : option Q;
  ml_risk_level : option string;
  med_override_triggered : option bool;
  final_risk_level : option string;
  final_risk_score : option Q;
  recommendation : option string;
  escalation_suggested : option bool;
  model_version : option string;
}.

Record Write : Type := mkWrite {
  w_case_id : Given string;
  w_rule_triggered : Given bool;
  w_rule_level : Given string;
  w_ml_risk_probability : Given Q;
  w_ml_risk_level : Given string;
  w_med_override_triggered : Given bool;
  w_final_risk_level : Given string;
  w_final_risk_score : Given Q;
  w_recommendation : Given string;
  w_escalation_suggested : Given bool;
  w_model_version : Given string;
}.

Definition c_case_id : Column string := mkColumn true None any.
Definition c_rule_triggered : Column bool := mkColumn true (Some false) any.
Definition c_rule_level : Column string := mkColumn false None (enum risk_level).
Definition c_ml_risk_probability : Column Q := mkColumn false None (between 0 1).
Definition c_ml_risk_level : Column string := mkColumn false None (enum risk_level).
Definition c_med_override_triggered : Column bool := mkColumn false (Some false) any.
Definition c_final_risk_level : Column string := mkColumn true None (enum risk_level).
Definition c_final_risk_score : Column Q := mkColumn false None any.
Definition c_recommendation : Column string := mkColumn false None any.
Definition c_escalation_suggested : Column bool := mkColumn false (Some false) any.
Definition c_model_version : Column string := mkColumn false None any.

Definition insert_row (i : string) (w : Write) : option Row :=
  a ← inserted c_case_id (w_case_id w);
  b ← inserted c_rule_triggered (w_rule_triggered w);
  c ← inserted c_rule_level (w_rule_level w);
  d ← inserted c_ml_risk_probability (w_ml_risk_probability w);
  e ← inserted c_ml_risk_level (w_ml_risk_level w);
  f ← inserted c_med_override_triggered (w_med_override_triggered w);
  g ← inserted c_final_risk_level (w_final_risk_level w);
  h ← inserted c_final_risk_score (w_final_risk_score w);
  j ← inserted c_recommendation (w_recommendation w);
  k ← inserted c_escalation_suggested (w_escalation_suggested w);
  l ← inserted c_model_version (w_model_version w);
  Some (mkRow i a b c d e f g h j k l).

Definition update_row (w : Write) (r : Row) : option Row :=
  a ← updated c_case_id (case_id r) (w_case_id w);
  b ← updated c_rule_triggered (rule_triggered r) (w_rule_triggered w);
  c ← updated c_rule_level (rule_level r) (w_rule_level w);
  d ← updated c_ml_risk_probability (ml_risk_probability r) (w_ml_risk_probability w);
  e ← updated c_ml_risk_level (ml_risk_level r) (w_ml_risk_level w);
  f ← updated c_med_override_triggered (med_override_triggered r) (w_med_override_triggered w);
  g ← updated c_final_risk_level (final_risk_level r) (w_final_risk_level w);
  h ← updated c_final_risk_score (final_risk_score r) (w_final_risk_score w);
  j ← updated c_recommendation (recommendation r) (w_recommendation w);
  k ← updated c_escalation_suggested (escalation_suggested r) (w_escalation_suggested w);
  l ← updated c_model_version (model_version r) (w_model_version w);
  Some (mkRow (id r) a b c d e f g h j k l).

(** [held] of a [DELETE]: a row of [specialist_advice] references the
    assessment ([REFERENCES risk_assessments(id)] has no [ON DELETE]
    action), so the statement is refused. *)
Inductive Stmt : Type :=
| Insert (i : string) (w : Write)
| Update (i : string) (w : Write)
| Delete (i : string) (held : bool).

Fixpoint update_where (i : string) (w : Write) (t : list Row) : option (list Row) :=
  match t with
  | [] => Some []
  | r :: t' =>
      r' ← (if String.eqb (id r) i then update_row w r else Some r);
      t'' ← update_where i w t';
      Some (r' :: t'')
  end.

Definition exec (s : Stmt) (t : list Row) : list Row :=
  match s with
  | Insert i w =>
      if existsb (fun r => String.eqb (id r) i) t then t
      else match insert_row i w with
           | Some r => t ++ [r]
           | None => t
           end
  | Update i w => default t (update_where i w t)
  | Delete i held =>
      if held then t else List.filter (fun r => negb (String.eqb (id r) i)) t
  end.

Definition run (ss : list Stmt) (t : list Row) : list Row :=
  fold_left (fun t s => exec s t) ss t.

End risk_assessments.

End Schema.

(** ** The decision service, from the specification

    The service behind [POST /analyze/risk] (request validation, the rule
    guardrail and the decision aggregator) is not part of the client
    sources.  This module follows the specification's sections 3, 4.1, 4.4
    and 7. *)

Module Engine.

Import Types.

(** Modelled from the spec: the ranges the service's request schema
    declares (the backend's schemas are not in the sources), after
    section 3, "Vitals snapshot" and "Patient snapshot". *)
Record Range : Type := mkRange { lo : Q; hi : Q }.

Definition within (r : Range) (q : Q) : bool := Qle_bool (lo r) q && Qle_bool q (hi r).

Definition age_range : Range := mkRange 0 150.
Definition systolic_bp_range : Range := mkRange 40 350.
Definition diastolic_bp_range : Range := mkRange 20 250.
Definition heart_rate_range : Range := mkRange 20 350.
Definition respiratory_rate_range : Range := mkRange 4 80.
Definition spo2_range : Range := mkRange 50 100.
Definition temperature_range : Range := mkRange 30 45.
Definition blood_glucose_range : Range := mkRange 20 1000.
Definition gcs_range : Range := mkRange 3 15.

(** A required number: present ([NaN] travels as JSON [null]) and in
    range.  An optional one: absent, or present and in range. *)
Definition required_ok (r : Range) (n : num) : bool :=
  match n with NaN => false | Fin q => within r q end.

Definition optional_ok (r : Range) (n : option num) : bool :=
  match n with None => true | Some n => required_ok r n end.

Definition flag (name : string) (ok : bool) : list string :=
  if ok then [] else [name].

(** Modelled from the spec: the service's check of a vitals snapshot
    (the backend's validation is not in the sources); it yields the
    offending fields ("Validation failures enumerate offending
    fields"). *)
Definition offending_vitals (v : VitalsInput.t) : list string :=
  flag "systolic_bp" (required_ok systolic_bp_range (VitalsInput.systolic_bp v))
  ++ flag "diastolic_bp" (required_ok diastolic_bp_range (VitalsInput.diastolic_bp v))
  ++ flag "heart_rate" (required_ok heart_rate_range (VitalsInput.heart_rate v))
  ++ flag "respiratory_rate" (required_ok respiratory_rate_range (VitalsInput.respiratory_rate v))
  ++ flag "spo2" (required_ok spo2_range (VitalsInput.spo2 v))
  ++ flag "temperature" (required_ok temperature_range (VitalsInput.temperature v))
  ++ flag "blood_glucose_mgdl" (optional_ok blood_glucose_range (VitalsInput.blood_glucose_mgdl v))
  ++ flag "gcs_score" (optional_ok gcs_range (VitalsInput.gcs_score v)).

(** Modelled from the spec: the service's check of an intake payload
    (the backend's validation is not in the sources): age 0-150, sex one
    of the three, vitals in range, symptom duration not negative. *)
Definition offending (p : PatientIntakeRequest.t) : list string :=
  flag "age" (required_ok age_range (PatientIntakeRequest.age p))
  ++ flag "sex" (bool_decide (is_Some (PatientIntakeRequest.sex p)))
  ++ offending_vitals (PatientIntakeRequest.vitals p)
  ++ flag "symptoms"
       (forallb (fun s => match SymptomInput.duration_hours s with
                          | None => true
                          | Some NaN => false
                          | Some (Fin h) => Qle_bool 0 h
                          end)
                (PatientIntakeRequest.symptoms p)).

(** The vitals snapshot an analyzer works on. *)
Record Vitals : Type := mkVitals {
  systolic_bp : Q;
  diastolic_bp : Q;
  heart_rate : Q;
  respiratory_rate : Q;
  spo2 : Q;
  temperature : Q;
  blood_glucose_mgdl : option Q;
  weight_kg : option Q;
  gcs_score : option Q;
}.

Record Intake : Type := mkIntake {
  age : Q;
  sex : SexEnum;
  vulnerability_flags : VulnerabilityFlags.t;
  vitals : Vitals;
  medications : list MedicationInput.t;
  symptoms : list SymptomInput.t;
  chief_complaint : string;
}.

Definition value (n : num) : Q := match n with NaN => 0 | Fin q => q end.
Definition finite (n : option num) : option Q :=
  match n with Some (Fin q) => Some q | _ => None end.

Definition snapshot (v : VitalsInput.t) : Vitals :=
  mkVitals (value (VitalsInput.systolic_bp v)) (value (VitalsInput.diastolic_bp v))
           (value (VitalsInput.heart_rate v)) (value (VitalsInput.respiratory_rate v))
           (value (VitalsInput.spo2 v)) (value (VitalsInput.temperature v))
           (finite (VitalsInput.blood_glucose_mgdl v)) (finite (VitalsInput.weight_kg v))
           (finite (VitalsInput.gcs_score v)).

(** Modelled from the spec: request validation (backend code that is not
    in the sources), the first stage of the data flow of section 2.  It
    yields the offending fields ([validationError]) or the snapshot handed
    to the analyzers. *)
Definition validate (p : PatientIntakeRequest.t) : list string + Intake :=
  match offending p with
  | [] => inr (mkIntake (value (PatientIntakeRequest.age p))
                        (default other (PatientIntakeRequest.sex p))
                        (PatientIntakeRequest.vulnerability_flags p)
                        (snapshot (PatientIntakeRequest.vitals p))
                        (PatientIntakeRequest.medications p)
                        (PatientIntakeRequest.symptoms p)
                        (PatientIntakeRequest.chief_complaint p))
  | fields => inl fields
  end.

(** Whether a snapshot lies within every declared range. *)
Definition in_range (v : Vitals) : bool :=
  within systolic_bp_range (systolic_bp v) && within diastolic_bp_range (diastolic_bp v)
  && within heart_rate_range (heart_rate v) && within respiratory_rate_range (respiratory_rate v)
  && within spo2_range (spo2 v) && within temperature_range (temperature v)
  && from_option (within blood_glucose_range) true (blood_glucose_mgdl v)
  && from_option (within gcs_range) true (gcs_score v).

(** *** The rule guardrail (section 4.1) *)

(** Severity order: critical > high > moderate > low. *)
Definition rank (l : RiskLevel) : nat :=
  match l with low => 0 | moderate => 1 | high => 2 | critical => 3 end.

Definition worst (a b : RiskLevel) : RiskLevel :=
  if (rank a <? rank b)%nat then b else a.

(** The thresholds of the minimum rule set, in the table's order.  The
    spec fixes the conditions, not the wording of the reasons, so a reason
    is the rule that fired. *)
Inductive Rule : Type :=
| spo2_below_90
| systolic_bp_critical
| respiratory_rate_critical
| heart_rate_critical
| temperature_critical
| gcs_below_13
| red_flag_symptom
| pregnancy_hypertension
| high_band.

Definition Qlt_bool (a b : Q) : bool := negb (Qle_bool b a).

(** Modelled from the spec: the rule guardrail's thresholds (the
    backend's rule engine is not in the sources), row by row of the table
    of section 4.1. *)
Definition fires (i : Intake) (r : Rule) : bool :=
  let v := vitals i in
  match r with
  | spo2_below_90 => Qlt_bool (spo2 v) 90
  | systolic_bp_critical => Qlt_bool (systolic_bp v) 90 || Qlt_bool 220 (systolic_bp v)
  | respiratory_rate_critical =>
      Qlt_bool (respiratory_rate v) 8 || Qlt_bool 30 (respiratory_rate v)
  | heart_rate_critical => Qlt_bool (heart_rate v) 40 || Qlt_bool 130 (heart_rate v)
  | temperature_critical =>
      Qlt_bool (temperature v) 35 || Qlt_bool (395 # 10) (temperature v)
  | gcs_below_13 => from_option (fun g => Qlt_bool g 13) false (gcs_score v)
  | red_flag_symptom => existsb SymptomInput.is_red_flag (symptoms i)
  | pregnancy_hypertension =>
      VulnerabilityFlags.pregnant (vulnerability_flags i)
      && Qle_bool 140 (systolic_bp v) && Qle_bool 90 (diastolic_bp v)
  | high_band =>
      Qlt_bool 120 (heart_rate v)
      || (Qle_bool 90 (spo2 v) && Qlt_bool (spo2 v) 94)
      || Qlt_bool (385 # 10) (temperature v)
  end.

Definition candidate (r : Rule) : RiskLevel :=
  match r with high_band => high | _ => critical end.

Definition rules : list Rule :=
  [spo2_below_90; systolic_bp_critical; respiratory_rate_critical; heart_rate_critical;
   temperature_critical; gcs_below_13; red_flag_symptom; pregnancy_hypertension; high_band].

Record RuleResult : Type := mkRuleResult {
  triggered : bool;
  level : option RiskLevel;
  reasons : list Rule;
}.

(** Modelled from the spec: the rule guardrail (the backend's rule engine
    is not in the sources); its level is the maximum severity across the
    triggered rules. *)
Definition rule_guardrail (i : Intake) : RuleResult :=
  let fired := List.filter (fires i) rules in
  mkRuleResult (negb (bool_decide (fired = [])))
               (foldr (fun r acc => Some (from_option (worst (candidate r)) (candidate r) acc))
                      None fired)
               fired.

(** *** The decision aggregator (section 4.4) *)

Record Assessment : Type := mkAssessment {
  rule_engine : RuleResult;
  ml_result : option MLResult.t;
  med_warnings : list MedWarning.t;
  final_risk_level : RiskLevel;
  final_risk_score : Q;
  escalation_suggested : bool;
}.

Definition med_override (ws : list MedWarning.t) : bool :=
  existsb MedWarning.override_triggered ws.

(** Modelled from the spec: the decision aggregator's choice of the final
    level (the backend's aggregator is not in the sources), by the
    precedence of section 4.4. *)
Definition final_level (rule : RuleResult) (ml : option MLResult.t)
    (ws : list MedWarning.t) : RiskLevel :=
  match level rule with
  | Some critical => critical
  | _ =>
      if med_override ws then
        worst (from_option MLResult.risk_level high ml) high
      else match ml with
           | Some m => MLResult.risk_level m
           | None => worst (default low (level rule)) low
           end
  end.

(** Modelled from the spec: the aggregator's [final_risk_score] (section
    4.4; the backend's aggregator is not in the sources). *)
Definition final_score (l : RiskLevel) (ml : option MLResult.t) : Q :=
  match ml with
  | Some m => MLResult.risk_probability m
  | None => match l with
            | critical => 1
            | high => 70 # 100
            | moderate => 45 # 100
            | low => 15 # 100
            end
  end.

(** Modelled from the spec: the decision aggregator (not in the sources),
    which composes the assessment of section 4.4; [escalation_suggested]
    holds when the final level is high or critical or a medication
    override fired. *)
Definition aggregate (rule : RuleResult) (ml : option MLResult.t)
    (ws : list MedWarning.t) : Assessment :=
  let l := final_level rule ml ws in
  mkAssessment rule ml ws l (final_score l ml)
               (match l with high | critical => true | _ => false end || med_override ws).

(** *** The analyze pipeline *)

(** The two analyzers the service is configured with: the risk model
    ([None] when it is unavailable) and the medication engine. *)
Record Analyzers : Type := mkAnalyzers {
  risk_model : Intake -> option MLResult.t;
  medication_engine : Intake -> list MedWarning.t;
}.

(** Which analyzer ran, and on which snapshot. *)
Inductive Call : Type :=
| RuleCall (i : Intake)
| ModelCall (i : Intake)
| MedCall (i : Intake).

Definition input (c : Call) : Intake :=
  match c with RuleCall i | ModelCall i | MedCall i => i end.

(** Modelled from the spec: the handler of [POST /analyze/risk] (backend
    code that is not in the sources): "an intake request validates, forks
    into the three analyzers, joins at the aggregator".  The result is the
    [validationError] or the assessment, with the analyzer calls made. *)
Definition analyze (an : Analyzers) (p : PatientIntakeRequest.t)
    : (list string + Assessment) * list Call :=
  match validate p with
  | inl fields => (inl fields, [])
  | inr i =>
      (inr (aggregate (rule_guardrail i) (risk_model an i) (medication_engine an i)),
       [RuleCall i; ModelCall i; MedCall i])
  end.

End Engine.

(** ** [components/pages/ResultsPage.tsx]: escalation *)

Module ResultsPage.

Import Types Api.

(** The cells [handleEscalate] writes, and the reason it reads. *)
Record State : Type := mkState {
  escalating : bool;
  escalationReason : string;
  showEscalateModal : bool;
}.

(** What one run of [handleEscalate] leaves behind: the component state,
    the value [onEscalationComplete] was called with (if it was called;
    the inner [None] is [undefined]), and the browser store. *)
Record Run : Type := mkRun {
  state : State;
  onEscalationComplete : option (option EscalationResponse.t);
  browser : Browser;
}.

(** [level.toUpperCase()] on the four risk levels. *)
Definition toUpperCase (l : RiskLevel) : string :=
  match l with
  | low => "LOW" | moderate => "MODERATE" | high => "HIGH" | critical => "CRITICAL"
  end.

Section Page.

Variable env : Env.
(** [window.location.origin], [Date.now()], [new Date().toISOString()] and
    [Number.prototype.toFixed]. *)
Variable origin : string.
Variable now : Z.
Variable now_iso : string.
Variable toFixed : Q -> nat -> string.

(** The result the [catch] branch of [handleEscalate] makes up. *)
Definition demoResult (user : User.t) (assessment : RiskAssessmentResponse.t)
    : EscalationResponse.t :=
  let level := toUpperCase (RiskAssessmentResponse.final_risk_level assessment) in
  let score := RiskAssessmentResponse.final_risk_score assessment in
  let rule := RiskAssessmentResponse.rule_engine assessment in
  EscalationResponse.mk
    (RiskAssessmentResponse.case_id assessment)
    (origin ++ "/?token=demo-specialist-token-" ++ pretty now)
    (Sbar.mk
       ("Patient with " ++ level ++ " risk. Risk score: "
        ++ toFixed (score * 100)%Q 0 ++ "%.")
       ("Assessment ID: " ++ RiskAssessmentResponse.assessment_id assessment
        ++ ". Evaluated by PHW " ++ User.full_name user ++ ".")
       ("AI classified " ++ level ++ " (score " ++ toFixed score 3 ++ "). "
        ++ (if RuleEngineResult.triggered rule
            then "Rule engine triggered: "
                 ++ String.concat "; " (RuleEngineResult.reasons rule)
            else "ML-driven assessment."))
       (RiskAssessmentResponse.recommendation assessment))
    now_iso.

(** [handleEscalate] *)
Definition handleEscalate (fetch : Fetch EscalationResponse.t) (user : User.t)
    (assessment : RiskAssessmentResponse.t) (st : State) (b : Browser) : Run :=
  match escalateCase env fetch (RiskAssessmentResponse.case_id assessment)
          (escalationReason st) None b with
  | (Resolved result, b1) =>
      mkRun (mkState false (escalationReason st) false) (Some result) b1
  | (Rejected _, b1) =>
      (* Demo fallback *)
      mkRun (mkState false (escalationReason st) false)
            (Some (Some (demoResult user assessment))) b1
  end.

End Page.

(** The live banner's updater, [(prev) => [msg, ...prev].slice(0, 10)]. *)
Definition onLiveMessage {Msg : Type} (msg : Msg) (prev : list Msg) : list Msg :=
  take 10 (msg :: prev).

End ResultsPage.

(** ** [hooks/useWebSocket.ts]

    The hook for one rendering of its props.  Its refs and state cell, the
    sockets it has created, the pending timeouts and the subscriber are
    one record; the browser's events on a socket, a timeout that fires and
    the effect's mount and cleanup are the steps.  [send] is left out. *)

Module UseWebSocket.

Import Api.

Record Socket : Type := mkSocket {
  socket_url : string;
  (* [ws.close()] was called on it *)
  close_called : bool;
}.

Section Hook.

Variable env : Env.
Variable Json : Type.
Variable JSON_parse : string -> option Json.
Variable Sub : Type.

(** The hook's options. *)
Variable caseId : option string.
Variable onMessage : Json -> Sub -> Completion unit * Sub.
Variable enabled : bool.

(** [new WebSocket(url)]: the message of the exception it throws, if it
    throws. *)
Variable constructor_throws : string -> option string.

Record Hook : Type := mkHook {
  mountedRef : bool;
  (* [wsRef.current], a position in [sockets] *)
  wsRef : option nat;
  isConnected : bool;
  (* [reconnectTimeout.current], a timer id *)
  reconnectTimeout : option nat;
  (* every socket created so far *)
  sockets : list Socket;
  (* the timeouts still pending; each runs [connect] *)
  timers : list nat;
  (* the id the next [setTimeout] returns *)
  next_timer : nat;
  (* the subscriber with the messages delivered to it, the invocations of
     the socket callback and the console *)
  handler : Handler Json (Sub * list Json);
  browser : Browser;
}.

(** The callback the hook hands to [createCaseWebSocket]:
    [(msg) => { if (mountedRef.current) onMessage(msg); }]. *)
Definition guarded (mounted : bool) (msg : Json) (s : Sub * list Json)
    : Completion unit * (Sub * list Json) :=
  if mounted then
    let '(r, s') := onMessage msg (fst s) in (r, (s', (snd s ++ [msg])%list))
  else (Resolved tt, s).

(** [setIsConnected(false); reconnectTimeout.current = setTimeout(connect, 3000)] *)
Definition schedule_reconnect (h : Hook) : Hook :=
  mkHook (mountedRef h) (wsRef h) false (Some (next_timer h)) (sockets h)
         (timers h ++ [next_timer h]) (S (next_timer h)) (handler h) (browser h).

(** [connect] *)
Definition connect (h : Hook) : Hook :=
  match caseId with
  | Some id =>
      if truthy caseId && enabled && mountedRef h then
        let '((url, _), b1) :=
          createCaseWebSocket env Json JSON_parse (Sub * list Json) id
                              (guarded (mountedRef h)) (browser h) in
        match constructor_throws url with
        | None =>
            mkHook (mountedRef h) (Some (length (sockets h))) (isConnected h)
                   (reconnectTimeout h) (sockets h ++ [mkSocket url false])
                   (timers h) (next_timer h) (handler h) b1
        | Some err =>
            mkHook (mountedRef h) (wsRef h) (isConnected h) (reconnectTimeout h)
                   (sockets h) (timers h) (next_timer h)
                   (mkHandler (subscriber (handler h)) (invocations (handler h))
                      (console (handler h) ++ [Warn "WebSocket connection failed:" err]))
                   b1
        end
      else h
  | None => h
  end.

(** [disconnect] *)
Definition disconnect (h : Hook) : Hook :=
  let pending :=
    match reconnectTimeout h with
    | Some (S t) => List.filter (fun x => negb (Nat.eqb x (S t))) (timers h)
    | _ => timers h
    end in
  let socks :=
    match wsRef h with
    | Some i => alter (fun s => mkSocket (socket_url s) true) i (sockets h)
    | None => sockets h
    end in
  mkHook (mountedRef h) None false (reconnectTimeout h) socks pending
         (next_timer h) (handler h) (browser h).

Definition set_mounted (m : bool) (h : Hook) : Hook :=
  mkHook m (wsRef h) (isConnected h) (reconnectTimeout h) (sockets h) (timers h)
         (next_timer h) (handler h) (browser h).

Inductive Event : Type :=
| Mount                              (* the effect runs *)
| Cleanup                            (* the effect's cleanup runs *)
| Open (s : nat)                     (* [ws.onopen] of socket [s] *)
| Close (s : nat)                    (* [ws.onclose] *)
| Error (s : nat)                    (* [ws.onerror] *)
| Message (s : nat) (data : string)  (* [ws.onmessage] *)
| Timeout (t : nat).                 (* a pending timeout fires *)

Definition step (e : Event) (h : Hook) : Hook :=
  match e with
  | Mount =>
      let h1 := set_mounted true h in
      if truthy caseId && enabled then connect h1 else h1
  | Cleanup => disconnect (set_mounted false h)
  | Open s =>
      if bool_decide (is_Some (sockets h !! s)) && mountedRef h then
        mkHook (mountedRef h) (wsRef h) true (reconnectTimeout h) (sockets h) (timers h)
               (next_timer h) (handler h) (browser h)
      else h
  | Close s | Error s =>
      if bool_decide (is_Some (sockets h !! s)) && mountedRef h
      then schedule_reconnect h else h
  | Message s data =>
      if bool_decide (is_Some (sockets h !! s)) then
        mkHook (mountedRef h) (wsRef h) (isConnected h) (reconnectTimeout h) (sockets h)
               (timers h) (next_timer h)
               (onmessage JSON_parse (guarded (mountedRef h)) data (handler h)).2
               (browser h)
      else h
  | Timeout t =>
      if existsb (Nat.eqb t) (timers h) then
        connect (mkHook (mountedRef h) (wsRef h) (isConnected h) (reconnectTimeout h)
                        (sockets h) (List.filter (fun x => negb (Nat.eqb x t)) (timers h))
                        (next_timer h) (handler h) (browser h))
      else h
  end.

Definition run (es : list Event) (h : Hook) : Hook :=
  fold_left (fun h e => step e h) es h.

(** The hook before its effect has run: [mountedRef] starts as [true],
    timer ids start at 1. *)
Definition initial (sub : Sub) (b : Browser) : Hook :=
  mkHook true None false None [] [] 1 (mkHandler (sub, []) [] []) b.

(** The messages delivered to the page's [onMessage]. *)
Definition delivered (h : Hook) : list Json := snd (subscriber (handler h)).

End Hook.

Arguments mkHook {Json Sub} mountedRef wsRef isConnected reconnectTimeout sockets timers
  next_timer handler browser.
Arguments mountedRef {Json Sub} h.
Arguments wsRef {Json Sub} h.
Arguments isConnected {Json Sub} h.
Arguments reconnectTimeout {Json Sub} h.
Arguments sockets {Json Sub} h.
Arguments timers {Json Sub} h.
Arguments next_timer {Json Sub} h.
Arguments handler {Json Sub} h.
Arguments browser {Json Sub} h.
Arguments delivered {Json Sub} h.
Arguments disconnect {Json Sub} h.
Arguments set_mounted {Json Sub} m h.
Arguments schedule_reconnect {Json Sub} h.
Arguments initial {Json Sub} sub b.

End UseWebSocket.

(** ** [app/page.tsx]: the application shell *)

Module Home.

Import Types.

Inductive View : Type := login | dashboard | intake | results | specialist_portal.

Record State : Type := mkState {
  view : View;
  user : option User.t;
  assessment : option RiskAssessmentResponse.t;
  escalation : option EscalationResponse.t;
  specialistToken : option string;
}.

Definition initial : State := mkState login None None None None.

(** What [JSON.parse(savedUser)] gives: it throws, or it yields a value,
    falsy ([None]) or read as a [User]. *)
Inductive Parsed : Type :=
| Throws
| Value (u : option User.t).

Section Shell.

(** [new URLSearchParams(window.location.search).get("token")] and the
    platform's JSON functions on users. *)
Variable url_token : option string.
Variable JSON_stringify : User.t -> string.
Variable JSON_parse : string -> Parsed.

(** The mount effect: a token in the url opens the specialist portal;
    otherwise a saved session is restored. *)
Definition mount (st : State) (b : Api.Browser) : State * Api.Browser :=
  if Api.has_window b then
    if truthy url_token then
      (mkState specialist_portal (user st) (assessment st) (escalation st) url_token, b)
    else
      let '(savedToken, b1) := Api.getToken b in
      let savedUser := Api.localStorage b1 !! "cdss_user" in
      if truthy savedToken && truthy savedUser then
        match JSON_parse (default "" savedUser) with
        | Value u =>
            (mkState dashboard u (assessment st) (escalation st) (specialistToken st), b1)
        | Throws => (st, b1)
        end
      else (st, b1)
  else (st, b).

(** The handlers run in the browser, where [localStorage] is there. *)
Definition handleLoginSuccess (userData : User.t) (st : State) (b : Api.Browser)
    : State * Api.Browser :=
  (mkState dashboard (Some userData) (assessment st) (escalation st) (specialistToken st),
   Api.mkBrowser (Api._token b) (Api.has_window b)
                 (<["cdss_user" := JSON_stringify userData]> (Api.localStorage b))).

Definition handleLogout (st : State) (b : Api.Browser) : State * Api.Browser :=
  (mkState login None None None (specialistToken st),
   Api.mkBrowser (Api._token b) (Api.has_window b)
                 (delete "cdss_user" (Api.localStorage b))).

Definition handleAssessmentComplete (result : option RiskAssessmentResponse.t)
    (st : State) : State :=
  mkState results (user st) result (escalation st) (specialistToken st).

Definition handleEscalationComplete (result : option EscalationResponse.t)
    (st : State) : State :=
  mkState (view st) (user st) (assessment st) result (specialistToken st).

Definition handleBackToDashboard (st : State) : State :=
  mkState dashboard (user st) None None (specialistToken st).

(** [setView], which the pages get as [navigateTo], [onBack] and
    [onNewIntake]. *)
Definition setView (v : View) (st : State) : State :=
  mkState v (user st) (assessment st) (escalation st) (specialistToken st).

(** The page the shell renders. *)
Inductive Page : Type :=
| SpecialistPortalPage (token : string)
| LoginPage
| IntakePage (u : User.t)
| ResultsPage (u : User.t) (a : RiskAssessmentResponse.t) (e : option EscalationResponse.t)
| DashboardPage (u : User.t).

Definition render (st : State) : Page :=
  match view st with
  | specialist_portal => SpecialistPortalPage (nullish (specialistToken st) "")
  | login => LoginPage
  | v =>
      match user st with
      | None => LoginPage
      | Some u =>
          match v, assessment st with
          | intake, _ => IntakePage u
          | results, Some a => ResultsPage u a (escalation st)
          | _, _ => DashboardPage u
          end
      end
  end.

End Shell.

End Home.

(** * Vocabulary of the statements, and scenarios *)

Section RequestVocabulary.

Import Types Api.

(** The headers of a request built without [options.headers]. *)
Definition json_headers : gmap string string := {["Content-Type" := "application/json"]}.

(** The [Authorization] header [request] attaches for a store [b]. *)
Definition bearer (b : Browser) : option string :=
  let token := (getToken b).1 in
  if truthy token then Some ("Bearer " ++ default "" token) else None.

(** Whether [tok] occurs in the text [s]. *)
Definition occurs (tok s : string) : bool :=
  bool_decide (is_Some (String.index 0 tok s)).

(** The strings an advice payload holds. *)
Definition advice_strings (a : SpecialistAdviceRequest.t) : list string :=
  SpecialistAdviceRequest.case_id a
  :: from_option (fun n => [n]) [] (SpecialistAdviceRequest.custom_notes a)
  ++ SpecialistAdviceRequest.medications_advised a
  ++ SpecialistAdviceRequest.investigations a.

(** The strings a request body holds (for the payloads of the
    specialist's and the escalation requests, and for forms). *)
Definition body_strings (o : option Body) : list string :=
  match o with
  | Some (JsonBody (AdvicePayload a)) => advice_strings a
  | Some (JsonBody (EscalatePayload c r s)) => c :: r :: from_option (fun x => [x]) [] s
  | Some (FormBody fields) => map snd fields
  | _ => []
  end.

(** Whether a request carries [tok] anywhere: in its url, in a header or
    in its body. *)
Definition carries (r : HttpRequest) (tok : string) : bool :=
  occurs tok (url r)
  || existsb (occurs tok) (map snd (map_to_list (req_headers r)))
  || existsb (occurs tok) (body_strings (req_body r)).

(** A service that authenticates a specialist request by the escalation
    token it carries, as the spec's token auth does. *)
Definition token_checking_service {T} (token : string) (answer : T) : Fetch T :=
  fun r =>
    if carries r token then Reply (Success 200 (Some answer))
    else Reply (Failure 403 (Some (mkErrorJson (Some "tokenInvalid") None))).

(** A service that rejects every login with 401. *)
Definition unauthorized : Fetch TokenResponse.t :=
  fun _ => Reply (Failure 401 (Some (mkErrorJson (Some "Incorrect email or password") None))).

(** A parser that accepts the JSON text [null] and nothing else, and a
    subscriber that counts its messages and throws on each. *)
Definition null_only (data : string) : option unit :=
  if String.eqb data "null" then Some tt else None.

Definition counting_subscriber (_ : unit) (n : nat) : Completion unit * nat :=
  (Rejected "subscriber failed", S n).

End RequestVocabulary.

Section SchemaVocabulary.

Import Schema.

(** A stored value is a label of the enum: it is there and it is one of
    [labels]. *)
Definition labelled (labels : list string) (v : option string) : Prop :=
  exists s, v = Some s /\ s ∈ labels.

(** A [NOT NULL] enum column whose default, if any, is a label. *)
Definition enum_column (labels : list string) (c : Column string) : Prop :=
  not_null c = true
  /\ (forall s, valid c s = true -> s ∈ labels)
  /\ (forall s, dflt c = Some s -> s ∈ labels).

(** A case row whose status is a label of [case_status]. *)
Definition status_declared (r : cases.Row) : Prop :=
  labelled case_status (cases.status r).

(** An assessment row whose final risk level is a label of [risk_level]. *)
Definition level_declared (r : risk_assessments.Row) : Prop :=
  labelled risk_level (risk_assessments.final_risk_level r).

End SchemaVocabulary.

Section VitalsVocabulary.

Import Schema Schema.vitals.

(** A stored integer is NULL or lies between [lo] and [hi]. *)
Definition within (lo hi : Z) (v : option Z) : Prop :=
  from_option (fun z => (lo <= z <= hi)%Z) True v.

(** A stored [numeric] is NULL or a number of tenths between [lo] and
    [hi] tenths: it has one decimal and is not NaN. *)
Definition tenths_within (lo hi : Z) (v : option numeric) : Prop :=
  from_option (fun x => exists n, x = Num (n # 10) /\ (lo <= n <= hi)%Z) True v.

(** A stored [numeric] is NULL, NaN, or a number of tenths below
    [bound] tenths in absolute value. *)
Definition tenths_or_NaN (bound : Z) (v : option numeric) : Prop :=
  from_option (fun x => x = NaN \/ exists n, x = Num (n # 10) /\ (Z.abs n < bound)%Z) True v.

(** A vitals row as the declarations of the table leave it: the case and
    the recorder are there, each checked column is NULL or within its
    range, and the [NUMERIC(p,1)] columns hold one decimal. *)
Definition vitals_checked (r : Row) : Prop :=
  is_Some (case_id r)
  /\ is_Some (recorded_by r)
  /\ within 40 350 (systolic_bp r)
  /\ within 20 250 (diastolic_bp r)
  /\ within 20 350 (heart_rate r)
  /\ within 4 80 (respiratory_rate r)
  /\ tenths_within 500 1000 (spo2 r)
  /\ tenths_within 300 450 (temperature r)
  /\ within 20 1000 (blood_glucose_mgdl r)
  /\ tenths_or_NaN 100000 (weight_kg r)
  /\ within 3 15 (gcs_score r).

(** A statement that names the case, the recorder and the oxygen
    saturation, and no other column. *)
Definition only_spo2 (cid rb : string) (v : numeric) : Write :=
  mkWrite (Val cid) (Val rb) Omitted Omitted Omitted Omitted (Val v)
          Omitted Omitted Omitted Omitted.

End VitalsVocabulary.

Section ValidationVocabulary.

Import Types Engine.

(** The vital signs with a declared range: name, member and range. *)
Definition declared_vitals : list (string * (VitalsInput.t -> option num) * Range) :=
  [ ("systolic_bp", fun v => Some (VitalsInput.systolic_bp v), mkRange 40 350);
    ("diastolic_bp", fun v => Some (VitalsInput.diastolic_bp v), mkRange 20 250);
    ("heart_rate", fun v => Some (VitalsInput.heart_rate v), mkRange 20 350);
    ("respiratory_rate", fun v => Some (VitalsInput.respiratory_rate v), mkRange 4 80);
    ("spo2", fun v => Some (VitalsInput.spo2 v), mkRange 50 100);
    ("temperature", fun v => Some (VitalsInput.temperature v), mkRange 30 45);
    ("blood_glucose_mgdl", VitalsInput.blood_glucose_mgdl, mkRange 20 1000);
    ("gcs_score", VitalsInput.gcs_score, mkRange 3 15) ].

(** A submission contains a vital sign outside its declared range. *)
Definition out_of_range (v : VitalsInput.t) : Prop :=
  exists name member range q,
    (name, member, range) ∈ declared_vitals
    /\ member v = Some (Fin q)
    /\ ~ (lo range <= q /\ q <= hi range)%Q.

(** Scenario S1 (critical rule overrides model): systolic pressure 85 and
    two red-flag symptoms. *)
Definition S1 : PatientIntakeRequest.t :=
  PatientIntakeRequest.mk "Sunita Devi" (Fin 45) (Some female) None None
    (VulnerabilityFlags.mk false true false true false)
    (VitalsInput.mk (Fin 85) (Fin 55) (Fin 118) (Fin 26) (Fin (915 # 10))
                    (Fin (388 # 10)) None None None)
    [ MedicationInput.mk None "Atenolol" (Some "50mg") (Some "OD") None ]
    [ SymptomInput.mk "chest pain" true (Some severe) None;
      SymptomInput.mk "difficulty breathing" true None None ]
    "Severe chest pain + breathing difficulty for 2 hours".

(** The snapshot validation makes of S1. *)
Definition S1_intake : Intake :=
  mkIntake 45 female
    (VulnerabilityFlags.mk false true false true false)
    (mkVitals 85 55 118 26 (915 # 10) (388 # 10) None None None)
    [ MedicationInput.mk None "Atenolol" (Some "50mg") (Some "OD") None ]
    [ SymptomInput.mk "chest pain" true (Some severe) None;
      SymptomInput.mk "difficulty breathing" true None None ]
    "Severe chest pain + breathing difficulty for 2 hours".

(** A model that answers "low" whatever the intake, with a medication
    engine that finds nothing. *)
Definition reassuring_model : Analyzers :=
  mkAnalyzers (fun _ => Some (MLResult.mk (5 # 100) low [] "No driver of note."))
              (fun _ => []).

(** S1 with the systolic pressure mistyped as 400. *)
Definition mistyped_intake : PatientIntakeRequest.t :=
  PatientIntakeRequest.mk "Sunita Devi" (Fin 45) (Some female) None None
    (VulnerabilityFlags.mk false true false true false)
    (VitalsInput.mk (Fin 400) (Fin 55) (Fin 118) (Fin 26) (Fin (915 # 10))
                    (Fin (388 # 10)) None None None)
    [] [] "Severe chest pain + breathing difficulty for 2 hours".

(** A service whose model is unavailable and whose medication engine
    finds nothing. *)
Definition quiet_analyzers : Analyzers :=
  mkAnalyzers (fun _ => None) (fun _ => []).

End ValidationVocabulary.

Section SessionVocabulary.

Import Api.

(** What a page does to the token store over a session. *)
Inductive TokenOp : Type :=
| SetToken (token : option string)
| GetToken
| ClearToken
| Reload.

Definition token_op (op : TokenOp) (b : Browser) : Browser :=
  match op with
  | SetToken token => setToken token b
  | GetToken => (getToken b).2
  | ClearToken => clearToken b
  | Reload => reload b
  end.

Definition token_ops (ops : list TokenOp) (b : Browser) : Browser :=
  fold_left (fun b op => token_op op b) ops b.

(** The cached token, when it is truthy, is the stored one. *)
Definition coherent (b : Browser) : Prop :=
  truthy (_token b) = true -> localStorage b !! "cdss_token" = _token b.

End SessionVocabulary.

Section HookVocabulary.

Import Api UseWebSocket.

(** The hook once its cleanup has run, seen from the state [h0] the
    cleanup left. *)
Definition unmounted_since {Json Sub : Type} (h0 h : Hook Json Sub) : Prop :=
  mountedRef h = false
  /\ wsRef h = None
  /\ isConnected h = false
  /\ sockets h = sockets h0
  /\ subscriber (handler h) = subscriber (handler h0)
  /\ (forall t, t ∈ timers h -> t ∈ timers h0).

End HookVocabulary.

(** Splits a hypothesis [m ≫= k = Some r] along the chain of binds. *)
Ltac split_binds H :=
  repeat match type of H with
         | (?m ≫= _) = Some _ =>
             let v := fresh "v" in
             let E := fresh "E" in
             destruct m as [v|] eqn:E; simpl in H; [| discriminate H]
         end.

(** * Properties *)

(** ** Token storage ([setToken], [getToken], [clearToken]) *)

Section TokenStorage.

Import Api.

Implicit Types (t : string) (b : Browser).

Lemma truthy_nonempty t : t <> "" -> truthy (Some t) = true.
Proof. destruct t; [congruence | reflexivity]. Qed.

(** After [setToken] the module variable holds the token, whatever the
    environment. *)
Lemma setToken_variable (o : option string) b : _token (setToken o b) = o.
Proof. unfold setToken. destruct (has_window b), (truthy o); reflexivity. Qed.

Lemma setToken_window (o : option string) b : has_window (setToken o b) = has_window b.
Proof. unfold setToken. destruct (has_window b), (truthy o); reflexivity. Qed.

(** In a browser a non-empty token is written under "cdss_token". *)
Lemma setToken_stored t b :
  t <> "" -> has_window b = true ->
  localStorage (setToken (Some t) b) !! "cdss_token" = Some t.
Proof.
  intros Ht Hw. unfold setToken. rewrite Hw, (truthy_nonempty t Ht). simpl.
  apply lookup_insert_eq.
Qed.

(** In a browser a falsy token removes the entry. *)
Lemma setToken_removed (o : option string) b :
  truthy o = false -> has_window b = true ->
  localStorage (setToken o b) !! "cdss_token" = None.
Proof.
  intros Ho Hw. unfold setToken. rewrite Hw, Ho. simpl. apply lookup_delete_eq.
Qed.

Lemma getToken_cached t b :
  t <> "" -> _token b = Some t -> (getToken b).1 = Some t.
Proof.
  intros Ht Hb. unfold getToken. rewrite Hb, (truthy_nonempty t Ht). reflexivity.
Qed.

Lemma getToken_cleared (o : option string) b :
  truthy o = false -> (getToken (setToken o b)).1 = (if has_window b then None else o).
Proof.
  intros Ho. unfold getToken.
  rewrite setToken_variable, Ho, setToken_window.
  destruct (has_window b) eqn:Hw; simpl.
  - apply (setToken_removed o b Ho Hw).
  - reflexivity.
Qed.

(** C9, as amended: for every non-empty token [t], [getToken] after
    [setToken t] returns [t]; [getToken] after [clearToken] returns null;
    and in a browser the token is stored under "cdss_token" in local
    storage, so that [getToken] still returns [t] after a reload and
    still returns null after a reload that follows [clearToken]. *)
Theorem token_round_trip t b :
  t <> "" ->
  (getToken (setToken (Some t) b)).1 = Some t
  /\ (getToken (clearToken b)).1 = None
  /\ (has_window b = true ->
      localStorage (setToken (Some t) b) !! "cdss_token" = Some t
      /\ (getToken (reload (setToken (Some t) b))).1 = Some t
      /\ (getToken (reload (clearToken (setToken (Some t) b)))).1 = None).
Proof.
  intros Ht. split; [| split].
  - apply getToken_cached; [exact Ht | apply setToken_variable].
  - unfold clearToken. rewrite getToken_cleared by reflexivity.
    destruct (has_window b); reflexivity.
  - intros Hw. split; [apply setToken_stored; assumption |]. split.
    + unfold getToken, reload. simpl. rewrite setToken_window, Hw. simpl.
      apply setToken_stored; assumption.
    + unfold getToken, reload, clearToken. simpl.
      rewrite !setToken_window, Hw. simpl.
      apply setToken_removed; [reflexivity |].
      rewrite setToken_window. exact Hw.
Qed.

(** The round trip at a concrete token, in a fresh browser. *)
Lemma token_round_trip_witness :
  "eyJhbGciOi" <> ""
  /\ (getToken (setToken (Some "eyJhbGciOi") (mkBrowser None true ∅))).1 = Some "eyJhbGciOi".
Proof.
  split; [discriminate |].
  apply (token_round_trip "eyJhbGciOi" (mkBrowser None true ∅)). discriminate.
Defined.

(** C9, as stated, fails for the empty string, which is a non-null
    token: in a browser [setToken ""] removes the stored entry and the
    next [getToken] returns null. *)
Lemma empty_token_does_not_round_trip :
  (getToken (setToken (Some "") (mkBrowser None true ∅))).1 = None
  /\ (getToken (setToken (Some "") (mkBrowser None true ∅))).1 <> Some "".
Proof.
  assert (H : (getToken (setToken (Some "") (mkBrowser None true ∅))).1 = None).
  { rewrite getToken_cleared by reflexivity. reflexivity. }
  split; [exact H | rewrite H; discriminate].
Qed.

End TokenStorage.

(** ** The requests the client sends *)

Section Requests.

Import Types Api.

Variable env : Env.

Lemma headers_without_options (m : option string) (bd : option Body) :
  default ∅ (headers (mkInit m bd None)) ∪ json_headers = json_headers.
Proof. simpl. apply (left_id_L ∅ (∪)). Qed.

Lemma prepare_unauthenticated path m bd b :
  prepare env path (mkInit m bd None) false b
  = (mkRequest (BASE_URL env ++ path) m json_headers bd, b).
Proof. unfold prepare. rewrite headers_without_options. reflexivity. Qed.

Lemma prepare_authenticated path m bd b :
  prepare env path (mkInit m bd None) true b
  = (mkRequest (BASE_URL env ++ path) m
       (match bearer b with
        | Some h => <["Authorization" := h]> json_headers
        | None => json_headers
        end) bd,
     (getToken b).2).
Proof.
  unfold prepare, bearer. rewrite headers_without_options.
  destruct (getToken b) as [token b1]. simpl.
  destruct (truthy token); reflexivity.
Qed.

Lemma authorization_attached (o : option string) :
  match o with
  | Some h => <["Authorization" := h]> json_headers
  | None => json_headers
  end !! "Authorization" = o.
Proof.
  destruct o as [h|].
  - apply lookup_insert_eq.
  - unfold json_headers. apply lookup_singleton_ne. discriminate.
Qed.

Lemma request_unauthenticated {T} (fetch : Fetch T) path m bd b :
  request env fetch path (mkInit m bd None) false b
  = (settle (fetch (mkRequest (BASE_URL env ++ path) m json_headers bd)), b).
Proof. unfold request. rewrite prepare_unauthenticated. reflexivity. Qed.

Lemma request_authenticated {T} (fetch : Fetch T) path m bd b :
  exists r,
    request env fetch path (mkInit m bd None) true b = (settle (fetch r), (getToken b).2)
    /\ url r = BASE_URL env ++ path
    /\ req_body r = bd
    /\ req_headers r !! "Authorization" = bearer b.
Proof.
  eexists. unfold request. rewrite prepare_authenticated.
  split; [reflexivity |]. simpl.
  split; [reflexivity |]. split; [reflexivity |].
  apply authorization_attached.
Qed.

(** C8, as amended: the portal read and the advice submission carry no
    [Authorization] header (their only header is the content type); the
    portal read has the escalation token in its path and nothing else;
    the advice submission has the advice payload as its body; and the
    other case operations ([getCases], [getCase], [analyzeRisk],
    [escalateCase]) attach [Bearer <token>] exactly when a token is
    there. *)
Theorem specialist_requests_carry_no_bearer :
  (forall fetch token b,
      getSpecialistPortal env fetch token b
      = (settle (fetch (mkRequest (BASE_URL env ++ "/specialist/portal/" ++ token)
                                  (Some "GET") json_headers None)), b))
  /\ (forall fetch advice b,
      submitAdvice env fetch advice b
      = (settle (fetch (mkRequest (BASE_URL env ++ "/specialist/advice")
                                  (Some "POST") json_headers
                                  (Some (JsonBody (AdvicePayload advice))))), b))
  /\ json_headers !! "Authorization" = None
  /\ (forall b,
      (forall fetch, exists r,
          getCases env fetch b = (settle (fetch r), (getToken b).2)
          /\ req_headers r !! "Authorization" = bearer b)
      /\ (forall fetch caseId, exists r,
          getCase env fetch caseId b = (settle (fetch r), (getToken b).2)
          /\ req_headers r !! "Authorization" = bearer b)
      /\ (forall fetch payload, exists r,
          analyzeRisk env fetch payload b = (settle (fetch r), (getToken b).2)
          /\ req_headers r !! "Authorization" = bearer b)
      /\ (forall fetch caseId reason specialistId, exists r,
          escalateCase env fetch caseId reason specialistId b
          = (settle (fetch r), (getToken b).2)
          /\ req_headers r !! "Authorization" = bearer b)).
Proof.
  split; [| split; [| split]].
  - intros. unfold getSpecialistPortal, get. apply request_unauthenticated.
  - intros. unfold submitAdvice, post. apply request_unauthenticated.
  - unfold json_headers. apply lookup_singleton_ne. discriminate.
  - intros b. repeat split; intros.
    + destruct (request_authenticated fetch "/cases" (Some "GET") None b)
        as (r & Hr & _ & _ & Ha). exists r. split; assumption.
    + destruct (request_authenticated fetch ("/cases/" ++ caseId) (Some "GET") None b)
        as (r & Hr & _ & _ & Ha). exists r. split; assumption.
    + destruct (request_authenticated fetch "/analyze/risk" (Some "POST")
                  (Some (JsonBody (IntakePayload payload))) b)
        as (r & Hr & _ & _ & Ha). exists r. split; assumption.
    + destruct (request_authenticated fetch "/escalate" (Some "POST")
                  (Some (JsonBody (EscalatePayload caseId reason specialistId))) b)
        as (r & Hr & _ & _ & Ha). exists r. split; assumption.
Qed.

End Requests.

(** C8, as stated, fails for the advice submission: the request it sends
    holds the escalation token nowhere (the advice payload has no token
    member), so a service that checks the token turns it down, although
    it serves the portal read made with the same link. *)
Lemma advice_request_carries_no_token :
  let env := Api.mkEnv None None in
  let token := "3f9c0a7e51d24b88" in
  let advice := Types.SpecialistAdviceRequest.mk "demo-case-001" Types.urgent_referral
                  None ["Nifedipine"] ["ECG"] None in
  let b := Api.mkBrowser None true ∅ in
  Api.submitAdvice env (token_checking_service token (Api.mkAck "ok" "demo-case-001"))
                   advice b
  = (Rejected "tokenInvalid", b)
  /\ Api.getSpecialistPortal env
       (token_checking_service token (SpecialistPortalPage.demo "2025-01-15T10:30:00Z"))
       token b
     = (Resolved (Some (SpecialistPortalPage.demo "2025-01-15T10:30:00Z")), b).
Proof. split; vm_compute; reflexivity. Qed.

(** ** The live-event message handler *)

Section LiveEvents.

Import Api.

Variable Json : Type.
Variable JSON_parse : string -> option Json.
Variable Sub : Type.
Variable onMessage : Json -> Sub -> Completion unit * Sub.

(** The handler never throws, whatever the frame and whatever the
    callback does. *)
Lemma onmessage_never_throws data w : (onmessage JSON_parse onMessage data w).1 = Resolved tt.
Proof.
  unfold onmessage. destruct (JSON_parse data) as [msg|]; [| reflexivity].
  destruct (onMessage msg (subscriber w)) as [[[]|m] s]; reflexivity.
Qed.

Lemma onmessage_invalid data w :
  JSON_parse data = None ->
  (onmessage JSON_parse onMessage data w).2
  = mkHandler (subscriber w) (invocations w)
              (console w ++ [Warn "WS parse error" data]).
Proof. intros H. unfold onmessage. rewrite H. reflexivity. Qed.

Lemma onmessage_valid data msg w :
  JSON_parse data = Some msg ->
  invocations (onmessage JSON_parse onMessage data w).2 = (invocations w ++ [msg])%list
  /\ subscriber (onmessage JSON_parse onMessage data w).2 = (onMessage msg (subscriber w)).2
  /\ console (onmessage JSON_parse onMessage data w).2
     = match (onMessage msg (subscriber w)).1 with
       | Resolved _ => console w
       | Rejected _ => (console w ++ [Warn "WS parse error" data])%list
       end.
Proof.
  intros H. unfold onmessage. rewrite H.
  destruct (onMessage msg (subscriber w)) as [[[]|m] s]; repeat split; reflexivity.
Qed.

(** C10: a frame whose payload is not valid JSON does not invoke the
    callback (no invocation is added, the subscriber's state is
    untouched), is logged with [console.warn] and lets no exception
    escape.  A frame with valid JSON invokes the callback exactly once,
    with the parsed message: one invocation is recorded, the subscriber
    is left in the state one call of [onMessage] on the parsed message
    leaves it in, and no exception escapes, also when the callback
    throws (the [catch] then logs the frame). *)
Theorem onmessage_frames data w :
  (JSON_parse data = None ->
     (onmessage JSON_parse onMessage data w).1 = Resolved tt
     /\ invocations (onmessage JSON_parse onMessage data w).2 = invocations w
     /\ subscriber (onmessage JSON_parse onMessage data w).2 = subscriber w
     /\ console (onmessage JSON_parse onMessage data w).2
        = (console w ++ [Warn "WS parse error" data])%list)
  /\ (forall msg, JSON_parse data = Some msg ->
     (onmessage JSON_parse onMessage data w).1 = Resolved tt
     /\ invocations (onmessage JSON_parse onMessage data w).2 = (invocations w ++ [msg])%list
     /\ subscriber (onmessage JSON_parse onMessage data w).2
        = (onMessage msg (subscriber w)).2
     /\ console (onmessage JSON_parse onMessage data w).2
        = match (onMessage msg (subscriber w)).1 with
          | Resolved _ => console w
          | Rejected _ => (console w ++ [Warn "WS parse error" data])%list
          end).
Proof.
  split.
  - intros H. split; [apply onmessage_never_throws |].
    rewrite (onmessage_invalid data w H). repeat split.
  - intros msg H. split; [apply onmessage_never_throws |].
    apply (onmessage_valid data msg w H).
Qed.

End LiveEvents.

(** The handler on a frame that is not JSON and on one that is, with a
    subscriber that counts its calls. *)
Lemma onmessage_frames_witness :
  let run data := (Api.onmessage null_only counting_subscriber data (Api.mkHandler 0 [] [])).2 in
  (null_only "{oops" = None /\ null_only "null" = Some tt)
  /\ (Api.invocations (run "{oops") = [] /\ Api.subscriber (run "{oops") = 0)
  /\ (Api.invocations (run "null") = [tt] /\ Api.subscriber (run "null") = 1).
Proof.
  split; [split; reflexivity |]. split.
  - destruct (proj1 (onmessage_frames unit null_only nat counting_subscriber "{oops"
                       (Api.mkHandler 0 [] [])) eq_refl) as (_ & Hi & Hs & _).
    split; [exact Hi | exact Hs].
  - destruct (proj2 (onmessage_frames unit null_only nat counting_subscriber "null"
                       (Api.mkHandler 0 [] [])) tt eq_refl) as (_ & Hi & Hs & _).
    split; [exact Hi | exact Hs].
Defined.

(** ** Login *)

Section Login.

Import Types Api LoginPage.

Variable env : Env.
Variable now : Z.

(** A rejected [login] stores nothing. *)
Lemma login_rejected_keeps_store fetch creds b message :
  (login env fetch creds b).1 = Rejected message ->
  (login env fetch creds b).2 = b.
Proof.
  unfold login.
  destruct (fetch _) as [m | [status json | status [data|]]]; simpl;
    intros H; [reflexivity | reflexivity | | reflexivity].
  discriminate H.
Qed.

(** A demo account is found by its own credentials. *)
Lemma demo_account_found acc st :
  In acc DEMO_ACCOUNTS -> st_email st = email acc -> st_password st = password acc ->
  demo_account st = Some acc.
Proof.
  unfold demo_account. intros [<- | [<- | []]] -> ->; reflexivity.
Qed.

Lemma demo_token_stored acc b :
  In acc DEMO_ACCOUNTS ->
  (getToken (setToken (Some ("demo-token-" ++ role acc)) b)).1
  = Some ("demo-token-" ++ role acc).
Proof.
  intros Hacc. apply getToken_cached; [| apply setToken_variable].
  destruct Hacc as [<- | [<- | []]]; discriminate.
Qed.

(** C7, as amended: when the [login] call is rejected and the
    credentials are not those of a built-in demo account, no token is
    stored (the browser store is as it was), [onSuccess] is not called,
    so the client stays logged out, and the error cell holds the
    rejection's message; the alert shows that message when it is not
    empty, and nothing is shown when it is empty.  When the credentials
    are those of a demo account, whichever of the two, the token
    "demo-token-<role>" is stored and [onSuccess] is called with the
    demo user, with no error. *)
Theorem rejected_login_stays_logged_out fetch st b message :
  (login env fetch (LoginRequest.mk (st_email st) (st_password st)) b).1 = Rejected message ->
  let run := handleSubmit env now fetch st b in
  loading (state run) = false
  /\ (demo_account st = None ->
      browser run = b
      /\ onSuccess run = None
      /\ error (state run) = Some message
      /\ (message <> "" -> alert (state run) = Some message)
      /\ (message = "" -> alert (state run) = None))
  /\ (forall acc,
      In acc DEMO_ACCOUNTS -> st_email st = email acc -> st_password st = password acc ->
      browser run = setToken (Some ("demo-token-" ++ role acc)) b
      /\ (getToken (browser run)).1 = Some ("demo-token-" ++ role acc)
      /\ onSuccess run
         = Some (User.mk (id acc) (email acc) (name acc)
                         (if String.eqb (role acc) "PHW" then phw else specialist) None)
      /\ error (state run) = None
      /\ alert (state run) = None).
Proof.
  intros Hrej. unfold handleSubmit.
  pose proof (login_rejected_keeps_store fetch _ b message Hrej) as Hb.
  destruct (login env fetch _ b) as [[data | m] b1]; simpl in *; [discriminate |].
  injection Hrej as ->. subst b1. split; [| split].
  - destruct (demo_account st); reflexivity.
  - intros ->. split; [reflexivity |]. split; [reflexivity |]. split; [reflexivity |].
    unfold alert. cbn [state error with_result]. split.
    + intros Hne. rewrite (truthy_nonempty _ Hne). reflexivity.
    + intros ->. reflexivity.
  - intros acc Hacc He Hp. rewrite (demo_account_found acc st Hacc He Hp). simpl.
    repeat split. apply (demo_token_stored acc b Hacc).
Qed.

End Login.

(** A rejected login with credentials of no demo account, and one with
    those of the second demo account. *)
Lemma rejected_login_stays_logged_out_witness :
  let env := Api.mkEnv None None in
  let b := Api.mkBrowser None true ∅ in
  let nurse := LoginPage.mkState "nurse@phc.in" "wrong-password" false None false in
  let doctor := LoginPage.mkState "doctor@hospital.in" "demo123" false None false in
  (Api.login env unauthorized (Types.LoginRequest.mk "nurse@phc.in" "wrong-password") b).1
  = Rejected "Incorrect email or password"
  /\ ((Api.getToken (LoginPage.browser (LoginPage.handleSubmit env 0 unauthorized nurse b))).1
      = None
      /\ LoginPage.alert (LoginPage.state (LoginPage.handleSubmit env 0 unauthorized nurse b))
         = Some "Incorrect email or password")
  /\ (Api.getToken (LoginPage.browser (LoginPage.handleSubmit env 0 unauthorized doctor b))).1
     = Some "demo-token-Specialist".
Proof.
  intros env b nurse doctor. split; [reflexivity |]. split.
  - destruct (rejected_login_stays_logged_out env 0 unauthorized nurse b
                "Incorrect email or password" eq_refl) as (_ & Hnone & _).
    destruct (Hnone eq_refl) as (Hb & _ & _ & Ha & _).
    split; [rewrite Hb; reflexivity | apply Ha; discriminate].
  - destruct (rejected_login_stays_logged_out env 0 unauthorized doctor b
                "Incorrect email or password" eq_refl) as (_ & _ & Hdemo).
    destruct (Hdemo (LoginPage.mkDemo "doctor@hospital.in" "demo123" "Specialist"
                       "Dr. Arjun Mehta" "spec-001")
                ltac:(right; left; reflexivity) eq_refl eq_refl) as (_ & Ht & _).
    exact Ht.
Defined.

(** A 401 whose [detail] is the empty string: the login is rejected with
    the empty message, which the alert does not show. *)
Lemma rejected_login_with_empty_detail_shows_nothing :
  let env := Api.mkEnv None None in
  let b := Api.mkBrowser None true ∅ in
  let st := LoginPage.mkState "nurse@phc.in" "wrong-password" false None false in
  let fetch : Api.Fetch Types.TokenResponse.t :=
    fun _ => Api.Reply (Api.Failure 401 (Some (Api.mkErrorJson (Some EmptyString) None))) in
  let run := LoginPage.handleSubmit env 0 fetch st b in
  LoginPage.onSuccess run = None
  /\ LoginPage.error (LoginPage.state run) = Some EmptyString
  /\ LoginPage.alert (LoginPage.state run) = None.
Proof. repeat split. Qed.

(** C7, as stated, fails for the demo accounts: the service rejects the
    credentials, and the client stores the token "demo-token-PHW" and
    calls [onSuccess] all the same, showing no error. *)
Lemma rejected_demo_login_is_logged_in :
  let env := Api.mkEnv None None in
  let st := LoginPage.mkState "phw@phc.in" "demo123" false None false in
  let b := Api.mkBrowser None true ∅ in
  let run := LoginPage.handleSubmit env 0 unauthorized st b in
  (Api.login env unauthorized (Types.LoginRequest.mk "phw@phc.in" "demo123") b).1
  = Rejected "Incorrect email or password"
  /\ (Api.getToken (LoginPage.browser run)).1 = Some "demo-token-PHW"
  /\ Api.localStorage (LoginPage.browser run) !! "cdss_token" = Some "demo-token-PHW"
  /\ LoginPage.onSuccess run
     = Some (Types.User.mk "phw-001" "phw@phc.in" "Priya Sharma" Types.phw None)
  /\ LoginPage.error (LoginPage.state run) = None.
Proof. repeat split; vm_compute; reflexivity. Qed.

(** ** The specialist portal *)

Section Portal.

Import Types Api SpecialistPortalPage.

Variable env : Env.
Variable now_iso : string.
Variable parseInt : string -> num.

(** A portal read the service turns down fails with the reply's detail. *)
Lemma portal_read_fails status (message : string) token b :
  getSpecialistPortal env
    (fun _ => Reply (Failure status (Some (mkErrorJson (Some message) None)))) token b
  = (Rejected message, b).
Proof.
  unfold getSpecialistPortal, get. rewrite request_unauthenticated. reflexivity.
Qed.

(** C5 on the code: for an expired or unknown token the read fails with
    [tokenInvalid], and yet the page then holds the demo bundle, its
    [error] cell is still null, and it renders the case review of
    "demo-case-001", not the "Portal Not Found" screen. *)
Theorem invalid_token_renders_demo_bundle status token b :
  let tokenInvalid : Fetch SpecialistPortalData.t :=
    fun _ => Reply (Failure status (Some (mkErrorJson (Some "tokenInvalid") None))) in
  let st := (loadPortal env now_iso tokenInvalid token initial b).1 in
  getSpecialistPortal env tokenInvalid token b = (Rejected "tokenInvalid", b)
  /\ data st = Some (demo now_iso)
  /\ error st = None
  /\ render st = CaseReview (demo now_iso)
  /\ render st <> PortalNotFound.
Proof.
  intros tokenInvalid st. subst st.
  assert (H : getSpecialistPortal env tokenInvalid token b = (Rejected "tokenInvalid", b))
    by apply portal_read_fails.
  unfold loadPortal. rewrite H. cbn.
  split; [reflexivity |]. split; [reflexivity |]. split; [reflexivity |].
  split; [reflexivity | discriminate].
Qed.

(** C6 on the code: when the service turns the advice down, the request
    is rejected and the page shows "Advice Submitted" all the same. *)
Theorem rejected_advice_renders_success status json d a notes meds invest hours b :
  let st := mkState (Some d) false None false (Some a) notes meds invest hours false in
  let fails : Fetch AdviceAck := fun _ => Reply (Failure status json) in
  let '(st', outcome, _) := handleSubmitAdvice env parseInt fails st b in
  (exists message, outcome = Some (Rejected message))
  /\ submitted st' = true
  /\ render st' = AdviceSubmitted d.
Proof.
  intros st fails. unfold handleSubmitAdvice. cbn [adviceType data st].
  unfold submitAdvice, post. rewrite request_unauthenticated. cbn.
  split; [eexists; reflexivity |]. split; reflexivity.
Qed.

End Portal.

(** ** The schema's enum columns *)

Section EnumColumns.

Import Schema.

Lemma accepts_labelled labels c v :
  enum_column labels c -> accepts c v = true -> labelled labels v.
Proof.
  intros (Hnn & Hvalid & _). destruct v as [s|]; simpl.
  - intros H. exists s. split; [reflexivity | apply Hvalid, H].
  - rewrite Hnn. discriminate.
Qed.

Lemma inserted_labelled labels c g v :
  enum_column labels c -> inserted c g = Some v -> labelled labels v.
Proof.
  intros Hc. unfold inserted.
  destruct (accepts c _) eqn:Hacc; [| discriminate].
  intros [= <-]. apply (accepts_labelled labels c _ Hc Hacc).
Qed.

Lemma updated_labelled labels c old g v :
  enum_column labels c -> labelled labels old ->
  updated c old g = Some v -> labelled labels v.
Proof.
  intros Hc Hold. unfold updated. destruct g as [| |a].
  - intros [= <-]. exact Hold.
  - destruct (accepts c None) eqn:Hacc; [| discriminate].
    intros [= <-]. apply (accepts_labelled labels c _ Hc Hacc).
  - destruct (accepts c (Some a)) eqn:Hacc; [| discriminate].
    intros [= <-]. apply (accepts_labelled labels c _ Hc Hacc).
Qed.

Lemma enum_sound labels s : enum labels s = true -> s ∈ labels.
Proof. unfold enum. apply bool_decide_eq_true_1. Qed.

Lemma cases_status_column : enum_column case_status cases.c_status.
Proof.
  split; [reflexivity |]. split.
  - intros s. apply enum_sound.
  - intros s [= <-]. apply enum_sound. reflexivity.
Qed.

Lemma final_risk_level_column : enum_column risk_level risk_assessments.c_final_risk_level.
Proof.
  split; [reflexivity |]. split.
  - intros s. apply enum_sound.
  - intros s H. discriminate H.
Qed.

End EnumColumns.

(** ** Case status *)

Section CaseStatus.

Import Schema Schema.cases.

Lemma insert_row_status i w r : insert_row i w = Some r -> status_declared r.
Proof.
  unfold insert_row. intros H. split_binds H. injection H as <-.
  unfold status_declared. simpl.
  eapply inserted_labelled; [apply cases_status_column | eassumption].
Qed.

Lemma update_row_status w r r' :
  status_declared r -> update_row w r = Some r' -> status_declared r'.
Proof.
  unfold update_row. intros Hr H. split_binds H. injection H as <-.
  unfold status_declared. simpl.
  eapply updated_labelled; [apply cases_status_column | exact Hr | eassumption].
Qed.

Lemma update_where_status i w t t' :
  Forall status_declared t -> update_where i w t = Some t' -> Forall status_declared t'.
Proof.
  revert t'. induction t as [|r t IH]; simpl; intros t' Ht H.
  - injection H as <-. constructor.
  - inversion Ht as [|? ? Hr Ht']; subst.
    split_binds H. injection H as <-. constructor.
    + destruct (String.eqb (id r) i).
      * eapply update_row_status; eassumption.
      * congruence.
    + apply IH; [assumption | reflexivity].
Qed.

Lemma exec_status s t : Forall status_declared t -> Forall status_declared (exec s t).
Proof.
  intros Ht. destruct s as [i w | i w | i [|]]; simpl; [| | assumption |].
  - destruct (existsb _ t); [assumption |].
    destruct (insert_row i w) as [r|] eqn:E; [| assumption].
    apply Forall_app. split; [assumption |].
    constructor; [eapply insert_row_status; eassumption | constructor].
  - destruct (update_where i w t) as [t'|] eqn:E; simpl; [| assumption].
    eapply update_where_status; eassumption.
  - apply Forall_forall. intros r Hr.
    apply list_elem_of_In, filter_In in Hr as [Hr _].
    rewrite Forall_forall in Ht. apply Ht, list_elem_of_In, Hr.
Qed.

Lemma run_status ss t : Forall status_declared t -> Forall status_declared (run ss t).
Proof.
  unfold run. revert t. induction ss as [|s ss IH]; simpl; intros t Ht.
  - assumption.
  - apply IH, exec_status, Ht.
Qed.

(** C4, as amended: every row of the [cases] table, after any sequence
    of INSERT, UPDATE and DELETE statements from the empty table, has a
    status, and that status is one of intake, analyzed, escalated,
    specialist_reviewing, advised, closed, cancelled.  (The client's
    [Case] listing type has a status set of its own: active, escalated,
    advised, closed.) *)
Theorem persisted_case_status_declared (ss : list Stmt) :
  Forall (fun r => exists s, status r = Some s
                   /\ s ∈ ["intake"; "analyzed"; "escalated"; "specialist_reviewing";
                           "advised"; "closed"; "cancelled"])
         (run ss [])
  /\ (forall c : Types.Case.t,
        Types.CaseStatus_text (Types.Case.status c)
        ∈ ["active"; "escalated"; "advised"; "closed"]).
Proof.
  split.
  - apply (run_status ss []). constructor.
  - intros c. destruct (Types.Case.status c); simpl; set_solver.
Qed.

End CaseStatus.

(** The statements of a case's life, with two the table rejects: a status
    that is no label of the enum, and NULL. *)
Example case_lifecycle :
  let new := Schema.cases.mkWrite (Schema.Val "patient-1") (Schema.Val "phw-1")
               Schema.Omitted Schema.Omitted Schema.Omitted Schema.Omitted Schema.Omitted in
  let set_status g := Schema.cases.mkWrite Schema.Omitted Schema.Omitted Schema.Omitted g
               Schema.Omitted Schema.Omitted Schema.Omitted in
  map Schema.cases.status
    (Schema.cases.run
       [ Schema.cases.Insert "case-1" new;
         Schema.cases.Update "case-1" (set_status (Schema.Val "analyzed"));
         Schema.cases.Update "case-1" (set_status (Schema.Val "active"));
         Schema.cases.Update "case-1" (set_status Schema.Null);
         Schema.cases.Insert "case-2" new ] [])
  = [Some "analyzed"; Some "intake"].
Proof. vm_compute. reflexivity. Qed.

(** C4, as stated, fails on the client: the dashboard's second case has
    the status "active", which is not in the declared set. *)
Lemma dashboard_case_status_undeclared :
  let cases := DashboardPage.MOCK_CASES 0 (fun _ => "2025-01-15T10:30:00Z") in
  (Types.Case.id <$> cases !! 1%nat) = Some "case-002"
  /\ (Types.CaseStatus_text <$> (Types.Case.status <$> cases !! 1%nat)) = Some "active"
  /\ "active" ∉ Schema.case_status.
Proof.
  split; [reflexivity |]. split; [reflexivity |].
  unfold Schema.case_status. intros H.
  repeat (apply elem_of_cons in H as [H | H]; [discriminate H |]).
  inversion H.
Qed.

(** ** The final risk level of an assessment *)

Section FinalRiskLevel.

Import Schema Schema.risk_assessments.

Lemma insert_row_level i w r : insert_row i w = Some r -> level_declared r.
Proof.
  unfold insert_row. intros H. split_binds H. injection H as <-.
  unfold level_declared. simpl.
  eapply inserted_labelled; [apply final_risk_level_column | eassumption].
Qed.

Lemma update_row_level w r r' :
  level_declared r -> update_row w r = Some r' -> level_declared r'.
Proof.
  unfold update_row. intros Hr H. split_binds H. injection H as <-.
  unfold level_declared. simpl.
  eapply updated_labelled; [apply final_risk_level_column | exact Hr | eassumption].
Qed.

Lemma update_where_level i w t t' :
  Forall level_declared t -> update_where i w t = Some t' -> Forall level_declared t'.
Proof.
  revert t'. induction t as [|r t IH]; simpl; intros t' Ht H.
  - injection H as <-. constructor.
  - inversion Ht as [|? ? Hr Ht']; subst.
    split_binds H. injection H as <-. constructor.
    + destruct (String.eqb (id r) i).
      * eapply update_row_level; eassumption.
      * congruence.
    + apply IH; [assumption | reflexivity].
Qed.

Lemma exec_level s t : Forall level_declared t -> Forall level_declared (exec s t).
Proof.
  intros Ht. destruct s as [i w | i w | i [|]]; simpl; [| | assumption |].
  - destruct (existsb _ t); [assumption |].
    destruct (insert_row i w) as [r|] eqn:E; [| assumption].
    apply Forall_app. split; [assumption |].
    constructor; [eapply insert_row_level; eassumption | constructor].
  - destruct (update_where i w t) as [t'|] eqn:E; simpl; [| assumption].
    eapply update_where_level; eassumption.
  - apply Forall_forall. intros r Hr.
    apply list_elem_of_In, filter_In in Hr as [Hr _].
    rewrite Forall_forall in Ht. apply Ht, list_elem_of_In, Hr.
Qed.

Lemma run_level ss t : Forall level_declared t -> Forall level_declared (run ss t).
Proof.
  unfold run. revert t. induction ss as [|s ss IH]; simpl; intros t Ht.
  - assumption.
  - apply IH, exec_level, Ht.
Qed.

(** C2: every persisted risk assessment, after any sequence of INSERT,
    UPDATE and DELETE statements from the empty table, holds one
    [final_risk_level], never NULL, and it is one of low, moderate, high,
    critical, whatever the other columns are (the model's columns may be
    NULL); and the final risk level of an assessment the client holds is
    one of the same four. *)
Theorem persisted_final_risk_level_declared (ss : list Stmt) :
  Forall (fun r => exists l, final_risk_level r = Some l
                   /\ l ∈ ["low"; "moderate"; "high"; "critical"])
         (run ss [])
  /\ (forall a : Types.RiskAssessmentResponse.t,
        Types.RiskLevel_text (Types.RiskAssessmentResponse.final_risk_level a)
        ∈ ["low"; "moderate"; "high"; "critical"]).
Proof.
  split.
  - apply (run_level ss []). constructor.
  - intros a. destruct (Types.RiskAssessmentResponse.final_risk_level a); simpl; set_solver.
Qed.

End FinalRiskLevel.

(** Three inserts: an assessment made without the model (its columns
    NULL) is kept; one that names no final risk level and one that names
    an unknown level are rejected. *)
Example assessment_without_model :
  let row final ml :=
    Schema.risk_assessments.mkWrite (Schema.Val "case-1") Schema.Omitted Schema.Null
      Schema.Null ml Schema.Omitted final (Schema.Val (15 # 100)) Schema.Omitted
      Schema.Omitted Schema.Omitted in
  map (fun r => (Schema.risk_assessments.ml_risk_level r,
                 Schema.risk_assessments.final_risk_level r))
    (Schema.risk_assessments.run
       [ Schema.risk_assessments.Insert "a-1" (row (Schema.Val "low") Schema.Null);
         Schema.risk_assessments.Insert "a-2" (row Schema.Omitted (Schema.Val "high"));
         Schema.risk_assessments.Insert "a-3" (row (Schema.Val "severe") (Schema.Val "high")) ]
       [])
  = [(None, Some "low")].
Proof. vm_compute. reflexivity. Qed.

(** ** Request validation and the analyzers *)

Section Validation.

Import Types Engine.

Lemma within_spec r q : within r q = true <-> (lo r <= q /\ q <= hi r)%Q.
Proof.
  unfold within. rewrite andb_true_iff, !Qle_bool_iff. reflexivity.
Qed.

Lemma flag_nil name ok : flag name ok = [] -> ok = true.
Proof. destruct ok; [reflexivity | discriminate]. Qed.

Lemma offending_vitals_nil v :
  offending_vitals v = [] ->
  required_ok systolic_bp_range (VitalsInput.systolic_bp v) = true
  /\ required_ok diastolic_bp_range (VitalsInput.diastolic_bp v) = true
  /\ required_ok heart_rate_range (VitalsInput.heart_rate v) = true
  /\ required_ok respiratory_rate_range (VitalsInput.respiratory_rate v) = true
  /\ required_ok spo2_range (VitalsInput.spo2 v) = true
  /\ required_ok temperature_range (VitalsInput.temperature v) = true
  /\ optional_ok blood_glucose_range (VitalsInput.blood_glucose_mgdl v) = true
  /\ optional_ok gcs_range (VitalsInput.gcs_score v) = true.
Proof.
  unfold offending_vitals. intros H.
  repeat (apply app_eq_nil in H as [?%flag_nil H]).
  apply flag_nil in H. repeat split; assumption.
Qed.

Lemma offending_nil p :
  offending p = [] -> offending_vitals (PatientIntakeRequest.vitals p) = [].
Proof.
  unfold offending. intros H.
  apply app_eq_nil in H as [_ H]. apply app_eq_nil in H as [_ H].
  apply app_eq_nil in H as [H _]. exact H.
Qed.

Lemma required_ok_spec r n :
  required_ok r n = true -> exists q, n = Fin q /\ within r q = true.
Proof. destruct n as [|q]; simpl; [discriminate | eauto]. Qed.

Lemma required_ok_value r n : required_ok r n = true -> within r (value n) = true.
Proof. intros (q & -> & H)%required_ok_spec. exact H. Qed.

Lemma optional_ok_finite r n :
  optional_ok r n = true -> from_option (within r) true (finite n) = true.
Proof. destruct n as [[|q]|]; simpl; auto. Qed.

(** A snapshot that passed validation lies within every declared range. *)
Lemma validated_in_range v : offending_vitals v = [] -> in_range (snapshot v) = true.
Proof.
  intros (H1 & H2 & H3 & H4 & H5 & H6 & H7 & H8)%offending_vitals_nil.
  unfold in_range, snapshot. simpl.
  rewrite !required_ok_value, !optional_ok_finite by assumption. reflexivity.
Qed.

(** A vital sign outside its range is an offending field. *)
Lemma out_of_range_offending v : out_of_range v -> offending_vitals v <> [].
Proof.
  intros (name & member & range & q & Hin & Hm & Hout) Hnil.
  apply offending_vitals_nil in Hnil as (H1 & H2 & H3 & H4 & H5 & H6 & H7 & H8).
  apply Hout, within_spec. unfold declared_vitals in Hin.
  repeat (apply elem_of_cons in Hin as [[= -> -> ->] | Hin];
          [simpl in Hm;
           first [ injection Hm as Hm; rewrite Hm in *; assumption
                 | rewrite Hm in *; assumption ] |]).
  inversion Hin.
Qed.

(** C3: a submission with a vital sign outside its declared range fails
    validation with a non-empty list of offending fields and no analyzer
    is called; and whatever the submission, every snapshot an analyzer is
    called on lies within all the declared ranges. *)
Theorem out_of_range_vitals_never_analyzed (an : Analyzers) (p : PatientIntakeRequest.t) :
  (out_of_range (PatientIntakeRequest.vitals p) ->
     exists fields, fields <> [] /\ analyze an p = (inl fields, []))
  /\ Forall (fun c => in_range (vitals (input c)) = true) (analyze an p).2.
Proof.
  unfold analyze, validate. split.
  - intros Hout. destruct (offending p) as [|f fs] eqn:E.
    + apply out_of_range_offending in Hout. apply offending_nil in E. contradiction.
    + exists (f :: fs). split; [discriminate | reflexivity].
  - destruct (offending p) as [|f fs] eqn:E; simpl; [| constructor].
    apply offending_nil, validated_in_range in E.
    repeat constructor; exact E.
Qed.

End Validation.

(** Scenario S1 with the systolic pressure mistyped as 400: validation
    names the field and no analyzer runs. *)
Lemma out_of_range_vitals_never_analyzed_witness :
  out_of_range (Types.PatientIntakeRequest.vitals mistyped_intake)
  /\ exists fields,
       fields <> [] /\ Engine.analyze quiet_analyzers mistyped_intake = (inl fields, []).
Proof.
  assert (H : out_of_range (Types.PatientIntakeRequest.vitals mistyped_intake)).
  { exists "systolic_bp", (fun v => Some (Types.VitalsInput.systolic_bp v)),
      (Engine.mkRange 40 350), 400%Q.
    split; [left |]. split; [reflexivity |].
    intros [_ Hhi]. apply Hhi. reflexivity. }
  split; [exact H |].
  exact (proj1 (out_of_range_vitals_never_analyzed quiet_analyzers mistyped_intake) H).
Defined.

(** ** Rule-critical overrides the model *)

Section Aggregation.

Import Types Engine.

(** The aggregator's first rule. *)
Lemma final_level_rule_critical rule ml ws :
  level rule = Some critical -> final_level rule ml ws = critical.
Proof. intros H. unfold final_level. rewrite H. reflexivity. Qed.

(** C1: for every analyze request that passes validation, if the rule
    guardrail returns level critical, then the assessment's final risk
    level is critical whatever the model (present with any level, or
    absent) and the medication engine return; the model's output is still
    recorded. *)
Theorem rule_critical_overrides_model (an : Analyzers) (p : PatientIntakeRequest.t)
    (i : Intake) :
  validate p = inr i ->
  level (rule_guardrail i) = Some critical ->
  exists a, (analyze an p).1 = inr a
            /\ final_risk_level a = critical
            /\ escalation_suggested a = true
            /\ ml_result a = risk_model an i.
Proof.
  intros Hv Hc. unfold analyze. rewrite Hv. simpl.
  eexists. split; [reflexivity |]. unfold aggregate. simpl.
  rewrite (final_level_rule_critical _ _ _ Hc). repeat split.
Qed.

End Aggregation.

(** Scenario S1 against a model that answers "low": the systolic
    pressure of 85 makes the guardrail critical, and so is the result. *)
Lemma rule_critical_overrides_model_witness :
  (Engine.validate S1 = inr S1_intake
   /\ Engine.level (Engine.rule_guardrail S1_intake) = Some Types.critical)
  /\ exists a, (Engine.analyze reassuring_model S1).1 = inr a
               /\ Engine.final_risk_level a = Types.critical
               /\ Engine.escalation_suggested a = true
               /\ Engine.ml_result a = Engine.risk_model reassuring_model S1_intake.
Proof.
  assert (Hv : Engine.validate S1 = inr S1_intake) by reflexivity.
  assert (Hc : Engine.level (Engine.rule_guardrail S1_intake) = Some Types.critical)
    by reflexivity.
  split; [split; assumption |].
  exact (rule_critical_overrides_model reassuring_model S1 S1_intake Hv Hc).
Defined.

(** ** What the client and the schema do about ranges *)

Section ClientRanges.

Import Types IntakePage.

(** The Continue button of the vitals step looks at whether the six
    required fields are filled in, not at their values: a form with all
    six non-empty may proceed, whatever [VitalInput] shows for them. *)
Theorem vitals_step_guard_ignores_ranges (f : FormState) (l : bool) (e : option string) :
  Forall (fun value => value <> "")
         [systolic_bp f; diastolic_bp f; heart_rate f; respiratory_rate f; spo2 f;
          temperature f] ->
  canProceed (mkState 1 f l e) = true.
Proof.
  intros H. unfold canProceed. simpl.
  repeat match goal with
         | H : Forall _ (_ :: _) |- _ =>
             apply Forall_cons in H as [?%truthy_nonempty H]
         end.
  repeat (apply andb_true_iff; split); assumption.
Qed.

End ClientRanges.

(** A form with the systolic pressure typed as 999: [VitalInput] flags
    it, the step guard lets it pass. *)
Lemma vitals_step_guard_ignores_ranges_witness :
  let f := IntakePage.mkForm "Sunita Devi" "45" (Some Types.female) "" ""
             false true false true false
             "999" "55" "118" "26" "91.5" "38.8" "" "" "" [] [] "" in
  IntakePage.inRange (fun _ => Fin 999) "999" IntakePage.systolic_bp_bounds = false
  /\ IntakePage.canProceed (IntakePage.mkState 1 f false None) = true.
Proof.
  intros f. split; [reflexivity |].
  apply (vitals_step_guard_ignores_ranges f false None).
  repeat constructor; discriminate.
Defined.

(** ** The [vitals] table *)

Section StoredVitals.

Import Schema Schema.vitals.

Lemma smallint_between_spec lo hi z :
  smallint_between lo hi z = true -> (lo <= z <= hi)%Z.
Proof.
  unfold smallint_between. rewrite !andb_true_iff, !Z.leb_le. tauto.
Qed.

Lemma between_spec lo hi q : between lo hi q = true -> (lo <= q /\ q <= hi)%Q.
Proof. unfold between. rewrite andb_true_iff, !Qle_bool_iff. tauto. Qed.

(** What a column's conversion and constraints leave of a value. *)
Lemma insert_as_spec {A} (cast : numeric -> option A) (c : Column A) (P : A -> Prop) g v :
  dflt c = None ->
  (forall x a, cast x = Some a -> valid c a = true -> P a) ->
  insert_as cast c g = Some v -> from_option P True v.
Proof.
  intros Hd HP. unfold insert_as, cast_given, inserted, accepts.
  destruct g as [| |x]; simpl; intros H.
  - rewrite Hd in H. destruct (negb (not_null c)); [| discriminate H].
    injection H as <-. exact I.
  - destruct (negb (not_null c)); [| discriminate H]. injection H as <-. exact I.
  - destruct (cast x) as [a|] eqn:Ex; simpl in H; [| discriminate H].
    destruct (valid c a) eqn:Ea; [| discriminate H]. injection H as <-.
    apply (HP x a Ex Ea).
Qed.

Lemma update_as_spec {A} (cast : numeric -> option A) (c : Column A) (P : A -> Prop)
    old g v :
  (forall x a, cast x = Some a -> valid c a = true -> P a) ->
  from_option P True old ->
  update_as cast c old g = Some v -> from_option P True v.
Proof.
  intros HP Hold. unfold update_as, cast_given, updated, accepts.
  destruct g as [| |x]; simpl; intros H.
  - injection H as <-. exact Hold.
  - destruct (negb (not_null c)); [| discriminate H]. injection H as <-. exact I.
  - destruct (cast x) as [a|] eqn:Ex; simpl in H; [| discriminate H].
    destruct (valid c a) eqn:Ea; [| discriminate H]. injection H as <-.
    apply (HP x a Ex Ea).
Qed.

Lemma smallint_checked lo hi x z :
  to_smallint x = Some z -> smallint_between lo hi z = true -> (lo <= z <= hi)%Z.
Proof. intros _. apply smallint_between_spec. Qed.

Lemma tenths_checked (lo hi : Z) x a :
  to_numeric_1 4 x = Some a ->
  numeric_between (inject_Z lo) (inject_Z hi) a = true ->
  exists n, a = Num (n # 10) /\ (lo * 10 <= n <= hi * 10)%Z.
Proof.
  unfold to_numeric_1.
  destruct x as [|neg|q]; [intros [= <-] H; discriminate H | intros H; discriminate H |].
  destruct (Z.abs _ <? _)%Z; [| discriminate]. intros [= <-]. simpl.
  intros [Hlo Hhi]%between_spec. exists (round (q * 10)). split; [reflexivity |].
  unfold Qle in Hlo, Hhi. simpl in Hlo, Hhi. lia.
Qed.

Lemma weight_checked x a :
  to_numeric_1 5 x = Some a -> valid c_weight_kg a = true ->
  a = NaN \/ exists n, a = Num (n # 10) /\ (Z.abs n < 100000)%Z.
Proof.
  unfold to_numeric_1. destruct x as [|neg|q]; intros H _.
  - injection H as <-. left. reflexivity.
  - discriminate H.
  - destruct (Z.abs _ <? _)%Z eqn:E; [| discriminate H]. injection H as <-.
    right. exists (round (q * 10)). split; [reflexivity |].
    apply Z.ltb_lt in E. exact E.
Qed.

Lemma not_null_inserted (c : Column string) g v :
  not_null c = true -> inserted c g = Some v -> is_Some v.
Proof.
  intros Hn. unfold inserted, accepts.
  destruct (match g with Omitted => dflt c | Null => None | Val a => Some a end) as [a|];
    [| rewrite Hn; discriminate].
  destruct (valid c a); [| discriminate]. intros [= <-]. eexists; reflexivity.
Qed.

Lemma not_null_updated (c : Column string) old g v :
  not_null c = true -> is_Some old -> updated c old g = Some v -> is_Some v.
Proof.
  intros Hn Hold. unfold updated, accepts. destruct g as [| |a]; intros H.
  - injection H as <-. exact Hold.
  - rewrite Hn in H. discriminate H.
  - destruct (valid c a); [| discriminate H]. injection H as <-. eexists; reflexivity.
Qed.

Lemma insert_row_checked i w r : insert_row i w = Some r -> vitals_checked r.
Proof.
  unfold insert_row. intros H. split_binds H. injection H as <-.
  unfold vitals_checked, within, tenths_within, tenths_or_NaN. simpl.
  repeat match goal with |- _ /\ _ => split end;
    first [ eapply not_null_inserted; [| eassumption]; reflexivity
          | eapply insert_as_spec; [| | eassumption];
            [ reflexivity
            | first [ apply smallint_checked
                    | apply (tenths_checked 50 100)
                    | apply (tenths_checked 30 45)
                    | apply weight_checked ] ] ].
Qed.

Lemma update_row_checked w r r' :
  vitals_checked r -> update_row w r = Some r' -> vitals_checked r'.
Proof.
  intros (H1 & H2 & H3 & H4 & H5 & H6 & H7 & H8 & H9 & H10 & H11).
  unfold update_row. intros H. split_binds H. injection H as <-.
  unfold vitals_checked, within, tenths_within, tenths_or_NaN in *. simpl.
  repeat match goal with |- _ /\ _ => split end;
    first [ eapply not_null_updated; [| | eassumption]; [reflexivity | assumption]
          | eapply update_as_spec; [| | eassumption];
            [ first [ apply smallint_checked
                    | apply (tenths_checked 50 100)
                    | apply (tenths_checked 30 45)
                    | apply weight_checked ]
            | assumption ] ].
Qed.

Lemma update_where_checked i w t t' :
  Forall vitals_checked t -> update_where i w t = Some t' -> Forall vitals_checked t'.
Proof.
  revert t'. induction t as [|r t IH]; simpl; intros t' Ht H.
  - injection H as <-. constructor.
  - inversion Ht as [|? ? Hr Ht']; subst. split_binds H. injection H as <-.
    constructor.
    + destruct (String.eqb (id r) i).
      * eapply update_row_checked; eassumption.
      * congruence.
    + apply IH; [assumption | reflexivity].
Qed.

Lemma exec_checked blocked s t :
  Forall vitals_checked t -> Forall vitals_checked (exec blocked s t).
Proof.
  intros Ht. unfold exec. destruct blocked; [assumption |].
  destruct s as [i w | i w | i].
  - destruct (existsb _ t); [assumption |].
    destruct (insert_row i w) as [r|] eqn:E; [| assumption].
    apply Forall_app. split; [assumption |].
    constructor; [eapply insert_row_checked; eassumption | constructor].
  - destruct (update_where i w t) as [t'|] eqn:E; simpl; [| assumption].
    eapply update_where_checked; eassumption.
  - apply Forall_forall. intros r Hr.
    apply list_elem_of_In, filter_In in Hr as [Hr _].
    rewrite Forall_forall in Ht. apply Ht, list_elem_of_In, Hr.
Qed.

(** Every row of the [vitals] table, after any sequence of INSERT,
    UPDATE and DELETE statements from the empty table, holds in each
    column with a CHECK either NULL or a value within the column's range
    (systolic_bp 40-350, diastolic_bp 20-250, heart_rate 20-350,
    respiratory_rate 4-80, spo2 50-100, temperature 30-45,
    blood_glucose_mgdl 20-1000, gcs_score 3-15); spo2, temperature and
    weight_kg hold one decimal, spo2 and temperature are never NaN, and
    the case and the recorder are never NULL. *)
Theorem stored_vitals_within_checks (ss : list (bool * Stmt)) :
  Forall vitals_checked (run ss []).
Proof.
  unfold run.
  assert (H : forall t, Forall vitals_checked t ->
                Forall vitals_checked (fold_left (fun t s => exec s.1 s.2 t) ss t)).
  { induction ss as [|s ss IH]; simpl; intros t Ht; [exact Ht |].
    apply IH, exec_checked, Ht. }
  apply H. constructor.
Qed.

End StoredVitals.

Section Rounding.

Import Schema Schema.vitals.

Lemma Qfloor_ge (n : Z) (x : Q) : (n <= Qfloor x)%Z <-> (inject_Z n <= x)%Q.
Proof.
  split.
  - intros H. apply Qle_trans with (inject_Z (Qfloor x)); [| apply Qfloor_le].
    rewrite <- Zle_Qle. exact H.
  - intros H. rewrite <- (Qfloor_Z n). apply Qfloor_resp_le, H.
Qed.

Lemma Qfloor_lt (n : Z) (x : Q) : (Qfloor x < n)%Z <-> (x < inject_Z n)%Q.
Proof.
  split.
  - intros H. apply Qlt_le_trans with (inject_Z (Qfloor x + 1)); [apply Qlt_floor |].
    rewrite <- Zle_Qle. lia.
  - intros H. destruct (Z.lt_ge_cases (Qfloor x) n) as [Hlt | Hge]; [exact Hlt |].
    apply Qfloor_ge in Hge. exfalso. apply (Qlt_irrefl x).
    apply Qlt_le_trans with (inject_Z n); assumption.
Qed.

(** [round] reaches [n] from half a unit below it. *)
Lemma round_ge (n : Z) (q : Q) :
  (0 < n)%Z -> ((n <= round q)%Z <-> (inject_Z n - (1 # 2) <= q)%Q).
Proof.
  intros Hn. unfold round.
  assert (H1 : (1 <= inject_Z n)%Q) by (change 1%Q with (inject_Z 1); rewrite <- Zle_Qle; lia).
  destruct (Qle_bool 0 q) eqn:E.
  - rewrite Qfloor_ge. split; intros H; lra.
  - assert (Hq : (q < 0)%Q).
    { apply Qnot_le_lt. intros Hle. apply Qle_bool_iff in Hle. congruence. }
    split; intros H.
    + assert (0 <= Qfloor (- q + (1 # 2)))%Z by (apply Qfloor_ge; unfold inject_Z; lra). lia.
    + lra.
Qed.

(** [round] stays at [n] up to half a unit above it. *)
Lemma round_le (n : Z) (q : Q) :
  (0 <= n)%Z -> ((round q <= n)%Z <-> (q < inject_Z n + (1 # 2))%Q).
Proof.
  intros Hn. unfold round.
  assert (H1 : (0 <= inject_Z n)%Q) by (change 0%Q with (inject_Z 0); rewrite <- Zle_Qle; lia).
  destruct (Qle_bool 0 q) eqn:E.
  - assert (Hiff : (Qfloor (q + (1 # 2)) <= n <-> Qfloor (q + (1 # 2)) < n + 1)%Z) by lia.
    rewrite Hiff, Qfloor_lt, inject_Z_plus. change (inject_Z 1) with 1%Q.
    split; intros H; lra.
  - assert (Hq : (q < 0)%Q).
    { apply Qnot_le_lt. intros Hle. apply Qle_bool_iff in Hle. congruence. }
    split; intros H.
    + lra.
    + assert (0 <= Qfloor (- q + (1 # 2)))%Z by (apply Qfloor_ge; unfold inject_Z; lra). lia.
Qed.

End Rounding.

Section Assignment.

Import Schema Schema.vitals.

Lemma spo2_assignment (q : Q) :
  insert_as (to_numeric_1 4) c_spo2 (Val (Num q))
  = if ((500 <=? round (q * 10)) && (round (q * 10) <=? 1000))%Z
    then Some (Some (Num (round (q * 10) # 10))) else None.
Proof.
  unfold insert_as, cast_given, to_numeric_1. set (n := round (q * 10)).
  destruct (Z.abs n <? 10 ^ 4)%Z eqn:E; simpl.
  - unfold inserted, accepts, c_spo2, valid, numeric_between, between, Qle_bool. simpl.
    rewrite ?Z.mul_1_r. change (50 * 10)%Z with 500%Z. change (100 * 10)%Z with 1000%Z.
    destruct ((500 <=? n)%Z && (n <=? 1000)%Z); reflexivity.
  - apply Z.ltb_ge in E.
    destruct ((500 <=? n)%Z && (n <=? 1000)%Z) eqn:E'; [| reflexivity].
    apply andb_true_iff in E' as [H1%Z.leb_le H2%Z.leb_le]. change (10 ^ 4)%Z with 10000%Z in E. lia.
Qed.

Lemma insert_only_spo2 i cid rb v :
  insert_row i (only_spo2 cid rb v)
  = (e ← insert_as (to_numeric_1 4) c_spo2 (Val v);
     Some (mkRow i (Some cid) (Some rb) None None None None e None None None None)).
Proof.
  unfold insert_row, only_spo2. simpl.
  destruct (insert_as (to_numeric_1 4) c_spo2 (Val v)); reflexivity.
Qed.

(** The range check on spo2 is made on the value as rounded to one
    decimal.  An INSERT under a new id that names the case, the recorder
    and an oxygen saturation [q], and that nothing outside the table
    blocks, adds a row holding [q] rounded to tenths when
    49.95 <= q < 100.05, and is rejected for any other [q] and for NaN. *)
Theorem spo2_checked_after_rounding (i cid rb : string) (q : Q) (t : list Row) :
  existsb (fun r => String.eqb (id r) i) t = false ->
  let stored := Num (round (q * 10) # 10) in
  let row := mkRow i (Some cid) (Some rb) None None None None (Some stored)
                   None None None None in
  ((4995 # 100 <= q)%Q -> (q < 10005 # 100)%Q ->
     exec false (Insert i (only_spo2 cid rb (Num q))) t = (t ++ [row])%list
     /\ (500 <= round (q * 10) <= 1000)%Z)
  /\ ((q < 4995 # 100)%Q \/ (10005 # 100 <= q)%Q ->
     exec false (Insert i (only_spo2 cid rb (Num q))) t = t)
  /\ exec false (Insert i (only_spo2 cid rb NaN)) t = t.
Proof.
  intros Hfresh stored row. unfold exec. rewrite Hfresh, !insert_only_spo2, spo2_assignment.
  pose proof (round_ge 500 (q * 10) ltac:(lia)) as Hge.
  pose proof (round_le 1000 (q * 10) ltac:(lia)) as Hle.
  unfold inject_Z in Hge, Hle.
  split; [| split].
  - intros Hlo Hhi.
    assert (H1 : (500 <= round (q * 10))%Z) by (apply Hge; lra).
    assert (H2 : (round (q * 10) <= 1000)%Z) by (apply Hle; lra).
    rewrite (proj2 (Z.leb_le _ _) H1), (proj2 (Z.leb_le _ _) H2). simpl.
    split; [reflexivity | lia].
  - intros Hout.
    destruct ((500 <=? round (q * 10)) && (round (q * 10) <=? 1000))%Z eqn:E; [| reflexivity].
    apply andb_true_iff in E as [H1%Z.leb_le H2%Z.leb_le].
    apply Hge in H1. apply Hle in H2. exfalso. destruct Hout; lra.
  - reflexivity.
Qed.

End Assignment.

(** The saturation 100.04 is taken and stored as 100.0. *)
Lemma spo2_checked_after_rounding_witness :
  let w := only_spo2 "case-1" "phw-001" (Schema.vitals.Num (10004 # 100)) in
  existsb (fun r => String.eqb (Schema.vitals.id r) "v-1") [] = false
  /\ Schema.vitals.spo2 <$> Schema.vitals.exec false (Schema.vitals.Insert "v-1" w) [] !! 0%nat
     = Some (Some (Schema.vitals.Num (1000 # 10))).
Proof.
  intros w. split; [reflexivity |].
  destruct (proj1 (spo2_checked_after_rounding "v-1" "case-1" "phw-001" (10004 # 100) []
                     eq_refl)) as [H _]; [discriminate | reflexivity |].
  subst w. rewrite H. reflexivity.
Defined.

(** A weight of 99999.9 needs six digits and is refused; 9999.94 is
    stored as 9999.9. *)
Lemma weight_overflow_refused :
  Schema.vitals.insert_as (Schema.vitals.to_numeric_1 5) Schema.vitals.c_weight_kg
    (Schema.Val (Schema.vitals.Num (999999 # 10))) = None
  /\ Schema.vitals.insert_as (Schema.vitals.to_numeric_1 5) Schema.vitals.c_weight_kg
       (Schema.Val (Schema.vitals.Num (999994 # 100)))
     = Some (Some (Schema.vitals.Num (99999 # 10))).
Proof. split; reflexivity. Qed.

(** * Further properties of the client *)

(** ** The token store over a session *)

Section Session.

Import Api.

Implicit Types (b : Browser).

Lemma getToken_window b : has_window (getToken b).2 = has_window b.
Proof.
  unfold getToken. destruct (truthy (_token b)); [reflexivity |].
  destruct (has_window b) eqn:Hw; simpl; [reflexivity | exact Hw].
Qed.

(** Reading the token is idempotent, and it never writes to local
    storage: a second [getToken] returns the same token and leaves the
    store as the first one left it. *)
Theorem getToken_idempotent b :
  getToken (getToken b).2 = getToken b
  /\ localStorage (getToken b).2 = localStorage b
  /\ has_window (getToken b).2 = has_window b.
Proof.
  unfold getToken.
  destruct (truthy (_token b)) eqn:Ht; simpl; [rewrite Ht; auto |].
  destruct (has_window b) eqn:Hw; simpl.
  - destruct (truthy (localStorage b !! "cdss_token")) eqn:Hs; simpl; auto.
  - rewrite Ht, Hw. auto.
Qed.

Lemma setToken_coherent (o : option string) b : has_window b = true -> coherent (setToken o b).
Proof.
  intros Hw. unfold coherent. rewrite setToken_variable. intros Ht.
  destruct o as [[|c t]|]; try discriminate Ht.
  apply setToken_stored; [discriminate | exact Hw].
Qed.

Lemma token_op_window op b : has_window (token_op op b) = has_window b.
Proof.
  destruct op; simpl.
  - apply setToken_window.
  - apply getToken_window.
  - apply setToken_window.
  - reflexivity.
Qed.

Lemma token_op_coherent op b :
  has_window b = true -> coherent b -> coherent (token_op op b).
Proof.
  intros Hw Hb. destruct op; simpl.
  - apply setToken_coherent, Hw.
  - unfold getToken. destruct (truthy (_token b)) eqn:Ht; [exact Hb |].
    rewrite Hw. unfold coherent. simpl. reflexivity.
  - apply setToken_coherent, Hw.
  - unfold coherent, reload. simpl. discriminate.
Qed.

Lemma token_ops_coherent ops b :
  has_window b = true -> coherent b ->
  has_window (token_ops ops b) = true /\ coherent (token_ops ops b).
Proof.
  unfold token_ops. revert b. induction ops as [|op ops IH]; simpl; intros b Hw Hb.
  - split; assumption.
  - apply IH.
    + rewrite token_op_window. exact Hw.
    + apply token_op_coherent; assumption.
Qed.

Lemma coherent_survives_reload b :
  has_window b = true -> coherent b -> (getToken (reload b)).1 = (getToken b).1.
Proof.
  intros Hw Hb. unfold getToken at 1. unfold reload. simpl. rewrite Hw. simpl.
  unfold getToken. destruct (truthy (_token b)) eqn:Ht; simpl.
  - apply Hb, Ht.
  - rewrite Hw. reflexivity.
Qed.

(** In a browser, at any point of a session (any sequence of [setToken],
    [getToken], [clearToken] and reloads after the page was loaded), a
    reload does not change what [getToken] returns. *)
Theorem session_survives_reload (ops : list TokenOp) b :
  has_window b = true ->
  (getToken (reload (token_ops ops (reload b)))).1 = (getToken (token_ops ops (reload b))).1.
Proof.
  intros Hw.
  destruct (token_ops_coherent ops (reload b)) as [Hw' Hc].
  - exact Hw.
  - unfold coherent, reload. simpl. discriminate.
  - apply coherent_survives_reload; assumption.
Qed.

End Session.

(** A session that logs in, reads the token, logs out and logs in again. *)
Lemma session_survives_reload_witness :
  let ops := [SetToken (Some "t-1"); GetToken; ClearToken; Reload; SetToken (Some "t-2")] in
  let b := Api.mkBrowser None true ∅ in
  (Api.getToken (Api.reload (token_ops ops (Api.reload b)))).1 = Some "t-2".
Proof.
  intros ops b.
  rewrite (session_survives_reload ops b eq_refl). reflexivity.
Defined.

(** ** [request]: outcomes and headers *)

Section RequestOutcome.

Import Types Api.

Variable env : Env.

(** [request] resolves only on a reply with [response.ok], and its result
    is [undefined] exactly when that reply's status is 204: a network
    failure, a reply that is not ok and an ok reply whose body is not
    JSON all reject. *)
Theorem request_resolves_only_on_ok {T} (fetch : Fetch T) path options auth b
    (v : option T) :
  (request env fetch path options auth b).1 = Resolved v ->
  exists status json,
    fetch (prepare env path options auth b).1 = Reply (Success status json)
    /\ (v = None <-> status = 204%nat).
Proof.
  unfold request. destruct (prepare env path options auth b) as [r b1]. simpl.
  destruct (fetch r) as [m | [status json | status json]]; simpl; try discriminate.
  intros H. exists status, json. split; [reflexivity |].
  destruct (Nat.eqb status 204) eqn:E.
  - apply Nat.eqb_eq in E. injection H as <-. tauto.
  - apply Nat.eqb_neq in E. destruct json as [x|]; [| discriminate].
    injection H as <-. split; [discriminate | contradiction].
Qed.

(** The message of a rejected request: the reply's [detail] when it has
    one, else its [error], else "HTTP <status>"; the latter also when the
    body is not JSON. *)
Lemma request_error_message {T} (fetch : Fetch T) path options auth b status json :
  fetch (prepare env path options auth b).1 = Reply (Failure status json) ->
  (request env fetch path options auth b).1
  = Rejected (match json with
              | Some (mkErrorJson (Some d) _) => d
              | Some (mkErrorJson None (Some e)) => e
              | _ => "HTTP " ++ pretty status
              end).
Proof.
  unfold request. destruct (prepare env path options auth b) as [r b1]. simpl.
  intros ->. simpl. destruct json as [[[d|] [e|]]|]; reflexivity.
Qed.

(** With [auth] set and a token in the store, the [Authorization] header
    is the bearer token whatever [options.headers] holds; a
    [Content-Type] in [options.headers] replaces the default; and without
    [auth] the caller's [Authorization] header, if any, goes out
    untouched. *)
Theorem request_header_precedence path m bd (h : gmap string string) b :
  (forall t, (getToken b).1 = Some t -> t <> "" ->
     req_headers (prepare env path (mkInit m bd (Some h)) true b).1 !! "Authorization"
     = Some ("Bearer " ++ t))
  /\ (forall auth ct, h !! "Content-Type" = Some ct ->
     req_headers (prepare env path (mkInit m bd (Some h)) auth b).1 !! "Content-Type"
     = Some ct)
  /\ req_headers (prepare env path (mkInit m bd (Some h)) false b).1 !! "Authorization"
     = h !! "Authorization".
Proof.
  unfold prepare. simpl. split; [| split].
  - intros t Ht Hne. destruct (getToken b) as [token b1]. simpl in *. subst token.
    rewrite (truthy_nonempty t Hne). simpl. apply lookup_insert_eq.
  - intros auth ct Hct. destruct auth.
    + destruct (getToken b) as [token b1]. destruct (truthy token); simpl.
      * rewrite lookup_insert_ne by discriminate.
        apply lookup_union_Some_l, Hct.
      * apply lookup_union_Some_l, Hct.
    + simpl. apply lookup_union_Some_l, Hct.
  - simpl. rewrite lookup_union_l; [reflexivity |].
    apply lookup_singleton_ne. discriminate.
Qed.

End RequestOutcome.

(** A reply of 204 to [getCases]. *)
Lemma request_resolves_only_on_ok_witness :
  let env := Api.mkEnv None None in
  let b := Api.mkBrowser None true ∅ in
  let fetch : Api.Fetch (list Types.Case.t) := fun _ => Api.Reply (Api.Success 204 None) in
  (Api.request env fetch "/cases" (Api.mkInit (Some "GET") None None) true b).1 = Resolved None
  /\ exists status json,
       fetch (Api.prepare env "/cases" (Api.mkInit (Some "GET") None None) true b).1
       = Api.Reply (Api.Success status json)
       /\ (@None (list Types.Case.t) = None <-> status = 204%nat).
Proof.
  intros env b fetch. split; [reflexivity |].
  apply (request_resolves_only_on_ok env fetch "/cases"
           (Api.mkInit (Some "GET") None None) true b None). reflexivity.
Defined.

(** A caller that passes its own headers, with a token in the store. *)
Lemma request_header_precedence_witness :
  let env := Api.mkEnv None None in
  let b := Api.mkBrowser (Some "t-1") true ∅ in
  let h : gmap string string :=
    {["Authorization" := "Basic abc"; "Content-Type" := "text/plain"]} in
  (Api.getToken b).1 = Some "t-1"
  /\ Api.req_headers (Api.prepare env "/cases" (Api.mkInit None None (Some h)) true b).1
       !! "Authorization" = Some "Bearer t-1".
Proof.
  intros env b h. split; [reflexivity |].
  apply (proj1 (request_header_precedence env "/cases" None None h b) "t-1");
    [reflexivity | discriminate].
Defined.

(** ** Login, and what follows from it *)

Section AfterLogin.

Import Types Api LoginPage.

Variable env : Env.
Variable now : Z.

Lemma append_empty (s : string) : s ++ "" = s.
Proof.
  induction s as [|c s IH]; [reflexivity |].
  change (String c (s ++ "") = String c s). f_equal. exact IH.
Qed.

Lemma login_resolved_stores fetch creds b data :
  (login env fetch creds b).1 = Resolved data ->
  (login env fetch creds b).2 = setToken (Some (TokenResponse.access_token data)) b.
Proof.
  unfold login.
  destruct (fetch _) as [m | [status json | status [d|]]]; simpl; try discriminate.
  intros [= ->]. reflexivity.
Qed.

Lemma bearer_after_setToken t b : t <> "" -> bearer (setToken (Some t) b) = Some ("Bearer " ++ t).
Proof.
  intros Ht. unfold bearer.
  rewrite (getToken_cached t (setToken (Some t) b) Ht (setToken_variable _ _)).
  rewrite (truthy_nonempty t Ht). reflexivity.
Qed.

(** After a login that resolved with a non-empty access token, every
    authenticated request carries [Bearer <access token>], and the
    per-case socket is opened with the token in its query string; after
    [logout] neither carries a token. *)
Theorem login_authenticates_later_requests fetch creds b data :
  (login env fetch creds b).1 = Resolved data ->
  TokenResponse.access_token data <> "" ->
  let token := TokenResponse.access_token data in
  let b' := (login env fetch creds b).2 in
  (forall fetch', exists r,
      getCases env fetch' b' = (settle (fetch' r), (getToken b').2)
      /\ req_headers r !! "Authorization" = Some ("Bearer " ++ token))
  /\ (forall Json parse Sub (cb : Json -> Sub -> Completion unit * Sub) caseId,
      (createCaseWebSocket env Json parse Sub caseId cb b').1.1
      = nullish (NEXT_PUBLIC_WS_URL env) "ws://localhost:8000"
        ++ "/ws/case/" ++ caseId ++ "?token=" ++ token)
  /\ (forall fetch', exists r,
      getCases env fetch' (logout b') = (settle (fetch' r), (getToken (logout b')).2)
      /\ req_headers r !! "Authorization" = None)
  /\ (forall Json parse Sub (cb : Json -> Sub -> Completion unit * Sub) caseId,
      (createCaseWebSocket env Json parse Sub caseId cb (logout b')).1.1
      = nullish (NEXT_PUBLIC_WS_URL env) "ws://localhost:8000" ++ "/ws/case/" ++ caseId).
Proof.
  intros Hres Hne token b'. subst b'.
  rewrite (login_resolved_stores fetch creds b data Hres). fold token.
  assert (Hin : (getToken (setToken (Some token) b)).1 = Some token)
    by (apply getToken_cached; [exact Hne | apply setToken_variable]).
  assert (Hout : (getToken (logout (setToken (Some token) b))).1 = None).
  { unfold logout, clearToken. rewrite getToken_cleared by reflexivity.
    destruct (has_window _); reflexivity. }
  split; [| split; [| split]].
  - intros fetch'.
    destruct (request_authenticated env fetch' "/cases" (Some "GET") None
                (setToken (Some token) b)) as (r & Hr & _ & _ & Ha).
    exists r. split; [exact Hr |]. rewrite Ha. apply bearer_after_setToken, Hne.
  - intros. unfold createCaseWebSocket.
    destruct (getToken (setToken (Some token) b)) as [o b1]. simpl in *. subst o.
    rewrite (truthy_nonempty token Hne). reflexivity.
  - intros fetch'.
    destruct (request_authenticated env fetch' "/cases" (Some "GET") None
                (logout (setToken (Some token) b))) as (r & Hr & _ & _ & Ha).
    exists r. split; [exact Hr |]. rewrite Ha. unfold bearer. rewrite Hout. reflexivity.
  - intros. unfold createCaseWebSocket.
    destruct (getToken (logout (setToken (Some token) b))) as [o b1]. simpl in *. subst o.
    simpl. rewrite append_empty. reflexivity.
Qed.

(** Submitting the form after [fillDemo] always logs in, whatever the
    service answers.  When the login resolves, [onSuccess] gets the user
    made from the service's answer and the service's token is stored;
    when it is rejected, [onSuccess] gets the demo account's own user and
    the token "demo-token-<role>" is stored.  No error is shown. *)
Theorem demo_login_always_succeeds acc fetch st b :
  In acc DEMO_ACCOUNTS ->
  let run := handleSubmit env now fetch (fillDemo acc st) b in
  let attempt := login env fetch (LoginRequest.mk (email acc) (password acc)) b in
  onSuccess run
  = Some (match attempt.1 with
          | Resolved data =>
              User.mk ("user-" ++ pretty now) (email acc)
                      (TokenResponse.full_name data) (TokenResponse.role data) None
          | Rejected _ =>
              User.mk (id acc) (email acc) (name acc)
                      (if String.eqb (role acc) "PHW" then phw else specialist) None
          end)
  /\ browser run
     = match attempt.1 with
       | Resolved data => setToken (Some (TokenResponse.access_token data)) b
       | Rejected _ => setToken (Some ("demo-token-" ++ role acc)) b
       end
  /\ error (state run) = None
  /\ alert (state run) = None
  /\ loading (state run) = false.
Proof.
  intros Hacc run attempt. subst run attempt. unfold handleSubmit.
  change (st_email (fillDemo acc st)) with (email acc).
  change (st_password (fillDemo acc st)) with (password acc).
  destruct (login env fetch _ b) as [[data | m] b1] eqn:E.
  - pose proof (login_resolved_stores fetch _ b data (f_equal fst E)) as Hb.
    rewrite E in Hb. simpl in Hb. subst b1. repeat split.
  - pose proof (login_rejected_keeps_store env fetch _ b m (f_equal fst E)) as Hb.
    rewrite E in Hb. simpl in Hb. subst b1.
    rewrite (demo_account_found acc (fillDemo acc st) Hacc eq_refl eq_refl).
    repeat split.
Qed.

End AfterLogin.

(** A login the service accepts. *)
Lemma login_authenticates_later_requests_witness :
  let env := Api.mkEnv None None in
  let b := Api.mkBrowser None true ∅ in
  let data := Types.TokenResponse.mk "eyJ0" "bearer" Types.phw "Priya Sharma" in
  let fetch : Api.Fetch Types.TokenResponse.t :=
    fun _ => Api.Reply (Api.Success 200 (Some data)) in
  let creds := Types.LoginRequest.mk "phw@phc.in" "pw" in
  (Api.login env fetch creds b).1 = Resolved data
  /\ (Api.createCaseWebSocket env unit null_only nat "case-1" counting_subscriber
        (Api.login env fetch creds b).2).1.1
     = "ws://localhost:8000/ws/case/case-1?token=eyJ0".
Proof.
  intros env b data fetch creds. split; [reflexivity |].
  destruct (login_authenticates_later_requests env fetch creds b data eq_refl)
    as (_ & Hws & _); [discriminate |].
  apply (Hws unit null_only nat counting_subscriber "case-1").
Defined.

(** The second demo account against a service that is down. *)
Lemma demo_login_always_succeeds_witness :
  let env := Api.mkEnv None None in
  let b := Api.mkBrowser None true ∅ in
  let acc := LoginPage.mkDemo "doctor@hospital.in" "demo123" "Specialist"
               "Dr. Arjun Mehta" "spec-001" in
  let st := LoginPage.mkState "nurse@phc.in" "pw" false (Some "Login failed") false in
  let down : Api.Fetch Types.TokenResponse.t := fun _ => Api.NetworkError "Failed to fetch" in
  In acc LoginPage.DEMO_ACCOUNTS
  /\ LoginPage.onSuccess (LoginPage.handleSubmit env 0 down (LoginPage.fillDemo acc st) b)
     = Some (Types.User.mk "spec-001" "doctor@hospital.in" "Dr. Arjun Mehta"
               Types.specialist None).
Proof.
  intros env b acc st down.
  assert (H : In acc LoginPage.DEMO_ACCOUNTS) by (right; left; reflexivity).
  split; [exact H |].
  apply (demo_login_always_succeeds env 0 acc down st b H).
Defined.

(** ** The specialist's selections and the live banner *)

Section Selections.

Import SpecialistPortalPage.

Lemma includes_spec (m : string) (l : list string) : existsb (String.eqb m) l = true <-> m ∈ l.
Proof.
  rewrite existsb_exists. split.
  - intros (x & Hx & ->%String.eqb_eq). apply list_elem_of_In, Hx.
  - intros H. exists m. split; [apply list_elem_of_In, H | apply String.eqb_refl].
Qed.

Lemma without_spec (m x : string) (l : list string) :
  x ∈ List.filter (fun y => negb (String.eqb y m)) l <-> x ∈ l /\ x <> m.
Proof.
  rewrite !list_elem_of_In, filter_In, negb_true_iff, String.eqb_neq. reflexivity.
Qed.

(** A toggle flips whether [m] is selected, leaves every other selection
    as it was, and keeps the list free of duplicates. *)
Theorem toggle_flips_membership (m : string) (l : list string) :
  (m ∈ toggle m l <-> m ∉ l)
  /\ (forall x, x <> m -> (x ∈ toggle m l <-> x ∈ l))
  /\ (NoDup l -> NoDup (toggle m l)).
Proof.
  unfold toggle. destruct (existsb (String.eqb m) l) eqn:E.
  - apply includes_spec in E. split; [| split].
    + rewrite without_spec. tauto.
    + intros x Hx. rewrite without_spec. tauto.
    + intros Hl. apply NoDup_ListNoDup, List.NoDup_filter, NoDup_ListNoDup, Hl.
  - assert (Hm : m ∉ l) by (rewrite <- includes_spec, E; discriminate).
    split; [| split].
    + rewrite elem_of_app, list_elem_of_singleton. tauto.
    + intros x Hx. rewrite elem_of_app, list_elem_of_singleton. tauto.
    + intros Hl. apply NoDup_app. split; [exact Hl |]. split.
      * intros x Hx ->%list_elem_of_singleton. contradiction.
      * apply NoDup_singleton.
Qed.

(** The portal's live banner after the messages [msgs] have arrived, in
    this order, holds the last five of them, newest first. *)
Theorem live_banner_keeps_last_five {Msg : Type} (msgs : list Msg) :
  fold_left (fun prev msg => onLiveMessage msg prev) msgs [] = take 5 (rev msgs).
Proof.
  assert (H : forall prev : list Msg,
             fold_left (fun prev msg => onLiveMessage msg prev) msgs (take 5 prev)
             = take 5 (rev msgs ++ prev)).
  { induction msgs as [|msg msgs IH]; intros prev; simpl; [reflexivity |].
    unfold onLiveMessage at 2.
    replace (take 5 (msg :: take 5 prev)) with (take 5 (msg :: prev)).
    - rewrite IH, <- app_assoc. reflexivity.
    - simpl. rewrite take_take. reflexivity. }
  specialize (H []). simpl in H. rewrite app_nil_r in H. exact H.
Qed.

(** The results page keeps the last ten. *)
Theorem results_banner_keeps_last_ten {Msg : Type} (msgs : list Msg) :
  fold_left (fun prev msg => ResultsPage.onLiveMessage msg prev) msgs []
  = take 10 (rev msgs).
Proof.
  assert (H : forall prev : list Msg,
             fold_left (fun prev msg => ResultsPage.onLiveMessage msg prev) msgs
                       (take 10 prev)
             = take 10 (rev msgs ++ prev)).
  { induction msgs as [|msg msgs IH]; intros prev; simpl; [reflexivity |].
    unfold ResultsPage.onLiveMessage at 2.
    replace (take 10 (msg :: take 10 prev)) with (take 10 (msg :: prev)).
    - rewrite IH, <- app_assoc. reflexivity.
    - simpl. rewrite take_take. reflexivity. }
  specialize (H []). simpl in H. rewrite app_nil_r in H. exact H.
Qed.

End Selections.

(** ** The intake form's rows and its submission *)

Section IntakeRows.

Import Types Api IntakePage.

Lemma without_index_above {A : Type} (i k n : nat) (l : list A) :
  (i < k)%nat ->
  map snd (List.filter (fun p => negb (Nat.eqb (fst p) i)) (combine (seq k n) l)) = take n l.
Proof.
  revert k l. induction n as [|n IH]; intros k l Hik; simpl.
  - destruct l; reflexivity.
  - destruct l as [|a l]; simpl; [reflexivity |].
    destruct (Nat.eqb_spec k i) as [-> | _]; [lia |]. simpl.
    rewrite IH by lia. reflexivity.
Qed.

Lemma without_index_from {A : Type} (i k : nat) (l : list A) :
  map snd (List.filter (fun p => negb (Nat.eqb (fst p) (k + i)))
                       (combine (seq k (length l)) l))
  = delete i l.
Proof.
  revert i k. induction l as [|a l IH]; intros i k; simpl.
  - destruct i; reflexivity.
  - destruct i as [|i].
    + rewrite Nat.add_0_r, Nat.eqb_refl. simpl.
      rewrite without_index_above by lia. apply firstn_all.
    + destruct (Nat.eqb_spec k (k + S i)) as [E | _]; [lia |]. simpl.
      replace (k + S i)%nat with (S k + i)%nat by lia.
      rewrite IH. reflexivity.
Qed.

Lemma without_index_delete {A : Type} (i : nat) (l : list A) : without_index i l = delete i l.
Proof. apply (without_index_from i 0 l). Qed.

Lemma delete_beyond {A : Type} (i : nat) (l : list A) : (length l <= i)%nat -> delete i l = l.
Proof.
  revert i. induction l as [|a l IH]; intros i Hi; [destruct i; reflexivity |].
  destruct i as [|i]; simpl in *; [lia |]. f_equal. apply IH. lia.
Qed.

Lemma delete_last {A : Type} (l : list A) (x : A) : delete (length l) (l ++ [x])%list = l.
Proof. induction l as [|a l IH]; simpl; [reflexivity | f_equal; exact IH]. Qed.

(** Removing row [i] takes out exactly the medication (or symptom) at
    position [i] and keeps the others in order; an index past the end
    changes nothing. *)
Theorem remove_row_deletes_at_index (i : nat) (f : FormState) :
  medications (removeMed i f) = delete i (medications f)
  /\ symptoms (removeMed i f) = symptoms f
  /\ symptoms (removeSym i f) = delete i (symptoms f)
  /\ medications (removeSym i f) = medications f
  /\ ((length (medications f) <= i)%nat -> removeMed i f = f)
  /\ ((length (symptoms f) <= i)%nat -> removeSym i f = f).
Proof.
  unfold removeMed, removeSym. rewrite !without_index_delete.
  destruct f; simpl. repeat split; intros H; rewrite delete_beyond by exact H; reflexivity.
Qed.

Variable trim : string -> string.
Variable parseInt : string -> num.

(** [addMed] with a blank name changes nothing; otherwise it appends one
    medication with that name, clears the two inputs, and removing the
    last row afterwards gives back the form as it was. *)
Theorem addMed_appends_one_row (name : option string) (f : FormState) (c : Inputs) :
  let drugName := nullish name (trim (newMed c)) in
  (drugName = "" -> addMed trim name f c = (f, c))
  /\ (drugName <> "" ->
      medications (addMed trim name f c).1
      = (medications f
         ++ [MedicationInput.mk None drugName (or_undefined (medDose c)) None None])%list
      /\ newMed (addMed trim name f c).2 = ""
      /\ medDose (addMed trim name f c).2 = ""
      /\ removeMed (length (medications f)) (addMed trim name f c).1 = f).
Proof.
  intros drugName. unfold addMed. fold drugName. split.
  - intros ->. reflexivity.
  - intros Hne. rewrite (truthy_nonempty drugName Hne). simpl.
    destruct f; simpl. repeat split.
    unfold removeMed. simpl. rewrite without_index_delete, delete_last. reflexivity.
Qed.

(** [addSym] with a blank name changes nothing; otherwise the symptom
    added carries the severity and the red-flag mark chosen, and the
    controls go back to "mild" and unmarked, so that the mark does not
    carry over to the next symptom. *)
Theorem addSym_resets_controls (name : option string) (f : FormState) (c : Inputs) :
  let symName := nullish name (trim (newSym c)) in
  (symName = "" -> addSym trim parseInt name f c = (f, c))
  /\ (symName <> "" ->
      exists row,
        symptoms (addSym trim parseInt name f c).1 = (symptoms f ++ [row])%list
        /\ SymptomInput.symptom_name row = symName
        /\ SymptomInput.is_red_flag row = symRedFlag c
        /\ SymptomInput.severity row = Some (symSeverity c)
        /\ symRedFlag (addSym trim parseInt name f c).2 = false
        /\ symSeverity (addSym trim parseInt name f c).2 = mild
        /\ newSym (addSym trim parseInt name f c).2 = ""
        /\ symDuration (addSym trim parseInt name f c).2 = "").
Proof.
  intros symName. unfold addSym. fold symName. split.
  - intros ->. reflexivity.
  - intros Hne. rewrite (truthy_nonempty symName Hne). simpl.
    eexists. destruct f; simpl. repeat split.
Qed.

Variable env : Env.
Variable parseFloat : string -> num.

(** A submission ends with the spinner off and the form untouched.  When
    the request resolves, [onComplete] is called with the result and no
    error is shown; when it is rejected, [onComplete] is not called and a
    non-empty error message is shown, also when the rejection carries an
    empty message. *)
Theorem intake_submission_outcome (fetch : Fetch RiskAssessmentResponse.t)
    (st : State) (b : Browser) :
  let '(st', completed, _) := handleSubmit env parseInt parseFloat fetch st b in
  loading st' = false /\ form st' = form st /\ step st' = step st
  /\ match (analyzeRisk env fetch (payload_of parseInt parseFloat (form st)) b).1 with
     | Resolved result => completed = Some result /\ error st' = None
     | Rejected _ => completed = None /\ exists message, error st' = Some message /\ message <> ""
     end.
Proof.
  unfold handleSubmit.
  destruct (analyzeRisk env fetch _ b) as [[result | message] b1]; simpl.
  - repeat split.
  - repeat split. destruct message as [|c message]; simpl.
    + eexists. split; [reflexivity | discriminate].
    + eexists. split; [reflexivity | discriminate].
Qed.

End IntakeRows.

(** A quick-add of "Warfarin" on an empty form. *)
Lemma addMed_appends_one_row_witness :
  let c := IntakePage.mkInputs "ignored" "5mg" "" Types.mild false "" in
  nullish (Some "Warfarin") (id (IntakePage.newMed c)) <> ""
  /\ IntakePage.medications
       (IntakePage.addMed id (Some "Warfarin") IntakePage.INITIAL c).1
     = [Types.MedicationInput.mk None "Warfarin" (Some "5mg") None None]
  /\ IntakePage.removeMed 0
       (IntakePage.addMed id (Some "Warfarin") IntakePage.INITIAL c).1
     = IntakePage.INITIAL.
Proof.
  intros c.
  assert (H : nullish (Some "Warfarin") (id (IntakePage.newMed c)) <> "") by discriminate.
  split; [exact H |].
  destruct (proj2 (addMed_appends_one_row id (Some "Warfarin") IntakePage.INITIAL c) H)
    as (Hm & _ & _ & Hr).
  split; [exact Hm | exact Hr].
Defined.

(** A red-flagged severe symptom typed in by hand. *)
Lemma addSym_resets_controls_witness :
  let c := IntakePage.mkInputs "" "" "Chest pain" Types.severe true "2" in
  nullish None (id (IntakePage.newSym c)) <> ""
  /\ IntakePage.symRedFlag
       (IntakePage.addSym id (fun _ => Fin 2) None IntakePage.INITIAL c).2 = false.
Proof.
  intros c.
  assert (H : nullish None (id (IntakePage.newSym c)) <> "") by discriminate.
  split; [exact H |].
  destruct (proj2 (addSym_resets_controls id (fun _ => Fin 2) None IntakePage.INITIAL c) H)
    as (row & _ & _ & _ & _ & Hf & _).
  exact Hf.
Defined.

(** ** The dashboard's relative times *)

Section RelativeTime.

Import DashboardPage.

Variable now : Z.
Variable getTime : string -> option Z.

(** For a case created [d] milliseconds ago, [timeAgo] shows the whole
    minutes elapsed while [d] is under an hour (also for a time in the
    future, where the count is negative), the whole hours while it is
    under a day, and the whole days from then on. *)
Theorem timeAgo_units (iso : string) (t : Z) :
  getTime iso = Some t ->
  let d := (now - t)%Z in
  ((d < 3600000)%Z -> timeAgo now getTime iso = pretty (d / 60000)%Z ++ "m ago")
  /\ ((3600000 <= d < 86400000)%Z ->
      timeAgo now getTime iso = pretty (d / 3600000)%Z ++ "h ago")
  /\ ((86400000 <= d)%Z -> timeAgo now getTime iso = pretty (d / 86400000)%Z ++ "d ago").
Proof.
  intros Ht d. unfold timeAgo. rewrite Ht. fold d.
  assert (Hh : (d / 60000 / 60 = d / 3600000)%Z)
    by (rewrite Z.div_div by lia; reflexivity).
  assert (Hd : (d / 60000 / 60 / 24 = d / 86400000)%Z)
    by (rewrite !Z.div_div by lia; reflexivity).
  split; [| split]; intros Hr.
  - destruct (Z.ltb_spec (d / 60000) 60) as [_ | H]; [reflexivity |].
    exfalso. assert (d / 60000 < 60)%Z by (apply Z.div_lt_upper_bound; lia). lia.
  - destruct (Z.ltb_spec (d / 60000) 60) as [H | _].
    + exfalso. assert (60 <= d / 60000)%Z by (apply Z.div_le_lower_bound; lia). lia.
    + rewrite Hh. destruct (Z.ltb_spec (d / 3600000) 24) as [_ | H]; [reflexivity |].
      exfalso. assert (d / 3600000 < 24)%Z by (apply Z.div_lt_upper_bound; lia). lia.
  - destruct (Z.ltb_spec (d / 60000) 60) as [H | _].
    + exfalso. assert (60 <= d / 60000)%Z by (apply Z.div_le_lower_bound; lia). lia.
    + rewrite Hh. destruct (Z.ltb_spec (d / 3600000) 24) as [H | _].
      * exfalso. assert (24 <= d / 3600000)%Z by (apply Z.div_le_lower_bound; lia). lia.
      * rewrite <- Hh, Hd. reflexivity.
Qed.

End RelativeTime.

(** A case created 45 minutes ago, one created just under two hours ago,
    and one dated five seconds ahead of the clock. *)
Lemma timeAgo_units_witness :
  let getTime (iso : string) :=
    if String.eqb iso "a" then Some 9997300000%Z
    else if String.eqb iso "b" then Some 9992801000%Z
    else Some 10000005000%Z in
  getTime "a" = Some 9997300000%Z
  /\ DashboardPage.timeAgo 10000000000 getTime "a" = "45m ago"
  /\ DashboardPage.timeAgo 10000000000 getTime "b" = "1h ago"
  /\ DashboardPage.timeAgo 10000000000 getTime "c" = "-1m ago".
Proof.
  intros getTime. split; [reflexivity |].
  split; [| split; reflexivity].
  apply (timeAgo_units 10000000000 getTime "a" 9997300000 eq_refl). reflexivity.
Defined.

(** ** The application shell: sessions *)

Section Sessions.

Import Types Home.

Variable JSON_stringify : User.t -> string.
Variable JSON_parse : string -> Parsed.

(** After a login, a reload of the page brings the user back to the
    dashboard: with a token in local storage, the user that
    [handleLoginSuccess] saved is restored by the mount effect, provided
    [JSON.parse] reads back what [JSON.stringify] wrote. *)
Theorem session_restored_after_reload (u : User.t) (st : State) (b : Api.Browser) :
  Api.has_window b = true ->
  truthy (Api.localStorage b !! "cdss_token") = true ->
  JSON_stringify u <> "" ->
  JSON_parse (JSON_stringify u) = Value (Some u) ->
  let b1 := (handleLoginSuccess JSON_stringify u st b).2 in
  let restored := (mount None JSON_parse initial (Api.reload b1)).1 in
  restored = mkState dashboard (Some u) None None None
  /\ render restored = DashboardPage u.
Proof.
  intros Hw Htok Hne Hparse b1 restored. subst restored b1.
  unfold mount, handleLoginSuccess, Api.reload, Api.getToken. simpl. rewrite Hw. simpl.
  rewrite lookup_insert_ne by discriminate. rewrite Htok.
  rewrite !lookup_insert_eq. rewrite (truthy_nonempty _ Hne).
  change (default "" (Some (JSON_stringify u))) with (JSON_stringify u).
  rewrite Hparse. split; reflexivity.
Qed.

(** Signing out shows the login page and forgets the saved user, so that
    a reload stays on the login page; it leaves the access token where it
    is: [getToken] returns it as before and requests made afterwards
    still carry it. *)
Theorem sign_out_keeps_token (st : State) (b : Api.Browser) :
  let '(st1, b1) := handleLogout st b in
  render st1 = LoginPage
  /\ (Api.getToken b1).1 = (Api.getToken b).1
  /\ bearer b1 = bearer b
  /\ (mount None JSON_parse initial (Api.reload b1)).1 = initial.
Proof.
  unfold handleLogout. simpl.
  assert (Hg : (Api.getToken (Api.mkBrowser (Api._token b) (Api.has_window b)
                                (delete "cdss_user" (Api.localStorage b)))).1
               = (Api.getToken b).1).
  { unfold Api.getToken. simpl. destruct (truthy (Api._token b)); [reflexivity |].
    destruct (Api.has_window b); simpl; [| reflexivity].
    apply lookup_delete_ne. discriminate. }
  split; [reflexivity |]. split; [exact Hg |]. split.
  - unfold bearer. rewrite Hg. reflexivity.
  - unfold mount, Api.reload, Api.getToken. simpl.
    destruct (Api.has_window b); simpl; [| reflexivity].
    rewrite lookup_delete_eq. simpl. rewrite andb_false_r. reflexivity.
Qed.

(** A link with a token opens the specialist portal for that token,
    whatever session is stored and whoever was logged in, and touches
    neither the token store nor the saved user. *)
Theorem token_link_opens_portal (token : string) (st : State) (b : Api.Browser) :
  Api.has_window b = true ->
  token <> "" ->
  let '(st1, b1) := mount (Some token) JSON_parse st b in
  render st1 = SpecialistPortalPage token /\ b1 = b /\ user st1 = user st.
Proof.
  intros Hw Hne. unfold mount. rewrite Hw, (truthy_nonempty token Hne). simpl.
  repeat split.
Qed.

End Sessions.

(** A user record for the examples, and JSON functions that know it. *)
Lemma session_restored_after_reload_witness :
  let u := Types.User.mk "phw-001" "phw@phc.in" "Priya Sharma" Types.phw None in
  let stringify (_ : Types.User.t) := "{phw-001}" in
  let parse (s : string) :=
    if String.eqb s "{phw-001}" then Home.Value (Some u) else Home.Throws in
  let b := Api.mkBrowser (Some "t-1") true {["cdss_token" := "t-1"]} in
  (truthy (Api.localStorage b !! "cdss_token") = true /\ parse (stringify u) = Home.Value (Some u))
  /\ Home.render
       (Home.mount None parse Home.initial
          (Api.reload (Home.handleLoginSuccess stringify u Home.initial b).2)).1
     = Home.DashboardPage u.
Proof.
  intros u stringify parse b. split; [split; reflexivity |].
  apply (session_restored_after_reload stringify parse u Home.initial b);
    [reflexivity | reflexivity | discriminate | reflexivity].
Defined.

(** The portal link opened in a browser that holds a session. *)
Lemma token_link_opens_portal_witness :
  let b := Api.mkBrowser (Some "t-1") true {["cdss_token" := "t-1"]} in
  Api.has_window b = true
  /\ Home.render (Home.mount (Some "3f9c0a7e") (fun _ => Home.Throws) Home.initial b).1
     = Home.SpecialistPortalPage "3f9c0a7e".
Proof.
  intros b. split; [reflexivity |].
  pose proof (token_link_opens_portal (fun _ => Home.Throws) "3f9c0a7e" Home.initial b
                eq_refl) as H.
  destruct (Home.mount (Some "3f9c0a7e") (fun _ => Home.Throws) Home.initial b) as [st1 b1].
  apply H. discriminate.
Defined.

(** ** Escalation from the results page *)

Section Escalation.

Import Types Api ResultsPage.

Variable env : Env.
Variable origin : string.
Variable now : Z.
Variable now_iso : string.
Variable toFixed : Q -> nat -> string.

(** [handleEscalate] always ends with [onEscalationComplete] called, the
    dialog closed and the spinner off.  When the request resolves, the
    service's answer is handed over; when it is rejected, the page hands
    over a result of its own making, for the same case, whose link is
    [<origin>/?token=demo-specialist-token-<now>] and whose SBAR
    recommendation is the assessment's. *)
Theorem escalation_always_completes (fetch : Fetch EscalationResponse.t) (user : User.t)
    (a : RiskAssessmentResponse.t) (st : State) (b : Browser) :
  let run := handleEscalate env origin now now_iso toFixed fetch user a st b in
  showEscalateModal (state run) = false
  /\ escalating (state run) = false
  /\ escalationReason (state run) = escalationReason st
  /\ match (escalateCase env fetch (RiskAssessmentResponse.case_id a)
              (escalationReason st) None b).1 with
     | Resolved result => onEscalationComplete run = Some result
     | Rejected _ =>
         exists made_up,
           onEscalationComplete run = Some (Some made_up)
           /\ EscalationResponse.case_id made_up = RiskAssessmentResponse.case_id a
           /\ EscalationResponse.specialist_magic_link made_up
              = origin ++ "/?token=demo-specialist-token-" ++ pretty now
           /\ Sbar.recommendation (EscalationResponse.sbar made_up)
              = RiskAssessmentResponse.recommendation a
     end.
Proof.
  intros run. subst run. unfold handleEscalate.
  destruct (escalateCase env fetch _ _ None b) as [[result | m] b1]; simpl.
  - repeat split.
  - repeat split. eexists. repeat split.
Qed.

End Escalation.

(** ** Row identity in the [cases] table *)

Section CaseRows.

Import Schema Schema.cases.

Lemma update_row_id w r r' : update_row w r = Some r' -> id r' = id r.
Proof. unfold update_row. intros H. split_binds H. injection H as <-. reflexivity. Qed.

Lemma update_where_ids i w t t' : update_where i w t = Some t' -> map id t' = map id t.
Proof.
  revert t'. induction t as [|r t IH]; simpl; intros t' H.
  - injection H as <-. reflexivity.
  - split_binds H. injection H as <-. simpl. f_equal.
    + destruct (String.eqb (id r) i).
      * eapply update_row_id; eassumption.
      * congruence.
    + apply IH. reflexivity.
Qed.

Lemma exec_ids_unique s t : NoDup (map id t) -> NoDup (map id (exec s t)).
Proof.
  intros Ht. destruct s as [i w | i w | i [|]]; simpl; [| | assumption |].
  - destruct (existsb _ t) eqn:E; [assumption |].
    destruct (insert_row i w) as [r|] eqn:Er; [| assumption].
    assert (Hid : id r = i).
    { unfold insert_row in Er. split_binds Er. injection Er as <-. reflexivity. }
    rewrite map_app. simpl. apply NoDup_app. split; [exact Ht |]. split.
    + intros x Hx ->%list_elem_of_singleton.
      apply list_elem_of_In, in_map_iff in Hx as (r0 & Hr0 & Hin).
      assert (existsb (fun r => String.eqb (id r) i) t = true).
      { apply existsb_exists. exists r0. split; [exact Hin |].
        rewrite Hr0, Hid. apply String.eqb_refl. }
      congruence.
    + apply NoDup_singleton.
  - destruct (update_where i w t) as [t'|] eqn:E; simpl; [| assumption].
    rewrite (update_where_ids i w t t' E). exact Ht.
  - induction t as [|r t IH]; simpl; [constructor |].
    inversion Ht as [|? ? Hr Ht']; subst.
    destruct (negb (String.eqb (id r) i)); simpl; [| apply IH, Ht'].
    constructor; [| apply IH, Ht'].
    intros Hin. apply Hr.
    apply list_elem_of_In, in_map_iff in Hin as (r0 & Hr0 & Hin).
    apply filter_In in Hin as [Hin _].
    apply list_elem_of_In, in_map_iff. exists r0. split; assumption.
Qed.

(** No two rows of the [cases] table share an id, after any sequence of
    INSERT, UPDATE and DELETE statements from the empty table: an INSERT
    under an id that is taken is rejected. *)
Theorem case_ids_unique (ss : list Stmt) : NoDup (map id (run ss [])).
Proof.
  unfold run.
  assert (H : forall t, NoDup (map id t) -> NoDup (map id (fold_left (fun t s => exec s t) ss t))).
  { induction ss as [|s ss IH]; simpl; intros t Ht; [exact Ht |].
    apply IH, exec_ids_unique, Ht. }
  apply H. constructor.
Qed.


End CaseRows.

(** ** The socket hook *)

Section HookProperties.

Import Api UseWebSocket.

Variable env : Env.
Variable Json : Type.
Variable JSON_parse : string -> option Json.
Variable Sub : Type.
Variable caseId : option string.
Variable onMessage : Json -> Sub -> Completion unit * Sub.
Variable enabled : bool.
Variable constructor_throws : string -> option string.

Abbreviation hook_connect :=
  (connect env Json JSON_parse Sub caseId onMessage enabled constructor_throws).
Abbreviation hook_step :=
  (step env Json JSON_parse Sub caseId onMessage enabled constructor_throws).
Abbreviation hook_run :=
  (run env Json JSON_parse Sub caseId onMessage enabled constructor_throws).

Lemma connect_unmounted (h : Hook Json Sub) : mountedRef h = false -> hook_connect h = h.
Proof.
  intros Hm. unfold connect. rewrite Hm, andb_false_r.
  destruct caseId; reflexivity.
Qed.

Lemma step_unmounted e (h0 h : Hook Json Sub) :
  e <> Mount -> unmounted_since h0 h -> unmounted_since h0 (hook_step e h).
Proof.
  intros He (Hm & Hw & Hc & Hs & Hsub & Ht).
  destruct e as [| |s|s|s|s data|t]; simpl; try contradiction.
  - unfold disconnect, set_mounted, unmounted_since. simpl. rewrite Hw.
    repeat split; try assumption.
    intros t. destruct (reconnectTimeout h) as [[|n]|]; simpl; try apply Ht.
    intros Hin. apply list_elem_of_In, filter_In in Hin as [Hin _].
    apply Ht, list_elem_of_In, Hin.
  - rewrite Hm, andb_false_r. repeat split; assumption.
  - rewrite Hm, andb_false_r. repeat split; assumption.
  - rewrite Hm, andb_false_r. repeat split; assumption.
  - destruct (bool_decide _); [| repeat split; assumption].
    unfold unmounted_since. simpl. repeat split; try assumption.
    rewrite <- Hsub, Hm. unfold onmessage.
    destruct (JSON_parse data); reflexivity.
  - destruct (existsb (Nat.eqb t) (timers h)); [| repeat split; assumption].
    rewrite connect_unmounted by exact Hm.
    unfold unmounted_since. simpl. repeat split; try assumption.
    intros x Hin. apply list_elem_of_In, filter_In in Hin as [Hin _].
    apply Ht, list_elem_of_In, Hin.
Qed.

Lemma run_unmounted es (h0 h : Hook Json Sub) :
  Forall (fun e => e <> Mount) es -> unmounted_since h0 h -> unmounted_since h0 (hook_run es h).
Proof.
  unfold run. revert h. induction es as [|e es IH]; simpl; intros h Hes Hh; [exact Hh |].
  inversion Hes as [|? ? He Hes']; subst.
  apply IH; [exact Hes' |]. apply step_unmounted; assumption.
Qed.

(** Once the cleanup has run, and until the effect runs again, nothing
    that happens (frames on any socket, sockets opening, closing or
    failing, pending timeouts firing) reaches the page's [onMessage],
    opens a socket, schedules a timeout or shows the hook as connected. *)
Theorem nothing_happens_after_cleanup (es : list Event) (h : Hook Json Sub) :
  Forall (fun e => e <> Mount) es ->
  let h0 := hook_step Cleanup h in
  let h' := hook_run es h0 in
  delivered h' = delivered h
  /\ (subscriber (handler h')).1 = (subscriber (handler h)).1
  /\ sockets h' = sockets h0
  /\ (forall t, t ∈ timers h' -> t ∈ timers h)
  /\ isConnected h' = false
  /\ wsRef h' = None.
Proof.
  intros Hes h0 h'.
  assert (H0 : unmounted_since h0 h0) by (repeat split; auto).
  destruct (run_unmounted es h0 h0 Hes H0) as (_ & Hw & Hc & Hs & Hsub & Ht).
  fold h' in Hw, Hc, Hs, Hsub, Ht.
  assert (Hh : subscriber (handler h0) = subscriber (handler h)) by reflexivity.
  unfold delivered. rewrite Hsub, Hh. repeat split; try assumption.
  intros t Hin. apply Ht in Hin. subst h0. simpl in Hin.
  destruct (reconnectTimeout h) as [[|n]|]; simpl in Hin; try exact Hin.
  apply list_elem_of_In, filter_In in Hin as [Hin _]. apply list_elem_of_In, Hin.
Qed.

Lemma existsb_eqb_In (t : nat) (l : list nat) : In t l -> existsb (Nat.eqb t) l = true.
Proof.
  intros Hin. apply existsb_exists. exists t. split; [exact Hin | apply Nat.eqb_refl].
Qed.

Lemma connect_opens (h : Hook Json Sub) (id : string) :
  caseId = Some id -> id <> "" -> enabled = true -> mountedRef h = true ->
  (forall url, constructor_throws url = None) ->
  let made := createCaseWebSocket env Json JSON_parse (Sub * list Json) id
                (guarded Json Sub onMessage true) (browser h) in
  hook_connect h
  = mkHook true (Some (length (sockets h))) (isConnected h) (reconnectTimeout h)
           (sockets h ++ [mkSocket made.1.1 false])%list (timers h) (next_timer h)
           (handler h) made.2.
Proof.
  intros Hid Hne Hen Hm Hok made. unfold connect.
  rewrite Hid, Hen, Hm, (truthy_nonempty _ Hne). simpl.
  subst made. destruct (createCaseWebSocket _ _ _ _ _ _ _) as [[url k] b1]. simpl.
  rewrite Hok. reflexivity.
Qed.

Lemma drop_schedules (h : Hook Json Sub) (s : nat) :
  mountedRef h = true -> is_Some (sockets h !! s) ->
  hook_step (Close s) h = schedule_reconnect h
  /\ hook_step (Error s) h = schedule_reconnect h.
Proof.
  intros Hm Hs. simpl. rewrite (bool_decide_eq_true_2 _ Hs), Hm. split; reflexivity.
Qed.

Lemma timeout_connects (h : Hook Json Sub) (t : nat) :
  In t (timers h) ->
  hook_step (Timeout t) h
  = hook_connect (mkHook (mountedRef h) (wsRef h) (isConnected h) (reconnectTimeout h)
                    (sockets h) (List.filter (fun x => negb (Nat.eqb x t)) (timers h))
                    (next_timer h) (handler h) (browser h)).
Proof.
  intros Hin. simpl. rewrite (existsb_eqb_In _ _ Hin). reflexivity.
Qed.

(** While the hook is mounted, every frame that arrives on one of its
    sockets and parses is handed to the page's [onMessage], in order of
    arrival, whether or not [onMessage] throws; frames that do not parse
    are skipped.  The page is left in the state that calling [onMessage]
    on each parsed message, one after the other, leaves it in. *)
Theorem frames_delivered_in_order (frames : list (nat * string)) (h : Hook Json Sub) :
  mountedRef h = true ->
  Forall (fun f => is_Some (sockets h !! f.1)) frames ->
  let h' := hook_run (map (fun f => Message f.1 f.2) frames) h in
  let parsed := omap (fun f => JSON_parse f.2) frames in
  delivered h' = (delivered h ++ parsed)%list
  /\ (subscriber (handler h')).1
     = fold_left (fun s msg => (onMessage msg s).2) parsed (subscriber (handler h)).1
  /\ invocations (handler h') = (invocations (handler h) ++ parsed)%list.
Proof.
  unfold run. revert h. induction frames as [|[s data] frames IH]; intros h Hm Hs; simpl.
  - rewrite !app_nil_r. repeat split.
  - inversion Hs as [|? ? Hhere Hrest]; subst. simpl in Hhere.
    rewrite (bool_decide_eq_true_2 _ Hhere), Hm.
    match goal with
    | |- context [fold_left _ _ ?h1] =>
        destruct (IH h1 eq_refl Hrest) as (Hd & Hsub & Hinv)
    end.
    simpl in Hd, Hsub, Hinv. rewrite Hd, Hsub, Hinv. clear Hd Hsub Hinv IH.
    unfold delivered, onmessage, guarded. simpl.
    destruct (JSON_parse data) as [msg|]; simpl; [| repeat split].
    destruct (onMessage msg (subscriber (handler h)).1) as [[u|m] s']; simpl;
      rewrite <- !app_assoc; repeat split.
Qed.

(** A connection that drops while the hook is mounted is opened again
    when the timeout it set fires: a new socket to the case's url becomes
    the current one, and the hook shows as disconnected until it opens. *)
Theorem dropped_connection_is_reopened (h : Hook Json Sub) (s : nat) (id : string) :
  caseId = Some id -> id <> "" -> enabled = true -> mountedRef h = true ->
  is_Some (sockets h !! s) ->
  (forall url, constructor_throws url = None) ->
  let h' := hook_run [Close s; Timeout (next_timer h)] h in
  let url := (createCaseWebSocket env Json JSON_parse (Sub * list Json) id
                (guarded Json Sub onMessage true) (browser h)).1.1 in
  sockets h' = (sockets h ++ [mkSocket url false])%list
  /\ wsRef h' = Some (length (sockets h))
  /\ isConnected h' = false
  /\ ~ In (next_timer h) (timers h').
Proof.
  intros Hid Hne Hen Hm Hs Hok h' url. subst h'. unfold run. cbn [fold_left].
  rewrite (proj1 (drop_schedules h s Hm Hs)).
  rewrite timeout_connects by (simpl; apply in_or_app; right; left; reflexivity).
  rewrite (connect_opens _ id Hid Hne Hen) by (try exact Hok; exact Hm). simpl.
  repeat split.
  intros Hin. apply filter_In in Hin as [_ Hin].
  rewrite Nat.eqb_refl in Hin. discriminate Hin.
Qed.

(** A failed connection reports both an error and a close; each sets its
    own timeout, so two sockets are opened. Only the second becomes the
    current one: the cleanup closes it and leaves the first open. *)
Theorem failed_connection_leaves_a_socket_open (h : Hook Json Sub) (s : nat) (id : string) :
  caseId = Some id -> id <> "" -> enabled = true -> mountedRef h = true ->
  is_Some (sockets h !! s) ->
  (forall url, constructor_throws url = None) ->
  let n := next_timer h in
  let h' := hook_run [Error s; Close s; Timeout n; Timeout (S n); Cleanup] h in
  length (sockets h') = length (sockets h) + 2
  /\ close_called <$> sockets h' !! length (sockets h) = Some false
  /\ close_called <$> sockets h' !! S (length (sockets h)) = Some true
  /\ wsRef h' = None.
Proof.
  intros Hid Hne Hen Hm Hs Hok n h'. subst h' n. unfold run. cbn [fold_left].
  rewrite (proj2 (drop_schedules h s Hm Hs)).
  rewrite (proj1 (drop_schedules (schedule_reconnect h) s Hm Hs)).
  rewrite (timeout_connects (schedule_reconnect (schedule_reconnect h)) (next_timer h))
    by (simpl; apply in_or_app; left; apply in_or_app; right; left; reflexivity).
  rewrite (connect_opens _ id Hid Hne Hen) by (try exact Hok; exact Hm).
  rewrite (timeout_connects _ (S (next_timer h))).
  2:{ simpl. apply filter_In. split.
      - apply in_or_app; right; left; reflexivity.
      - apply negb_true_iff, Nat.eqb_neq. lia. }
  rewrite (connect_opens _ id Hid Hne Hen) by (try exact Hok; reflexivity).
  simpl. unfold disconnect, set_mounted. simpl.
  set (S0 := sockets h).
  set (a := mkSocket _ false). set (c := mkSocket _ false).
  assert (Hlen : length (S0 ++ [a]) = S (length S0))
    by (rewrite length_app; simpl; lia).
  repeat split.
  - rewrite length_alter, !length_app. simpl. lia.
  - rewrite list_lookup_alter_ne by lia.
    rewrite lookup_app_l by lia.
    rewrite lookup_app_r by lia. rewrite Nat.sub_diag. reflexivity.
  - rewrite <- Hlen. rewrite list_lookup_alter.
    rewrite lookup_app_r by lia. rewrite Nat.sub_diag.
    rewrite decide_True by reflexivity. reflexivity.
Qed.

End HookProperties.

Section HookWitnesses.

Import Api UseWebSocket.

Abbreviation case1_step :=
  (step (mkEnv None None) unit null_only nat (Some "case-1") counting_subscriber true
     (fun _ => None)).
Abbreviation case1_run :=
  (run (mkEnv None None) unit null_only nat (Some "case-1") counting_subscriber true
     (fun _ => None)).
Abbreviation case1_mounted := (case1_step Mount (initial 0 (mkBrowser None true ∅))).

(** One frame delivered, then the cleanup, then more traffic on the socket. *)
Lemma nothing_happens_after_cleanup_witness :
  let es := [Message 0 "null"; Close 0; Timeout 1; Open 0; Error 0; Message 0 "null"] in
  let h := case1_step (Message 0 "null") case1_mounted in
  let h' := case1_run es (case1_step Cleanup h) in
  Forall (fun e => e <> Mount) es
  /\ delivered h = [tt]
  /\ delivered h' = [tt]
  /\ sockets h' = [mkSocket "ws://localhost:8000/ws/case/case-1" true]
  /\ isConnected h' = false.
Proof.
  assert (Hes : Forall (fun e => e <> Mount)
                  [Message 0 "null"; Close 0; Timeout 1; Open 0; Error 0; Message 0 "null"]).
  { repeat constructor; discriminate. }
  split; [exact Hes |]. split; [reflexivity |].
  pose proof (nothing_happens_after_cleanup (mkEnv None None) unit null_only nat
                (Some "case-1") counting_subscriber true (fun _ => None) _
                (case1_step (Message 0 "null") case1_mounted) Hes)
    as (H1 & _ & H3 & _ & H5 & _).
  split; [exact H1 | split; [exact H3 | exact H5]].
Defined.

(** Three frames on the socket opened at mount, the second one malformed. *)
Lemma frames_delivered_in_order_witness :
  let frames := [(0, "null"); (0, "{oops"); (0, "null")] in
  let h' := case1_run (map (fun f => Message f.1 f.2) frames) case1_mounted in
  (mountedRef case1_mounted = true
   /\ Forall (fun f => is_Some (sockets case1_mounted !! f.1)) frames)
  /\ delivered h' = [tt; tt]
  /\ (subscriber (handler h')).1 = 2.
Proof.
  assert (Hs : Forall (fun f : nat * string => is_Some (sockets case1_mounted !! f.1))
                 [(0, "null"); (0, "{oops"); (0, "null")]).
  { repeat constructor; eexists; reflexivity. }
  split; [split; [reflexivity | exact Hs] |].
  destruct (frames_delivered_in_order (mkEnv None None) unit null_only nat (Some "case-1")
              counting_subscriber true (fun _ => None) _ case1_mounted eq_refl Hs)
    as (Hd & Hsub & _).
  split; [exact Hd | exact Hsub].
Defined.

(** The socket opened at mount opens, then closes; the timeout fires. *)
Lemma dropped_connection_is_reopened_witness :
  let h := case1_step (Open 0) case1_mounted in
  let h' := case1_run [Close 0; Timeout 1] h in
  (mountedRef h = true /\ is_Some (sockets h !! 0) /\ isConnected h = true)
  /\ sockets h'
     = [mkSocket "ws://localhost:8000/ws/case/case-1" false;
        mkSocket "ws://localhost:8000/ws/case/case-1" false]
  /\ wsRef h' = Some 1
  /\ isConnected h' = false.
Proof.
  assert (Hs : is_Some (sockets (case1_step (Open 0) case1_mounted) !! 0)).
  { eexists; reflexivity. }
  split; [split; [reflexivity | split; [exact Hs | reflexivity]] |].
  pose proof (dropped_connection_is_reopened (mkEnv None None) unit null_only nat
                (Some "case-1") counting_subscriber true (fun _ => None)
                (case1_step (Open 0) case1_mounted) 0 "case-1"
                eq_refl ltac:(discriminate) eq_refl eq_refl Hs (fun _ => eq_refl))
    as (H1 & H2 & H3 & _).
  split; [exact H1 | split; [exact H2 | exact H3]].
Defined.

(** The socket opened at mount fails; both timeouts fire before the cleanup. *)
Lemma failed_connection_leaves_a_socket_open_witness :
  let h' := case1_run [Error 0; Close 0; Timeout 1; Timeout 2; Cleanup] case1_mounted in
  (mountedRef case1_mounted = true /\ is_Some (sockets case1_mounted !! 0))
  /\ length (sockets h') = 3
  /\ close_called <$> sockets h' !! 1 = Some false
  /\ close_called <$> sockets h' !! 2 = Some true
  /\ wsRef h' = None.
Proof.
  assert (Hs : is_Some (sockets case1_mounted !! 0)).
  { eexists; reflexivity. }
  split; [split; [reflexivity | exact Hs] |].
  exact (failed_connection_leaves_a_socket_open (mkEnv None None) unit null_only nat
           (Some "case-1") counting_subscriber true (fun _ => None) case1_mounted 0 "case-1"
           eq_refl ltac:(discriminate) eq_refl eq_refl Hs (fun _ => eq_refl)).
Defined.

End HookWitnesses.
